(** * Clock event devices: a model of kernel/time/clockevents.c

    The file embeds the clock event layer of the kernel (scaled tick to
    nanosecond conversion, the mode state machine, the event programmer
    with its minimum-delta fallback, and the device registry) as Rocq
    functions, and proves the properties its specification states.

    Conventions.
    - C integers are [Z] values; every place where the C code truncates
      to a fixed width is written out with [u64], [s64], [u32] or [ulong].
    - A device is a record; its [set_next_event] and [set_next_ktime]
      function pointers are record fields.  Driver callbacks are outside
      this file: the model appends every invocation to a trace and takes
      the callback's return value as a function of the trace so far and
      of the argument.  Callbacks do not write to the fields this file
      manages.
    - Device level code runs in a small state monad over a [machine]
      (the device plus the trace); registry code passes a [registry]
      explicitly and returns an [outcome], because [BUG_ON], a fault or
      a broken list stops it. *)

From stdpp Require Import base numbers list option gmap sets.

Local Open Scope Z_scope.

(** ** Fixed width arithmetic *)

Module Wrap.

(** [~0ULL] *)
Definition U64_MAX : Z := 2 ^ 64 - 1.

(** Conversion to [u64] / [unsigned long long]. *)
Definition u64 (x : Z) : Z := x mod 2 ^ 64.

(** Conversion to [s64] / [int64_t] (two's complement). *)
Definition s64 (x : Z) : Z := (x + 2 ^ 63) mod 2 ^ 64 - 2 ^ 63.

(** Conversion to [u32] / [unsigned int]. *)
Definition u32 (x : Z) : Z := x mod 2 ^ 32.

(** Conversion to [unsigned long], [bits] wide. *)
Definition ulong (bits : Z) (x : Z) : Z := x mod 2 ^ bits.

End Wrap.
Export Wrap.

(** ** Constants from headers *)

(** [KTIME_MAX], the largest [s64]; it stands for "no event". *)
Definition KTIME_MAX : Z := 2 ^ 63 - 1.

(** [NSEC_PER_SEC] *)
Definition NSEC_PER_SEC : Z := 1000000000.

(** [ETIME] of asm-generic/errno.h. *)
Definition ETIME : Z := 62.

(** Modelled from the spec: the capability flag "supports absolute-time
    arming" of linux/clockchips.h, which is not among the sources; the
    bit value is the one of that header. *)
Definition CLOCK_EVT_FEAT_KTIME : Z := 4.

(** ** Data model *)

(** Modelled from the spec: [enum clock_event_mode] of linux/clockchips.h,
    which is not among the sources; the spec lists UNUSED (initial),
    SHUTDOWN, PERIODIC and ONESHOT. *)
Inductive clock_event_mode : Set :=
| CLOCK_EVT_MODE_UNUSED
| CLOCK_EVT_MODE_SHUTDOWN
| CLOCK_EVT_MODE_PERIODIC
| CLOCK_EVT_MODE_ONESHOT.

#[global] Instance clock_event_mode_eq_dec : EqDecision clock_event_mode.
Proof. solve_decision. Defined.

(** What the code does to the world outside the device structure, in the
    order in which it happens. *)
Inductive event : Type :=
| EvSetMode (mode : clock_event_mode)     (* dev->set_mode(mode, dev) *)
| EvSetNextEvent (evt : Z) (rc : Z)       (* dev->set_next_event(evt, dev) = rc *)
| EvSetNextKtime (expires : Z) (rc : Z)   (* dev->set_next_ktime(expires, dev) = rc *)
| EvKtimeGet (now : Z)                    (* ktime_get() = now *)
| EvWarn                                  (* WARN_ON(1), WARN_ON_ONCE(1) *)
| EvGiveUp                                (* printk "Reprogramming failure. Giving up" *)
| EvIncreased (ns : Z).                   (* printk "increased min_delta_ns to ..." *)

(** Modelled from the spec: [struct clock_event_device] of
    linux/clockchips.h, which is not among the sources.  The fields are
    those the spec's data model lists and the code reads or writes:
    [next_event] is the [tv64] of a [ktime_t] ([s64]), the [_ns] bounds
    are [u64], [mult] and [shift] are [u32], [retries] and the [_ticks]
    bounds are [unsigned long]; [cpumask] is a pointer, [None] when NULL. *)
Record clock_event_device : Type := {
  set_next_event : list event → Z → Z;
  set_next_ktime : list event → Z → Z;
  next_event : Z;
  max_delta_ns : Z;
  min_delta_ns : Z;
  mult : Z;
  shift : Z;
  mode : clock_event_mode;
  features : Z;
  retries : Z;
  min_delta_ticks : Z;
  max_delta_ticks : Z;
  cpumask : option (gset nat)
}.

(** Field assignments. *)
Definition with_next_event (v : Z) (d : clock_event_device) :=
  {| set_next_event := set_next_event d; set_next_ktime := set_next_ktime d;
     next_event := v; max_delta_ns := max_delta_ns d;
     min_delta_ns := min_delta_ns d; mult := mult d; shift := shift d;
     mode := mode d; features := features d; retries := retries d;
     min_delta_ticks := min_delta_ticks d;
     max_delta_ticks := max_delta_ticks d; cpumask := cpumask d |}.

Definition with_min_delta_ns (v : Z) (d : clock_event_device) :=
  {| set_next_event := set_next_event d; set_next_ktime := set_next_ktime d;
     next_event := next_event d; max_delta_ns := max_delta_ns d;
     min_delta_ns := v; mult := mult d; shift := shift d;
     mode := mode d; features := features d; retries := retries d;
     min_delta_ticks := min_delta_ticks d;
     max_delta_ticks := max_delta_ticks d; cpumask := cpumask d |}.

Definition with_mult (v : Z) (d : clock_event_device) :=
  {| set_next_event := set_next_event d; set_next_ktime := set_next_ktime d;
     next_event := next_event d; max_delta_ns := max_delta_ns d;
     min_delta_ns := min_delta_ns d; mult := v; shift := shift d;
     mode := mode d; features := features d; retries := retries d;
     min_delta_ticks := min_delta_ticks d;
     max_delta_ticks := max_delta_ticks d; cpumask := cpumask d |}.

Definition with_mode (v : clock_event_mode) (d : clock_event_device) :=
  {| set_next_event := set_next_event d; set_next_ktime := set_next_ktime d;
     next_event := next_event d; max_delta_ns := max_delta_ns d;
     min_delta_ns := min_delta_ns d; mult := mult d; shift := shift d;
     mode := v; features := features d; retries := retries d;
     min_delta_ticks := min_delta_ticks d;
     max_delta_ticks := max_delta_ticks d; cpumask := cpumask d |}.

Definition with_retries (v : Z) (d : clock_event_device) :=
  {| set_next_event := set_next_event d; set_next_ktime := set_next_ktime d;
     next_event := next_event d; max_delta_ns := max_delta_ns d;
     min_delta_ns := min_delta_ns d; mult := mult d; shift := shift d;
     mode := mode d; features := features d; retries := v;
     min_delta_ticks := min_delta_ticks d;
     max_delta_ticks := max_delta_ticks d; cpumask := cpumask d |}.

Definition with_cpumask (v : option (gset nat)) (d : clock_event_device) :=
  {| set_next_event := set_next_event d; set_next_ktime := set_next_ktime d;
     next_event := next_event d; max_delta_ns := max_delta_ns d;
     min_delta_ns := min_delta_ns d; mult := mult d; shift := shift d;
     mode := mode d; features := features d; retries := retries d;
     min_delta_ticks := min_delta_ticks d;
     max_delta_ticks := max_delta_ticks d; cpumask := v |}.

(** ** The device level state monad *)

(** The device a function was called on, and the trace so far (oldest
    event first). *)
Record machine : Type := { dev : clock_event_device; trace : list event }.

Definition M (A : Type) : Type := machine → A * machine.

#[global] Instance M_ret : MRet M := λ A (a : A) m, (a, m).
#[global] Instance M_bind : MBind M :=
  λ A B (f : A → M B) (c : M A) m, let '(a, m') := c m in f a m'.

Definition get_dev : M clock_event_device := λ m, (dev m, m).

Definition modify_dev (f : clock_event_device → clock_event_device) : M unit :=
  λ m, (tt, {| dev := f (dev m); trace := trace m |}).

Definition emit (e : event) : M unit :=
  λ m, (tt, {| dev := dev m; trace := trace m ++ [e] |}).

(** [dev->set_mode(mode, dev)]: returns nothing. *)
Definition call_set_mode (mode : clock_event_mode) : M unit :=
  emit (EvSetMode mode).

(** [dev->set_next_event(evt, dev)] *)
Definition call_set_next_event (evt : Z) : M Z :=
  λ m, let rc := set_next_event (dev m) (trace m) evt in
       (rc, {| dev := dev m; trace := trace m ++ [EvSetNextEvent evt rc] |}).

(** [dev->set_next_ktime(expires, dev)] *)
Definition call_set_next_ktime (expires : Z) : M Z :=
  λ m, let rc := set_next_ktime (dev m) (trace m) expires in
       (rc, {| dev := dev m; trace := trace m ++ [EvSetNextKtime expires rc] |}).

(** [WARN_ON(1)] *)
Definition WARN_ON : M unit := emit EvWarn.

(** [ktime_add_ns(kt, nsec)] and [ktime_sub(lhs, rhs)] on the scalar
    [tv64]. *)
Definition ktime_add_ns (kt nsec : Z) : Z := s64 (kt + nsec).
Definition ktime_sub (lhs rhs : Z) : Z := s64 (lhs - rhs).

(** The repeated expression
    [((unsigned long long) delta * dev->mult) >> dev->shift]
    (lines 154, 180 and 214). *)
Definition delta2clc (delta : Z) (d : clock_event_device) : Z :=
  Z.shiftr (u64 (u64 delta * mult d)) (shift d).

(** ** Scaled math (lines 30-88) *)

(** The condition of lines 68-69,
    [(~0ULL - clc > rnd) && (!ismax || evt->mult <= (1U << evt->shift))].
    [1U << evt->shift] is a value of 32 bits.  For a shift count of 32 or
    more C leaves it undefined; the model takes the low 32 bits of the
    shifted value, which are 0. *)
Definition rounding_guard (clc rnd : Z) (evt : clock_event_device)
    (ismax : bool) : bool :=
  bool_decide (u64 (U64_MAX - clc) > rnd) &&
  (negb ismax || bool_decide (mult evt ≤ u32 (Z.shiftl 1 (shift evt)))).

(** [cev_delta2ns(latch, evt, ismax)] *)
Definition cev_delta2ns (latch : Z) (ismax : bool) : M Z :=
  evt ← get_dev;
  let clc := u64 (Z.shiftl (u64 latch) (shift evt)) in
  (if decide (mult evt = 0)
   then modify_dev (with_mult 1);; WARN_ON
   else mret tt);;
  evt ← get_dev;
  let rnd := u64 (u64 (mult evt) - 1) in
  let clc := if decide (Z.shiftr clc (shift evt) ≠ u64 latch)
             then U64_MAX else clc in
  let clc := if rounding_guard clc rnd evt ismax
             then u64 (clc + rnd) else clc in
  let clc := clc / mult evt in
  mret (if decide (clc > 1000) then clc else 1000).

(** [clockevent_delta2ns(latch, evt)] *)
Definition clockevent_delta2ns (latch : Z) : M Z :=
  cev_delta2ns latch false.

(** ** Mode state machine (lines 91-111) *)

(** [clockevents_set_mode(dev, mode)] *)
Definition clockevents_set_mode (new_mode : clock_event_mode) : M unit :=
  d ← get_dev;
  if decide (mode d ≠ new_mode) then
    call_set_mode new_mode;;
    modify_dev (with_mode new_mode);;
    if decide (new_mode = CLOCK_EVT_MODE_ONESHOT) then
      d ← get_dev;
      if decide (mult d = 0)
      then modify_dev (with_mult 1);; WARN_ON
      else mret tt
    else mret tt
  else mret tt.

(** [clockevents_shutdown(dev)] *)
Definition clockevents_shutdown : M unit :=
  clockevents_set_mode CLOCK_EVT_MODE_SHUTDOWN;;
  modify_dev (with_next_event KTIME_MAX).

(** ** Registry data *)

(** Modelled from the spec: the reasons of the notifier chain, declared in
    linux/clockchips.h, which is not among the sources.  The spec names
    device-added and processor-dead; every other reason is passed through. *)
Inductive notify_reason : Type :=
| CLOCK_EVT_NOTIFY_ADD
| CLOCK_EVT_NOTIFY_CPU_DEAD
| CLOCK_EVT_NOTIFY_OTHER (code : Z).

(** The [void *] payload of a notification: a device, or an [int] that
    holds a processor number. *)
Inductive notify_arg : Type :=
| arg_dev (d : nat)
| arg_cpu (cpu : nat)
| arg_null.

Inductive reg_event : Type :=
| RegNotify (reason : notify_reason) (arg : notify_arg)
                                   (* raw_notifier_call_chain(...) *)
| RegWarn.                         (* WARN_ON(num_possible_cpus() > 1) *)

(** Devices live in memory ([devs], address to structure); the two lists
    link them by address, first element next to the list head. *)
Record registry : Type := {
  devs : gmap nat clock_event_device;
  clockevent_devices : list nat;
  clockevents_released : list nat;
  chain_log : list reg_event
}.

Definition with_devs (v : gmap nat clock_event_device) (r : registry) :=
  {| devs := v; clockevent_devices := clockevent_devices r;
     clockevents_released := clockevents_released r;
     chain_log := chain_log r |}.

Definition with_devices (v : list nat) (r : registry) :=
  {| devs := devs r; clockevent_devices := v;
     clockevents_released := clockevents_released r;
     chain_log := chain_log r |}.

Definition with_released (v : list nat) (r : registry) :=
  {| devs := devs r; clockevent_devices := clockevent_devices r;
     clockevents_released := v; chain_log := chain_log r |}.

Definition with_chain_log (v : list reg_event) (r : registry) :=
  {| devs := devs r; clockevent_devices := clockevent_devices r;
     clockevents_released := clockevents_released r; chain_log := v |}.

(** How an operation ends: normally; in [BUG_ON]; in a processor fault
    (a pointer that holds no device is followed, or [do_div] divides by
    zero); or with the lists broken, because [list_add] linked a node that
    a list already held. *)
Inductive outcome (A : Type) : Type :=
| Done (a : A)
| Bug
| Fault
| Corrupt.
Arguments Done {A} a.
Arguments Bug {A}.
Arguments Fault {A}.
Arguments Corrupt {A}.

#[global] Instance outcome_ret : MRet outcome := λ A (a : A), Done a.
#[global] Instance outcome_bind : MBind outcome :=
  λ A B (f : A → outcome B) (o : outcome A),
    match o with
    | Done a => f a
    | Bug => Bug
    | Fault => Fault
    | Corrupt => Corrupt
    end.

(** [list_del(&dev->list)] on the list that links [d]. *)
Definition list_del (d : nat) (l : list nat) : list nat :=
  filter (λ x, x ≠ d) l.

Section Clockevents.

(** Build and platform parameters, and the collaborators of this file. *)

(** [HZ], the scheduler tick frequency. *)
Variable HZ : Z.

(** Width of [unsigned long]: 32 or 64. *)
Variable BITS_PER_LONG : Z.

(** [CONFIG_GENERIC_CLOCKEVENTS_MIN_ADJUST] *)
Variable CONFIG_GENERIC_CLOCKEVENTS_MIN_ADJUST : bool.

(** The monotonic clock: what [ktime_get()] returns after the given
    trace. *)
Variable ktime_get : list event → Z.

(** [ktime_get()] *)
Definition call_ktime_get : M Z :=
  λ m, let now := ktime_get (trace m) in
       (now, {| dev := dev m; trace := trace m ++ [EvKtimeGet now] |}).

(** ** Event programmer (lines 113-218) *)

(** [MIN_DELTA_LIMIT], [(NSEC_PER_SEC / HZ)] *)
Definition MIN_DELTA_LIMIT : Z := NSEC_PER_SEC `quot` HZ.

(** [clockevents_increase_min_delta(dev)] *)
Definition clockevents_increase_min_delta : M Z :=
  d ← get_dev;
  if decide (min_delta_ns d >= u64 MIN_DELTA_LIMIT) then
    emit EvGiveUp;;
    modify_dev (with_next_event KTIME_MAX);;
    mret (- ETIME)
  else
    (if decide (min_delta_ns d < 5000)
     then modify_dev (with_min_delta_ns 5000)
     else modify_dev
            (with_min_delta_ns
               (u64 (min_delta_ns d + Z.shiftr (min_delta_ns d) 1))));;
    d ← get_dev;
    (if decide (min_delta_ns d > u64 MIN_DELTA_LIMIT)
     then modify_dev (with_min_delta_ns (u64 MIN_DELTA_LIMIT))
     else mret tt);;
    d ← get_dev;
    emit (EvIncreased (min_delta_ns d));;
    mret 0.

(** [clockevents_program_min_delta(dev)] under
    [CONFIG_GENERIC_CLOCKEVENTS_MIN_ADJUST] (lines 140-164).  The
    [for (i = 0;;)] loop is unrolled [fuel] times; [None] means that the
    fuel ran out before the loop returned. *)
Fixpoint program_min_delta_adjust (fuel : nat) (i : Z) : M (option Z) :=
  match fuel with
  | O => mret None
  | S fuel' =>
      d ← get_dev;
      let delta := s64 (min_delta_ns d) in
      now ← call_ktime_get;
      modify_dev (with_next_event (ktime_add_ns now delta));;
      d ← get_dev;
      if decide (mode d = CLOCK_EVT_MODE_SHUTDOWN) then mret (Some 0)
      else
        modify_dev (with_retries (ulong BITS_PER_LONG (retries d + 1)));;
        d ← get_dev;
        let clc := delta2clc delta d in
        rc ← call_set_next_event (ulong BITS_PER_LONG clc);
        if decide (rc = 0) then mret (Some 0)
        else
          let i := i + 1 in
          if decide (i > 2) then
            rc ← clockevents_increase_min_delta;
            if decide (rc ≠ 0) then mret (Some (- ETIME))
            else program_min_delta_adjust fuel' 0
          else program_min_delta_adjust fuel' i
  end.

(** [clockevents_program_min_delta(dev)] without the option
    (lines 168-182). *)
Definition program_min_delta_single : M Z :=
  d ← get_dev;
  let delta := s64 (min_delta_ns d) in
  now ← call_ktime_get;
  modify_dev (with_next_event (ktime_add_ns now delta));;
  d ← get_dev;
  if decide (mode d = CLOCK_EVT_MODE_SHUTDOWN) then mret 0
  else
    modify_dev (with_retries (ulong BITS_PER_LONG (retries d + 1)));;
    d ← get_dev;
    let clc := delta2clc delta d in
    call_set_next_event (ulong BITS_PER_LONG clc).

(** [clockevents_program_min_delta(dev)], as the build selects it. *)
Definition clockevents_program_min_delta (fuel : nat) : M (option Z) :=
  if CONFIG_GENERIC_CLOCKEVENTS_MIN_ADJUST
  then program_min_delta_adjust fuel 0
  else rc ← program_min_delta_single; mret (Some rc).

(** [clockevents_program_event(dev, expires, force)]; [fuel] bounds the
    loop of the minimum-delta fallback. *)
Definition clockevents_program_event (fuel : nat) (expires : Z)
    (force : bool) : M (option Z) :=
  if decide (expires < 0) then
    WARN_ON;; mret (Some (- ETIME))
  else
    modify_dev (with_next_event expires);;
    d ← get_dev;
    if decide (mode d = CLOCK_EVT_MODE_SHUTDOWN) then mret (Some 0)
    else if decide (Z.land (features d) CLOCK_EVT_FEAT_KTIME ≠ 0) then
      rc ← call_set_next_ktime expires; mret (Some rc)
    else
      now ← call_ktime_get;
      let delta := ktime_sub expires now in
      if decide (delta ≤ 0) then
        if force then clockevents_program_min_delta fuel
        else mret (Some (- ETIME))
      else
        let delta := Z.min delta (s64 (max_delta_ns d)) in
        let delta := Z.max delta (s64 (min_delta_ns d)) in
        let clc := delta2clc delta d in
        rc ← call_set_next_event (ulong BITS_PER_LONG clc);
        if bool_decide (rc ≠ 0) && force
        then clockevents_program_min_delta fuel
        else mret (Some rc).

(** ** Device registry and notification (lines 220-267, 334-361) *)

(** [tick_is_broadcast_device(dev)] of tick-broadcast.c. *)
Variable tick_is_broadcast_device : nat → bool.

(** [smp_processor_id()] and [num_possible_cpus()]. *)
Variable smp_processor_id : nat.
Variable num_possible_cpus : Z.

(** [clockevents_do_notify(reason, dev)]: the subscribers of
    [clockevents_chain] are outside this file; the call is logged. *)
Definition clockevents_do_notify (reason : notify_reason) (arg : notify_arg)
    (r : registry) : registry :=
  with_chain_log (chain_log r ++ [RegNotify reason arg]) r.

(** [clockevents_notify_released()]: the [while (!list_empty(...))] loop
    takes the first released device, unlinks it, links it at the head of
    [clockevent_devices] and notifies it.  [released] is the released
    list of [r]; the recursion is on it. *)
Fixpoint notify_released_loop (released : list nat) (r : registry)
    : registry :=
  match released with
  | [] => r
  | d :: rest =>
      let r := with_released rest r in
      let r := with_devices (d :: clockevent_devices r) r in
      let r := clockevents_do_notify CLOCK_EVT_NOTIFY_ADD (arg_dev d) r in
      notify_released_loop rest r
  end.

Definition clockevents_notify_released (r : registry) : registry :=
  notify_released_loop (clockevents_released r) r.

(** [clockevents_register_device(dev)].  [list_add] of line 262 takes a
    node that no list holds.  On a device that is already linked it
    overwrites the node's pointers while its old neighbours still point
    to it: from the released list, [clockevents_released.next] stays on
    the device and the loop of lines 241-247 does not end; from the active
    list, the list is left cyclic.  Both end in [Corrupt]. *)
Definition clockevents_register_device (d : nat) (r : registry)
    : outcome registry :=
  match devs r !! d with
  | None => Fault
  | Some dv =>
      if decide (mode dv ≠ CLOCK_EVT_MODE_UNUSED) then Bug
      else
        let r :=
          match cpumask dv with
          | None =>
              let r := if decide (num_possible_cpus > 1)
                       then with_chain_log (chain_log r ++ [RegWarn]) r
                       else r in
              with_devs
                (<[d := with_cpumask (Some {[smp_processor_id]}) dv]> (devs r))
                r
          | Some _ => r
          end in
        if decide (d ∈ clockevent_devices r ∨ d ∈ clockevents_released r)
        then Corrupt
        else
          let r := with_devices (d :: clockevent_devices r) r in
          let r := clockevents_do_notify CLOCK_EVT_NOTIFY_ADD (arg_dev d) r in
          Done (clockevents_notify_released r)
  end.

(** The test of lines 349-351 on a device with affinity [mask]. *)
Definition cpu_dead_test (cpu : nat) (d : nat) (mask : gset nat) : bool :=
  bool_decide (cpu ∈ mask) && bool_decide (size mask = 1%nat) &&
  negb (tick_is_broadcast_device d).

(** The second [list_for_each_entry_safe] of [clockevents_notify]
    (lines 348-355), over the devices [todo] still to visit. *)
Fixpoint cpu_dead_prune (cpu : nat) (todo : list nat) (r : registry)
    : outcome registry :=
  match todo with
  | [] => Done r
  | d :: rest =>
      match devs r !! d with
      | None => Fault
      | Some dv =>
          match cpumask dv with
          | None => Fault
          | Some mask =>
              if cpu_dead_test cpu d mask then
                if decide (mode dv ≠ CLOCK_EVT_MODE_UNUSED) then Bug
                else cpu_dead_prune cpu rest
                       (with_devices (list_del d (clockevent_devices r)) r)
              else cpu_dead_prune cpu rest r
          end
      end
  end.

(** [clockevents_notify(reason, arg)] *)
Definition clockevents_notify (reason : notify_reason) (arg : notify_arg)
    (r : registry) : outcome registry :=
  let r := clockevents_do_notify reason arg r in
  match reason with
  | CLOCK_EVT_NOTIFY_CPU_DEAD =>
      let r := with_released [] r in
      match arg with
      | arg_cpu cpu => cpu_dead_prune cpu (clockevent_devices r) r
      | _ => Fault
      end
  | _ => Done r
  end.

(** ** Definitions used to state the properties *)

(** The value of [clc] after the overflow check of lines 46-47: the
    latch scaled by [2^shift], or [~0ULL] when that does not fit. *)
Definition scaled_latch (latch s : Z) : Z :=
  if decide (latch * 2 ^ s < 2 ^ 64) then latch * 2 ^ s else U64_MAX.

(** The nanosecond value [cev_delta2ns] computes for a device whose
    [mult] is not zero, as one expression. *)
Definition delta2ns_value (latch : Z) (evt : clock_event_device)
    (ismax : bool) : Z :=
  let clc := scaled_latch latch (shift evt) in
  let rnd := mult evt - 1 in
  Z.max 1000
    ((if rounding_guard clc rnd evt ismax then clc + rnd else clc)
       `div` mult evt).

(** The growth step as the specification words it: up to the floor of
    5000 ns, then times 1.5, never beyond [limit]. *)
Definition grow_min_delta (limit x : Z) : Z :=
  Z.min limit (if decide (x < 5000) then 5000 else 3 * x / 2).

(** Number of [set_next_event] invocations in a trace. *)
Definition is_arm (e : event) : bool :=
  match e with EvSetNextEvent _ _ => true | _ => false end.

Definition arm_count (tr : list event) : nat :=
  length (List.filter is_arm tr).

(** The machine after one pass through lines 147-155 on a device that
    is not shut down: the clock is read, [next_event] and [retries] are
    updated and [set_next_event] has been invoked. *)
Definition attempt (m : machine) : machine :=
  let now := ktime_get (trace m) in
  let delta := s64 (min_delta_ns (dev m)) in
  let d := with_retries (ulong BITS_PER_LONG (retries (dev m) + 1))
             (with_next_event (ktime_add_ns now delta) (dev m)) in
  let evt := ulong BITS_PER_LONG (delta2clc delta d) in
  let tr := trace m ++ [EvKtimeGet now] in
  {| dev := d;
     trace := tr ++ [EvSetNextEvent evt (set_next_event d tr evt)] |}.

(** The machine after [clockevents_increase_min_delta] has raised
    [min_delta_ns] to [v] and reported it. *)
Definition raised (v : Z) (m : machine) : machine :=
  {| dev := with_min_delta_ns v (dev m);
     trace := trace m ++ [EvIncreased v] |}.

(** The machine after [clockevents_increase_min_delta] has given up. *)
Definition given_up (m : machine) : machine :=
  {| dev := with_next_event KTIME_MAX (dev m);
     trace := trace m ++ [EvGiveUp] |}.

(** The processor-dead test on the device stored at [d]. *)
Definition doomed (r : registry) (cpu d : nat) : bool :=
  match devs r !! d with
  | Some dv =>
      match cpumask dv with
      | Some mask => cpu_dead_test cpu d mask
      | None => false
      end
  | None => false
  end.

(** Every linked device is in memory with an affinity mask, and those
    the processor-dead test selects are in mode UNUSED. *)
Definition prunable (r : registry) (cpu : nat) (l : list nat) : Prop :=
  ∀ d, d ∈ l →
    ∃ dv mask,
      devs r !! d = Some dv ∧ cpumask dv = Some mask ∧
      (cpu_dead_test cpu d mask = true → mode dv = CLOCK_EVT_MODE_UNUSED).

(** The notifications the drain of a backlog sends. *)
Definition added (l : list nat) : list reg_event :=
  (λ d, RegNotify CLOCK_EVT_NOTIFY_ADD (arg_dev d)) <$> l.

(** A device that can never be armed: it is not shut down and its
    [set_next_event] fails whatever it is asked. *)
Definition never_arms (d : clock_event_device) : Prop :=
  mode d ≠ CLOCK_EVT_MODE_SHUTDOWN ∧
  ∀ tr evt, set_next_event d tr evt ≠ 0.

End Clockevents.

(** ** Frequency configuration (lines 270-308) *)

(** Modelled from the spec: the capability flag "supports oneshot" of
    linux/clockchips.h, which is not among the sources; the bit value is
    the one of that header. *)
Definition CLOCK_EVT_FEAT_ONESHOT : Z := 2.

(** [UINT_MAX] *)
Definition UINT_MAX : Z := 2 ^ 32 - 1.

Definition with_shift (v : Z) (d : clock_event_device) :=
  {| set_next_event := set_next_event d; set_next_ktime := set_next_ktime d;
     next_event := next_event d; max_delta_ns := max_delta_ns d;
     min_delta_ns := min_delta_ns d; mult := mult d; shift := v;
     mode := mode d; features := features d; retries := retries d;
     min_delta_ticks := min_delta_ticks d;
     max_delta_ticks := max_delta_ticks d; cpumask := cpumask d |}.

Definition with_max_delta_ns (v : Z) (d : clock_event_device) :=
  {| set_next_event := set_next_event d; set_next_ktime := set_next_ktime d;
     next_event := next_event d; max_delta_ns := v;
     min_delta_ns := min_delta_ns d; mult := mult d; shift := shift d;
     mode := mode d; features := features d; retries := retries d;
     min_delta_ticks := min_delta_ticks d;
     max_delta_ticks := max_delta_ticks d; cpumask := cpumask d |}.

Definition with_min_delta_ticks (v : Z) (d : clock_event_device) :=
  {| set_next_event := set_next_event d; set_next_ktime := set_next_ktime d;
     next_event := next_event d; max_delta_ns := max_delta_ns d;
     min_delta_ns := min_delta_ns d; mult := mult d; shift := shift d;
     mode := mode d; features := features d; retries := retries d;
     min_delta_ticks := v;
     max_delta_ticks := max_delta_ticks d; cpumask := cpumask d |}.

Definition with_max_delta_ticks (v : Z) (d : clock_event_device) :=
  {| set_next_event := set_next_event d; set_next_ktime := set_next_ktime d;
     next_event := next_event d; max_delta_ns := max_delta_ns d;
     min_delta_ns := min_delta_ns d; mult := mult d; shift := shift d;
     mode := mode d; features := features d; retries := retries d;
     min_delta_ticks := min_delta_ticks d;
     max_delta_ticks := v; cpumask := cpumask d |}.

(** The seconds range of lines 278-283 for a frequency that is not zero:
    [max_delta_ticks / freq], raised to 1 when zero, cut to 600 when it is
    above and [max_delta_ticks] does not fit 32 bits.  At [freq = 0] the
    [do_div] of line 279 divides by zero and no range is computed: that
    case is [config_or_trap]'s, below. *)
Definition config_sec (d : clock_event_device) (freq : Z) : Z :=
  let sec := u64 (max_delta_ticks d) / freq in
  if decide (sec = 0) then 1
  else if decide (sec > 600 ∧ max_delta_ticks d > UINT_MAX) then 600
  else sec.

Section Config.

(** [clockevents_calc_mult_shift(dev, freq, sec)] comes from
    linux/clockchips.h and kernel/time/clocksource.c, which are not among
    the sources: it is a parameter that gives the [(mult, shift)] it
    stores in the device for a frequency and a range in seconds. *)
Variable clockevents_calc_mult_shift : Z → Z → Z * Z.

Variables (HZ BITS_PER_LONG : Z) (MIN_ADJUST : bool)
          (ktime_get : list event → Z).

(** [clockevents_config(dev, freq)] for a frequency that is not zero. *)
Definition clockevents_config (freq : Z) : M unit :=
  d ← get_dev;
  if decide (Z.land (features d) CLOCK_EVT_FEAT_ONESHOT = 0) then mret tt
  else
    let sec := config_sec d freq in
    modify_dev (with_mult (fst (clockevents_calc_mult_shift freq sec)));;
    modify_dev (with_shift (snd (clockevents_calc_mult_shift freq sec)));;
    d ← get_dev;
    ns ← cev_delta2ns (min_delta_ticks d) false;
    modify_dev (with_min_delta_ns ns);;
    d ← get_dev;
    ns ← cev_delta2ns (max_delta_ticks d) true;
    modify_dev (with_max_delta_ns ns).

(** [clockevents_config(dev, freq)] for every frequency.  A device with
    [CLOCK_EVT_FEAT_ONESHOT] passes line 275 and reaches the [do_div] of
    line 279 with nothing stored yet; at [freq = 0] the division faults. *)
Definition config_or_trap (freq : Z) (m : machine)
    : outcome (unit * machine) :=
  if decide (Z.land (features (dev m)) CLOCK_EVT_FEAT_ONESHOT ≠ 0 ∧ freq = 0)
  then Fault
  else Done (clockevents_config freq m).

(** [clockevents_update_freq(dev, freq)]; [fuel] is handed to
    [clockevents_program_event]. *)
Definition clockevents_update_freq (fuel : nat) (freq : Z) (m : machine)
    : outcome (option Z * machine) :=
  '(_, m) ← config_or_trap freq m;
  if decide (mode (dev m) ≠ CLOCK_EVT_MODE_ONESHOT) then Done (Some 0, m)
  else Done (clockevents_program_event HZ BITS_PER_LONG MIN_ADJUST ktime_get
               fuel (next_event (dev m)) false m).

End Config.

(** ** Devices in memory: exchange and configured registration
    (lines 290-298, 314-331) *)

(** The registry together with the trace of the hardware callbacks. *)
Record system : Type := { reg : registry; hw : list event }.

(** Runs device level code on the device stored at address [d]. *)
Definition on_device {A} (d : nat) (c : M A) (s : system)
    : outcome (A * system) :=
  match devs (reg s) !! d with
  | None => Fault
  | Some dv =>
      let '(a, m) := c {| dev := dv; trace := hw s |} in
      Done (a, {| reg := with_devs (<[d := dev m]> (devs (reg s))) (reg s);
                  hw := trace m |})
  end.

(** [clockevents_exchange_device(old, new)]; a NULL pointer is [None].
    [list_del(&old->list)] unlinks [old] from the list that holds it and
    follows stale pointers when no list does. *)
Definition clockevents_exchange_device (old new : option nat) (s : system)
    : outcome system :=
  s ← match old with
      | Some o =>
          '(_, s) ← on_device o (clockevents_set_mode CLOCK_EVT_MODE_UNUSED) s;
          let r := reg s in
          if decide (o ∈ clockevent_devices r ∨ o ∈ clockevents_released r)
          then
            let r := with_devices (list_del o (clockevent_devices r)) r in
            let r :=
              with_released (o :: list_del o (clockevents_released r)) r in
            Done {| reg := r; hw := hw s |}
          else Fault
      | None => Done s
      end;
  match new with
  | Some n =>
      match devs (reg s) !! n with
      | None => Fault
      | Some dv =>
          if decide (mode dv ≠ CLOCK_EVT_MODE_UNUSED) then Bug
          else '(_, s) ← on_device n clockevents_shutdown s; Done s
      end
  | None => Done s
  end.

(** [clockevents_register_device(dev)] on a system. *)
Definition register_in_system (smp_processor_id : nat) (num_possible_cpus : Z)
    (d : nat) (s : system) : outcome system :=
  r ← clockevents_register_device smp_processor_id num_possible_cpus d (reg s);
  Done {| reg := r; hw := hw s |}.

(** Runs device level code that may fault on the device stored at
    address [d]. *)
Definition on_device_try {A} (d : nat) (c : machine → outcome (A * machine))
    (s : system) : outcome (A * system) :=
  match devs (reg s) !! d with
  | None => Fault
  | Some dv =>
      '(a, m) ← c {| dev := dv; trace := hw s |};
      Done (a, {| reg := with_devs (<[d := dev m]> (devs (reg s))) (reg s);
                  hw := trace m |})
  end.

(** [clockevents_config_and_register(dev, freq, min_delta, max_delta)] *)
Definition clockevents_config_and_register
    (clockevents_calc_mult_shift : Z → Z → Z * Z)
    (smp_processor_id : nat) (num_possible_cpus : Z)
    (d : nat) (freq min_delta max_delta : Z) (s : system) : outcome system :=
  '(_, s) ← on_device d
              (modify_dev (with_min_delta_ticks min_delta);;
               modify_dev (with_max_delta_ticks max_delta)) s;
  '(_, s) ← on_device_try d
              (config_or_trap clockevents_calc_mult_shift freq) s;
  register_in_system smp_processor_id num_possible_cpus d s.

(** ** More definitions used to state properties *)

(** What [set_next_event] returns in the pass that [attempt] describes. *)
Definition attempt_rc (BITS_PER_LONG : Z) (ktime_get : list event → Z)
    (m : machine) : Z :=
  let now := ktime_get (trace m) in
  let delta := s64 (min_delta_ns (dev m)) in
  let d := with_retries (ulong BITS_PER_LONG (retries (dev m) + 1))
             (with_next_event (ktime_add_ns now delta) (dev m)) in
  set_next_event d (trace m ++ [EvKtimeGet now])
    (ulong BITS_PER_LONG (delta2clc delta d)).

(** The delta that [clockevents_program_event] arms for an expiry time
    read at time [now] (lines 207, 211-212). *)
Definition clamped_delta (d : clock_event_device) (expires now : Z) : Z :=
  Z.max (Z.min (ktime_sub expires now) (s64 (max_delta_ns d)))
        (s64 (min_delta_ns d)).

(** The two lists link every device at most once, and no device is in
    both. *)
Definition lists_ok (r : registry) : Prop :=
  NoDup (clockevent_devices r ++ clockevents_released r).

(** A device in ONESHOT mode has a scale factor. *)
Definition oneshot_has_mult (d : clock_event_device) : Prop :=
  mode d = CLOCK_EVT_MODE_ONESHOT → mult d ≠ 0.

(** The machine after lines 147-151 on a device in SHUTDOWN mode: the
    clock was read and [next_event] set, nothing was armed. *)
Definition parked (ktime_get : list event → Z) (m : machine) : machine :=
  let now := ktime_get (trace m) in
  {| dev := with_next_event
              (ktime_add_ns now (s64 (min_delta_ns (dev m)))) (dev m);
     trace := trace m ++ [EvKtimeGet now] |}.

(** The fields that the event programmer only reads. *)
Definition frame (d : clock_event_device) :=
  (set_next_event d, set_next_ktime d, max_delta_ns d, mult d, shift d,
   mode d, features d, min_delta_ticks d, max_delta_ticks d, cpumask d).

(** How the minimum-delta fallback may change a machine: the frame
    stays, [min_delta_ns] grows and not beyond the larger of its old value
    and [limit], and [retries] advances with the arming attempts, modulo
    the width of [unsigned long]. *)
Definition fallback_step (bits limit : Z) (m m' : machine) : Prop :=
  frame (dev m') = frame (dev m) ∧
  min_delta_ns (dev m) ≤ min_delta_ns (dev m')
    ≤ Z.max (min_delta_ns (dev m)) limit ∧
  (arm_count (trace m) ≤ arm_count (trace m'))%nat ∧
  ulong bits (retries (dev m'))
  = ulong bits (retries (dev m)
                + Z.of_nat (arm_count (trace m') - arm_count (trace m))).

(** The machines [clockevents_program_event] goes through: the expiry
    time stored (line 198), the clock read (line 207), the device armed
    with [evt] ticks (line 215). *)
Definition stamped (expires : Z) (m : machine) : machine :=
  {| dev := with_next_event expires (dev m); trace := trace m |}.

Definition after_clock (ktime_get : list event → Z) (m : machine) : machine :=
  {| dev := dev m; trace := trace m ++ [EvKtimeGet (ktime_get (trace m))] |}.

Definition after_arm (evt : Z) (m : machine) : machine :=
  {| dev := dev m;
     trace := trace m
              ++ [EvSetNextEvent evt (set_next_event (dev m) (trace m) evt)] |}.

(** The 64-bit tick count of line 214 for an expiry time read at [now],
    before the cast to [unsigned long]. *)
Definition armed_clc (d : clock_event_device) (expires now : Z) : Z :=
  delta2clc (clamped_delta d expires now) d.

(** Fuel that covers the fallback loop from the device's [min_delta_ns]. *)
Definition enough_fuel (HZ : Z) (d : clock_event_device) : nat :=
  (3 * Z.to_nat (MIN_DELTA_LIMIT HZ - min_delta_ns d) + 3)%nat.

(** The nanosecond bounds are the conversions of the tick bounds, as
    [clockevents_config] leaves them (lines 286-287). *)
Definition configured (d : clock_event_device) : Prop :=
  min_delta_ns d = delta2ns_value (min_delta_ticks d) d false ∧
  max_delta_ns d = delta2ns_value (max_delta_ticks d) d true.

(** ** Concrete devices, used to exercise the model *)

(** A 32768 Hz timer: [mult / 2^32] ticks per nanosecond. *)
Definition slow_timer : clock_event_device :=
  {| set_next_event := λ _ _, 0;
     set_next_ktime := λ _ _, 0;
     next_event := 0;
     max_delta_ns := 131071999969482;
     min_delta_ns := 122071;
     mult := 140737;
     shift := 32;
     mode := CLOCK_EVT_MODE_ONESHOT;
     features := 3;
     retries := 0;
     min_delta_ticks := 4;
     max_delta_ticks := 4294967295;
     cpumask := Some {[0%nat]} |}.

(** The same timer behind a driver whose [set_next_event] always returns
    [-ETIME]. *)
Definition stuck_timer : clock_event_device :=
  {| set_next_event := λ _ _, - ETIME;
     set_next_ktime := λ _ _, 0;
     next_event := 0;
     max_delta_ns := 131071999969482;
     min_delta_ns := 1000;
     mult := 140737;
     shift := 32;
     mode := CLOCK_EVT_MODE_ONESHOT;
     features := 3;
     retries := 0;
     min_delta_ticks := 4;
     max_delta_ticks := 4294967295;
     cpumask := Some {[0%nat]} |}.

(** A device with [mult = 7] and [shift = 0]. *)
Definition seven_timer : clock_event_device :=
  with_mult 7 (with_mode CLOCK_EVT_MODE_UNUSED
    {| set_next_event := λ _ _, 0; set_next_ktime := λ _ _, 0;
       next_event := 0; max_delta_ns := 0; min_delta_ns := 0;
       mult := 0; shift := 0; mode := CLOCK_EVT_MODE_UNUSED;
       features := 0; retries := 0; min_delta_ticks := 0;
       max_delta_ticks := 0; cpumask := None |}).

(** A device with [mult = 1], [shift = 33] and
    [min_delta_ticks = 0xffffffff]. *)
Definition wide_shift_timer : clock_event_device :=
  {| set_next_event := λ _ _, 0; set_next_ktime := λ _ _, 0;
     next_event := 0; max_delta_ns := 0; min_delta_ns := 0;
     mult := 1; shift := 33; mode := CLOCK_EVT_MODE_UNUSED;
     features := 0; retries := 0; min_delta_ticks := 4294967295;
     max_delta_ticks := 4294967295; cpumask := None |}.

(** The machine that starts on device [d] with an empty trace. *)
Definition on (d : clock_event_device) : machine :=
  {| dev := d; trace := [] |}.

(** A clock that stands at 10 ns. *)
Definition clock_at_10 : list event → Z := λ _, 10.

(** The slow timer after it was shut down. *)
Definition shut_timer : clock_event_device :=
  with_mode CLOCK_EVT_MODE_SHUTDOWN slow_timer.

(** An unused timer owned by the processors of [mask]. *)
Definition idle (mask : gset nat) : clock_event_device :=
  with_cpumask (Some mask) (with_mode CLOCK_EVT_MODE_UNUSED slow_timer).

(** Device 1 belongs to processor 0, device 2 to processors 0 and 1,
    device 3 to processor 1, device 4 to processor 0 and is the broadcast
    device; device 5 waits in the released list; device 6 is in memory
    and not registered yet. *)
Definition five_devices : registry :=
  {| devs := <[1%nat := idle {[0%nat]}]>
               (<[2%nat := idle {[0%nat; 1%nat]}]>
                  (<[3%nat := idle {[1%nat]}]>
                     (<[4%nat := idle {[0%nat]}]>
                        (<[5%nat := idle {[1%nat]}]>
                           (<[6%nat := idle {[1%nat]}]> ∅)))));
     clockevent_devices := [1; 2; 3; 4]%nat;
     clockevents_released := [5]%nat;
     chain_log := [] |}.

(** [tick_is_broadcast_device] when device 4 is the broadcast device. *)
Definition broadcast_is_4 (d : nat) : bool := bool_decide (d = 4%nat).

(** A 1 MHz timer, [mult / 2^31] ticks per nanosecond, with the bounds
    that [clockevents_config] computes for it. *)
Definition mhz_timer : clock_event_device :=
  {| set_next_event := λ _ _, 0;
     set_next_ktime := λ _ _, 0;
     next_event := 0;
     max_delta_ns := 4294966591001;
     min_delta_ns := 2000;
     mult := 2147484;
     shift := 31;
     mode := CLOCK_EVT_MODE_ONESHOT;
     features := 3;
     retries := 0;
     min_delta_ticks := 2;
     max_delta_ticks := 4294967295;
     cpumask := Some {[0%nat]} |}.

(** A scale computation that always answers with the factor of the 1 MHz
    timer. *)
Definition calc_mhz : Z → Z → Z * Z := λ _ _, (2147484, 31).

(** The five devices with an empty hardware trace. *)
Definition five_system : system := {| reg := five_devices; hw := [] |}.

(** * Properties *)

(** ** Fixed width arithmetic *)

Lemma pow64 : 2 ^ 64 = 18446744073709551616.
Proof. reflexivity. Qed.

Lemma pow32 : 2 ^ 32 = 4294967296.
Proof. reflexivity. Qed.

Lemma u64_id x : 0 ≤ x < 2 ^ 64 → u64 x = x.
Proof. intros H. unfold u64. by rewrite Z.mod_small. Qed.

Lemma u64_range x : 0 ≤ u64 x < 2 ^ 64.
Proof. unfold u64. apply Z.mod_pos_bound. by rewrite pow64. Qed.

Lemma pow2_pos s : 0 ≤ s → 0 < 2 ^ s.
Proof. intros. by apply Z.pow_pos_nonneg. Qed.

(** The check of lines 46-47 detects exactly the shifts that lose bits. *)
Lemma overflow_check latch s :
  0 ≤ latch < 2 ^ 64 → 0 ≤ s →
  (let clc := u64 (Z.shiftl (u64 latch) s) in
   if decide (Z.shiftr clc s ≠ u64 latch) then U64_MAX else clc)
  = scaled_latch latch s.
Proof.
  intros HL Hs. cbv zeta. rewrite (u64_id latch) by done.
  rewrite Z.shiftl_mul_pow2, Z.shiftr_div_pow2 by done.
  pose proof (pow2_pos s Hs) as Hp.
  unfold scaled_latch. destruct (decide (latch * 2 ^ s < 2 ^ 64)) as [Hfit|Hov].
  - rewrite u64_id by nia. rewrite Z.div_mul by lia.
    by destruct (decide (latch ≠ latch)).
  - destruct (decide (u64 (latch * 2 ^ s) `div` 2 ^ s ≠ latch)) as [|Heq]; [done|].
    exfalso. apply dec_stable in Heq.
    pose proof (u64_range (latch * 2 ^ s)) as Hr.
    pose proof (Z.mul_div_le (u64 (latch * 2 ^ s)) (2 ^ s) Hp) as Hle.
    rewrite Heq in Hle. lia.
Qed.

Lemma scaled_latch_range latch s :
  0 ≤ latch → 0 ≤ s → 0 ≤ scaled_latch latch s ≤ U64_MAX.
Proof.
  intros HL Hs. pose proof (pow2_pos s Hs). unfold scaled_latch, U64_MAX.
  destruct (decide _); rewrite ?pow64 in *; nia.
Qed.

Lemma scaled_latch_mono l1 l2 s :
  0 ≤ l1 ≤ l2 → 0 ≤ s → scaled_latch l1 s ≤ scaled_latch l2 s.
Proof.
  intros HL Hs. pose proof (pow2_pos s Hs). unfold scaled_latch, U64_MAX.
  repeat destruct (decide _); rewrite ?pow64 in *; nia.
Qed.

(** ** Scaled math *)

(** Unfolding of the monad operations. *)
Ltac run_M :=
  unfold mbind, M_bind, mret, M_ret, get_dev, modify_dev, WARN_ON,
    call_set_mode, emit; cbn [fst snd dev trace].

(** The first conjunct of the guard, on a 64-bit value. *)
Lemma guard_room clc rnd :
  0 ≤ clc ≤ U64_MAX →
  bool_decide (u64 (U64_MAX - clc) > rnd) = bool_decide (clc + rnd < U64_MAX).
Proof.
  intros H. unfold U64_MAX in *. rewrite u64_id by lia.
  apply bool_decide_ext. lia.
Qed.

(** The second conjunct, for shifts that [1U << shift] can hold. *)
Lemma guard_ismax evt ismax :
  0 ≤ shift evt < 32 →
  (negb ismax || bool_decide (mult evt ≤ u32 (Z.shiftl 1 (shift evt))))
  = negb (ismax && bool_decide (2 ^ shift evt < mult evt)).
Proof.
  intros Hs. rewrite Z.shiftl_mul_pow2, Z.mul_1_l by lia.
  assert (0 < 2 ^ shift evt < 2 ^ 32) as Hp.
  { split; [apply pow2_pos; lia|]. apply Z.pow_lt_mono_r; lia. }
  unfold u32. rewrite Z.mod_small by lia.
  destruct ismax; cbn; [|done].
  repeat case_bool_decide; done || lia.
Qed.

Lemma rounding_guard_spec clc rnd evt ismax :
  0 ≤ clc ≤ U64_MAX → 0 ≤ shift evt < 32 →
  rounding_guard clc rnd evt ismax
  = bool_decide (clc + rnd < U64_MAX) &&
    negb (ismax && bool_decide (2 ^ shift evt < mult evt)).
Proof.
  intros Hc Hs. unfold rounding_guard.
  by rewrite guard_room, guard_ismax.
Qed.

(** For a minimum the guard is its first conjunct, at every shift. *)
Lemma rounding_guard_min clc rnd evt :
  0 ≤ clc ≤ U64_MAX →
  rounding_guard clc rnd evt false = bool_decide (clc + rnd < U64_MAX).
Proof.
  intros Hc. unfold rounding_guard. rewrite guard_room by done.
  cbn [negb orb]. by rewrite andb_true_r.
Qed.

(** When the guard lets the rounding term in, the sum fits 64 bits. *)
Lemma rounding_guard_fits clc rnd evt ismax :
  0 ≤ clc ≤ U64_MAX → 0 ≤ rnd →
  rounding_guard clc rnd evt ismax = true → u64 (clc + rnd) = clc + rnd.
Proof.
  intros Hc Hr Hg. unfold rounding_guard in Hg.
  apply andb_prop in Hg as [Hg _]. rewrite guard_room in Hg by done.
  apply bool_decide_eq_true in Hg. unfold U64_MAX in *.
  apply u64_id. lia.
Qed.

Lemma cev_delta2ns_value latch ismax m :
  0 < mult (dev m) < 2 ^ 32 → 0 ≤ shift (dev m) → 0 ≤ latch < 2 ^ 64 →
  cev_delta2ns latch ismax m = (delta2ns_value latch (dev m) ismax, m).
Proof.
  intros Hm Hs HL. unfold cev_delta2ns. run_M.
  destruct (decide (mult (dev m) = 0)) as [|_]; [lia|]. run_M.
  pose proof (overflow_check latch (shift (dev m)) HL Hs) as Hov.
  cbv zeta in Hov. rewrite Hov. clear Hov.
  rewrite pow32 in Hm.
  rewrite (u64_id (mult (dev m))) by (rewrite pow64; lia).
  rewrite (u64_id (mult (dev m) - 1)) by (rewrite pow64; lia).
  unfold delta2ns_value. cbv zeta.
  pose proof (scaled_latch_range latch (shift (dev m)) ltac:(lia) Hs) as Hc.
  set (c := scaled_latch latch (shift (dev m))) in *.
  destruct (rounding_guard c (mult (dev m) - 1) (dev m) ismax) eqn:Hg.
  - rewrite (rounding_guard_fits c (mult (dev m) - 1) (dev m) ismax) by (done || lia).
    destruct m; f_equal. destruct (decide _); lia.
  - destruct m; f_equal. destruct (decide _); lia.
Qed.

(** The last line of [cev_delta2ns] holds whatever the device looks like. *)
Lemma cev_delta2ns_at_least_1000 latch ismax m :
  1000 ≤ fst (cev_delta2ns latch ismax m).
Proof.
  unfold cev_delta2ns. run_M.
  destruct (decide (mult (dev m) = 0)); run_M;
    match goal with |- context [decide (?c > 1000)] =>
      destruct (decide (c > 1000)) end; cbn [fst]; lia.
Qed.

(** The conditional add of lines 68-70 keeps the order of two scaled
    latches as long as the larger one is below 2^32 or leaves room for the
    rounding term. *)
Lemma rounding_mono l1 l2 evt ismax :
  0 < mult evt < 2 ^ 32 → 0 ≤ shift evt →
  0 ≤ l1 ≤ l2 →
  l2 < 2 ^ 32 ∨ l2 * 2 ^ shift evt + (mult evt - 1) < U64_MAX →
  let rnd := mult evt - 1 in
  let c1 := scaled_latch l1 (shift evt) in
  let c2 := scaled_latch l2 (shift evt) in
  (if rounding_guard c1 rnd evt ismax then c1 + rnd else c1)
  ≤ (if rounding_guard c2 rnd evt ismax then c2 + rnd else c2).
Proof.
  intros Hm Hs HL Hroom rnd c1 c2.
  pose proof (scaled_latch_range l1 (shift evt) ltac:(lia) Hs) as Hc1.
  pose proof (scaled_latch_range l2 (shift evt) ltac:(lia) Hs) as Hc2.
  pose proof (scaled_latch_mono l1 l2 (shift evt) HL Hs) as Hle.
  fold c1 c2 in Hc1, Hc2, Hle.
  unfold rounding_guard. rewrite !guard_room by done.
  destruct (negb ismax || bool_decide (mult evt ≤ u32 (1 ≪ shift evt)));
    rewrite ?andb_true_r, ?andb_false_r; [|done].
  repeat case_bool_decide; try lia.
  (* the smaller latch is rounded, the larger one is not *)
  subst c1 c2 rnd. unfold scaled_latch, U64_MAX in *.
  pose proof (pow2_pos (shift evt) Hs) as Hp.
  rewrite pow64, ?pow32 in *.
  destruct (decide (l1 * 2 ^ shift evt < 18446744073709551616));
    destruct (decide (l2 * 2 ^ shift evt < 18446744073709551616));
    try lia.
  destruct Hroom as [H32|Hfit]; [|done].
  assert (l1 < l2) as Hlt12.
  { destruct (decide (l1 = l2)) as [->|]; [done|lia]. }
  destruct (decide (shift evt < 32)) as [Hlt|Hge].
  - assert (2 ^ shift evt ≤ 2 ^ 31) as Hp31
      by (apply Z.pow_le_mono_r; lia).
    change (2 ^ 31) with 2147483648 in Hp31.
    generalize dependent (2 ^ shift evt). intros P; intros. nia.
  - assert (2 ^ 32 ≤ 2 ^ shift evt) as Hp32
      by (apply Z.pow_le_mono_r; lia).
    rewrite pow32 in Hp32.
    generalize dependent (2 ^ shift evt). intros P; intros.
    assert ((l1 + 1) * P ≤ l2 * P) by (apply Z.mul_le_mono_nonneg_r; lia).
    lia.
Qed.


(** A latch below 2^32 scaled by a shift of at most 32 leaves room for
    the rounding term of any 32-bit [mult]. *)
Lemma room_on_32_bits latch s mlt :
  0 ≤ latch < 2 ^ 32 → 0 ≤ s ≤ 32 → 0 < mlt < 2 ^ 32 →
  latch * 2 ^ s + (mlt - 1) < U64_MAX.
Proof.
  intros HL Hs Hm.
  assert (0 < 2 ^ s ≤ 2 ^ 32) as Hp.
  { split; [apply pow2_pos; lia|apply Z.pow_le_mono_r; lia]. }
  unfold U64_MAX. rewrite pow64, pow32 in *.
  generalize dependent (2 ^ s). intros P; intros. nia.
Qed.

(** C3, as amended.  For a device with [mult > 0] whose scaled
    [min_delta_ticks] leaves room for the rounding term below [~0ULL]
    (every [min_delta_ticks] below 2^32 with a shift of at most 32 does),
    converting [min_delta_ticks] with [cev_delta2ns(.., false)] and back
    with [ns * mult >> shift] gives at least [min_delta_ticks]. *)
Theorem min_delta_roundtrip m :
  0 < mult (dev m) < 2 ^ 32 → 0 ≤ shift (dev m) →
  0 ≤ min_delta_ticks (dev m) →
  (min_delta_ticks (dev m) < 2 ^ 32 ∧ shift (dev m) ≤ 32) ∨
  min_delta_ticks (dev m) * 2 ^ shift (dev m) + (mult (dev m) - 1) < U64_MAX →
  min_delta_ticks (dev m)
  ≤ delta2clc (fst (cev_delta2ns (min_delta_ticks (dev m)) false m)) (dev m).
Proof.
  intros Hm Hs HL Hroom.
  assert (min_delta_ticks (dev m) * 2 ^ shift (dev m) + (mult (dev m) - 1)
          < U64_MAX) as Hfit.
  { destruct Hroom as [[? ?]|?]; [|done]. by apply room_on_32_bits. }
  clear Hroom. pose proof (pow2_pos _ Hs) as Hp.
  set (L := min_delta_ticks (dev m)) in *.
  assert (L < 2 ^ 64) as HL64 by (unfold U64_MAX in Hfit; nia).
  rewrite cev_delta2ns_value by (done || lia). cbn [fst].
  unfold delta2ns_value, delta2clc. cbv zeta.
  assert (scaled_latch L (shift (dev m)) = L * 2 ^ shift (dev m)) as ->.
  { unfold scaled_latch. destruct (decide _) as [|Hn]; [done|].
    unfold U64_MAX in Hfit. lia. }
  assert (rounding_guard (L * 2 ^ shift (dev m)) (mult (dev m) - 1)
            (dev m) false = true) as ->.
  { unfold rounding_guard. rewrite guard_room by (unfold U64_MAX in *; nia).
    cbn. rewrite andb_true_r. by apply bool_decide_eq_true. }
  rewrite Z.shiftr_div_pow2 by done.
  set (P := 2 ^ shift (dev m)) in *. set (k := mult (dev m)) in *.
  set (q := (L * P + (k - 1)) `div` k).
  assert (L * P ≤ q * k ≤ L * P + (k - 1)) as Hq.
  { pose proof (Z.mul_div_le (L * P + (k - 1)) k ltac:(lia)).
    pose proof (Z.mul_succ_div_gt (L * P + (k - 1)) k ltac:(lia)).
    fold q in H, H0. lia. }
  unfold U64_MAX in Hfit. rewrite pow64, ?pow32 in *.
  assert (0 ≤ q) by nia.
  assert (0 ≤ 1000 `max` q * k < 18446744073709551616) as Hprod
    by (destruct (Z.max_spec 1000 q) as [[_ ->]|[_ ->]]; nia).
  assert (0 ≤ 1000 `max` q < 18446744073709551616) as Hns by nia.
  rewrite (u64_id (1000 `max` q)) by (rewrite pow64; lia).
  rewrite u64_id by (rewrite pow64; lia).
  transitivity ((L * P) `div` P).
  - rewrite Z.div_mul by lia. done.
  - apply Z.div_le_mono; [done|].
    transitivity (q * k); [lia|].
    apply Z.mul_le_mono_nonneg_r; lia.
Qed.

(** C4, as amended.  After the overflow check, [rnd = mult - 1] is
    added to [clc] if and only if the sum stays strictly below [~0ULL]
    and it is not the case that both [ismax] holds and [mult > 2^shift];
    the value returned is the quotient of that sum, or of [clc] alone, by
    [mult], raised to 1000.  For a minimum ([ismax] false) this holds at
    every shift; for a maximum it is stated for the shifts below 32, for
    which [1U << shift] is [2^shift]. *)
Theorem rounding_rule m latch ismax :
  0 < mult (dev m) < 2 ^ 32 → 0 ≤ shift (dev m) →
  (ismax = true → shift (dev m) < 32) →
  0 ≤ latch < 2 ^ 64 →
  let clc := scaled_latch latch (shift (dev m)) in
  let rnd := mult (dev m) - 1 in
  let added := rounding_guard clc rnd (dev m) ismax in
  (added = true ↔
     clc + rnd < U64_MAX ∧
     ¬ (ismax = true ∧ mult (dev m) > 2 ^ shift (dev m))) ∧
  fst (cev_delta2ns latch ismax m)
  = Z.max 1000 ((if added then clc + rnd else clc) `div` mult (dev m)) ∧
  (ismax = false → clc + rnd < U64_MAX →
   fst (cev_delta2ns latch ismax m)
   = Z.max 1000 ((clc + rnd) `div` mult (dev m))).
Proof.
  intros Hm Hs Hmax HL clc rnd added.
  pose proof (scaled_latch_range latch (shift (dev m)) ltac:(lia) Hs)
    as Hc. fold clc in Hc.
  assert (added = true ↔
          clc + rnd < U64_MAX ∧
          ¬ (ismax = true ∧ mult (dev m) > 2 ^ shift (dev m))) as Hiff.
  { subst added. destruct ismax.
    - specialize (Hmax eq_refl).
      rewrite rounding_guard_spec by (done || lia).
      rewrite andb_true_iff, bool_decide_eq_true, negb_true_iff,
        andb_false_iff, bool_decide_eq_false.
      intuition (discriminate || lia).
    - rewrite rounding_guard_min, bool_decide_eq_true by done.
      intuition discriminate. }
  clear Hmax.
  rewrite cev_delta2ns_value by done. cbn [fst].
  unfold delta2ns_value. cbv zeta. fold clc rnd added.
  split_and!; [done|done|].
  intros Hmin Hroom. destruct Hiff as [_ Hadd].
  rewrite Hadd; [done|]. split; [done|]. intros [? _]. congruence.
Qed.

(** ** Mode state machine *)


(** [clockevents_set_mode] by cases, as one equation. *)
Lemma set_mode_cases new_mode m :
  clockevents_set_mode new_mode m
  = (tt,
     if decide (mode (dev m) = new_mode) then m
     else if decide (new_mode = CLOCK_EVT_MODE_ONESHOT ∧ mult (dev m) = 0)
     then {| dev := with_mult 1 (with_mode new_mode (dev m));
             trace := trace m ++ [EvSetMode new_mode; EvWarn] |}
     else {| dev := with_mode new_mode (dev m);
             trace := trace m ++ [EvSetMode new_mode] |}).
Proof.
  unfold clockevents_set_mode. run_M.
  destruct (decide (mode (dev m) = new_mode)) as [Heq|Hne].
  - destruct (decide (mode (dev m) ≠ new_mode)); [done|]. by destruct m.
  - destruct (decide (mode (dev m) ≠ new_mode)); [|done]. run_M.
    cbn [mult with_mode].
    destruct (decide (new_mode = CLOCK_EVT_MODE_ONESHOT)) as [Hone|Hone].
    + run_M. cbn [mult with_mode].
      destruct (decide (mult (dev m) = 0)) as [Hz|Hz].
      * destruct (decide (_ ∧ _)) as [_|Hn]; [|by destruct Hn].
        run_M. by rewrite <- app_assoc.
      * by destruct (decide (_ ∧ _)) as [[_ ?]|_].
    + by destruct (decide (_ ∧ _)) as [[? _]|_].
Qed.

(** What [clockevents_shutdown] leaves behind. *)
Lemma shutdown_result m :
  let m1 := snd (clockevents_shutdown m) in
  mode (dev m1) = CLOCK_EVT_MODE_SHUTDOWN ∧ next_event (dev m1) = KTIME_MAX.
Proof.
  unfold clockevents_shutdown. run_M. rewrite set_mode_cases.
  destruct (decide (mode (dev m) = CLOCK_EVT_MODE_SHUTDOWN)) as [Heq|Hne];
    [by cbn|].
  destruct (decide (_ ∧ _)) as [[? _]|_]; [done|by cbn].
Qed.

(** ** Event programmer *)

Section Programmer.

Context (HZ BITS_PER_LONG : Z) (MIN_ADJUST : bool)
        (ktime_get : list event → Z).

Local Abbreviation program_event :=
  (clockevents_program_event HZ BITS_PER_LONG MIN_ADJUST ktime_get).

(** On a device in SHUTDOWN mode the programmer stores the expiry time
    and returns 0; nothing else happens. *)
Lemma program_event_shutdown fuel t force m :
  mode (dev m) = CLOCK_EVT_MODE_SHUTDOWN → 0 ≤ t →
  program_event fuel t force m
  = (Some 0, {| dev := with_next_event t (dev m); trace := trace m |}).
Proof.
  intros Hmode Ht. unfold clockevents_program_event.
  destruct (decide (t < 0)); [lia|]. run_M. cbn [mode with_next_event].
  by destruct (decide (mode (dev m) = CLOCK_EVT_MODE_SHUTDOWN)).
Qed.

(** C5, as amended.  With [force = false], a non-negative expiry time
    that is not after the current time fails with [-ETIME] on every
    device that is neither in SHUTDOWN mode nor armed by absolute time
    ([CLOCK_EVT_FEAT_KTIME]); the expiry time is stored, the clock is
    read once and no callback is invoked. *)
Theorem program_event_past fuel expires m :
  mode (dev m) ≠ CLOCK_EVT_MODE_SHUTDOWN →
  Z.land (features (dev m)) CLOCK_EVT_FEAT_KTIME = 0 →
  0 ≤ expires →
  ktime_sub expires (ktime_get (trace m)) ≤ 0 →
  program_event fuel expires false m
  = (Some (- ETIME),
     {| dev := with_next_event expires (dev m);
        trace := trace m ++ [EvKtimeGet (ktime_get (trace m))] |}).
Proof.
  intros Hmode Hfeat Hexp Hpast. unfold clockevents_program_event.
  destruct (decide (expires < 0)); [lia|]. run_M.
  cbn [mode features with_next_event].
  destruct (decide (mode (dev m) = CLOCK_EVT_MODE_SHUTDOWN)); [done|].
  destruct (decide (Z.land (features (dev m)) CLOCK_EVT_FEAT_KTIME ≠ 0));
    [done|].
  unfold call_ktime_get. run_M.
  by destruct (decide (ktime_sub expires (ktime_get (trace m)) ≤ 0)).
Qed.

(** C6.  [clockevents_shutdown] leaves the device in SHUTDOWN mode with
    [next_event = KTIME_MAX]; programming any non-negative expiry time
    afterwards, unforced, returns 0, appends nothing to the trace (so
    [set_next_event] is not invoked) and leaves the device in SHUTDOWN
    mode, so that the same holds for the calls that follow. *)
Theorem shutdown_then_program fuel t m :
  0 ≤ t →
  let m1 := snd (clockevents_shutdown m) in
  let r := program_event fuel t false m1 in
  mode (dev m1) = CLOCK_EVT_MODE_SHUTDOWN ∧
  next_event (dev m1) = KTIME_MAX ∧
  fst r = Some 0 ∧
  trace (snd r) = trace m1 ∧
  arm_count (trace (snd r)) = arm_count (trace m1) ∧
  mode (dev (snd r)) = CLOCK_EVT_MODE_SHUTDOWN.
Proof.
  intros Ht m1 r. destruct (shutdown_result m) as [Hmode Hnext].
  fold m1 in Hmode, Hnext. subst r.
  rewrite program_event_shutdown by done. by cbn.
Qed.

(** C10.  On a device in SHUTDOWN mode, programming a non-negative
    expiry time returns 0, forced or not, and changes [next_event] to
    that time and nothing else; in particular the [KTIME_MAX] that
    [clockevents_shutdown] stored is replaced. *)
Theorem program_shutdown_overwrites fuel t force m :
  mode (dev m) = CLOCK_EVT_MODE_SHUTDOWN → 0 ≤ t →
  program_event fuel t force m
  = (Some 0, {| dev := with_next_event t (dev m); trace := trace m |}) ∧
  next_event
    (dev (snd (program_event fuel t force (snd (clockevents_shutdown m)))))
  = t.
Proof.
  intros Hmode Ht. split; [by apply program_event_shutdown|].
  destruct (shutdown_result m) as [Hm1 _].
  by rewrite program_event_shutdown.
Qed.

(** *** The adaptive minimum-delta fallback *)

Local Abbreviation LIMIT := (MIN_DELTA_LIMIT HZ).
Local Abbreviation adjust :=
  (program_min_delta_adjust HZ BITS_PER_LONG ktime_get).
Local Abbreviation try_once := (attempt BITS_PER_LONG ktime_get).

Hypothesis HZ_pos : 0 < HZ.

Lemma limit_range : 0 ≤ LIMIT ≤ 1000000000.
Proof using HZ_pos.
  unfold MIN_DELTA_LIMIT, NSEC_PER_SEC.
  rewrite Z.quot_div_nonneg by lia. split.
  - apply Z.div_pos; lia.
  - apply Z.div_le_upper_bound; nia.
Qed.

Lemma u64_limit : u64 LIMIT = LIMIT.
Proof using HZ_pos.
  pose proof limit_range. apply u64_id. rewrite pow64. lia.
Qed.

(** At the ceiling [clockevents_increase_min_delta] gives up. *)
Lemma increase_at_ceiling m :
  LIMIT ≤ min_delta_ns (dev m) →
  clockevents_increase_min_delta HZ m = (- ETIME, given_up m).
Proof using HZ_pos.
  intros Hge. unfold clockevents_increase_min_delta. run_M.
  rewrite u64_limit.
  destruct (decide (min_delta_ns (dev m) >= LIMIT)); [done|lia].
Qed.

(** Below the ceiling it takes the growth step of the specification. *)
Lemma increase_below_ceiling m :
  min_delta_ns (dev m) < LIMIT →
  clockevents_increase_min_delta HZ m
  = (0, raised (grow_min_delta LIMIT (min_delta_ns (dev m))) m).
Proof using HZ_pos.
  intros Hlt. pose proof limit_range as Hlim.
  unfold clockevents_increase_min_delta. run_M. rewrite u64_limit.
  destruct (decide (min_delta_ns (dev m) >= LIMIT)); [lia|].
  unfold grow_min_delta, raised.
  destruct (decide (min_delta_ns (dev m) < 5000)) as [Hfloor|Hfloor];
    run_M; cbn [min_delta_ns with_min_delta_ns].
  - destruct (decide (5000 > LIMIT)); run_M;
      cbn [min_delta_ns with_min_delta_ns];
      [rewrite Z.min_l by lia|rewrite Z.min_r by lia]; by destruct m.
  - set (x := min_delta_ns (dev m)) in *.
    assert (x + x ≫ 1 = (3 * x) `div` 2) as Hx.
    { rewrite Z.shiftr_div_pow2 by lia. change (2 ^ 1) with 2.
      replace (3 * x) with (x * 2 + x) by lia.
      by rewrite Z.div_add_l by lia. }
    assert (0 ≤ (3 * x) `div` 2 < 2 ^ 64) as Hr.
    { rewrite pow64. split; [apply Z.div_pos; lia|].
      apply Z.div_lt_upper_bound; lia. }
    rewrite Hx, u64_id by done.
    destruct (decide ((3 * x) `div` 2 > LIMIT)); run_M;
      cbn [min_delta_ns with_min_delta_ns];
      [rewrite Z.min_l by lia|rewrite Z.min_r by lia]; by destruct m.
Qed.

Lemma grow_min_delta_gt x : x < LIMIT → x < grow_min_delta LIMIT x.
Proof using HZ_pos.
  intros Hlt. unfold grow_min_delta.
  destruct (decide (x < 5000)); [lia|].
  assert (x + 1 ≤ (3 * x) `div` 2); [|lia].
  apply Z.div_le_lower_bound; lia.
Qed.

Lemma grow_min_delta_le x : grow_min_delta LIMIT x ≤ LIMIT.
Proof. unfold grow_min_delta. lia. Qed.

(** Properties of one failed attempt. *)
Lemma attempt_never_arms m :
  never_arms (dev m) → never_arms (dev (try_once m)).
Proof. by intros [Hmode Hfail]. Qed.

Lemma attempt_min_delta_ns m :
  min_delta_ns (dev (try_once m)) = min_delta_ns (dev m).
Proof. done. Qed.

Lemma attempt_mode m : mode (dev (try_once m)) = mode (dev m).
Proof. done. Qed.

Lemma arm_count_app tr1 tr2 :
  arm_count (tr1 ++ tr2) = (arm_count tr1 + arm_count tr2)%nat.
Proof. unfold arm_count. by rewrite List.filter_app, length_app. Qed.

Lemma attempt_arm_count m :
  arm_count (trace (try_once m)) = S (arm_count (trace m)).
Proof.
  unfold attempt. cbn [trace]. rewrite !arm_count_app. cbn. lia.
Qed.

(** One pass through the loop body when the device cannot be armed:
    the attempt is made and fails, then the failure counter decides. *)
Lemma adjust_step f i m :
  never_arms (dev m) →
  adjust (S f) i m
  = (if decide (i + 1 > 2) then
       rc ← clockevents_increase_min_delta HZ;
       if decide (rc ≠ 0) then mret (Some (- ETIME)) else adjust f 0
     else adjust f (i + 1)) (try_once m).
Proof.
  intros [Hmode Hfail]. cbn [program_min_delta_adjust].
  unfold call_ktime_get, call_set_next_event. run_M.
  cbn [mode with_next_event].
  destruct (decide (mode (dev m) = CLOCK_EVT_MODE_SHUTDOWN)); [done|].
  run_M. cbn [set_next_event with_retries with_next_event retries].
  match goal with |- context [decide (?rc = 0)] =>
    destruct (decide (rc = 0)) as [Hrc|_]; [by apply Hfail in Hrc|] end.
  done.
Qed.

(** Three failed attempts in a row reach
    [clockevents_increase_min_delta]. *)
Lemma adjust_three_failures f m :
  never_arms (dev m) →
  adjust (3 + f) 0 m
  = (rc ← clockevents_increase_min_delta HZ;
     if decide (rc ≠ 0) then mret (Some (- ETIME)) else adjust f 0)
      (try_once (try_once (try_once m))).
Proof.
  intros Hna. change (3 + f)%nat with (S (S (S f))).
  rewrite adjust_step by done.
  destruct (decide (0 + 1 > 2)); [lia|].
  rewrite adjust_step by by apply attempt_never_arms.
  destruct (decide (0 + 1 + 1 > 2)); [lia|].
  rewrite adjust_step by by do 2 apply attempt_never_arms.
  destruct (decide (0 + 1 + 1 + 1 > 2)); [done|lia].
Qed.

(** The loop gives up after finitely many rounds of three failures;
    [k] bounds the distance of [min_delta_ns] from the ceiling. *)
Lemma adjust_gives_up (k : nat) m :
  never_arms (dev m) →
  LIMIT - min_delta_ns (dev m) ≤ Z.of_nat k →
  ∃ (n : nat) (m' : machine),
    (∀ f, adjust (3 * (n + 1) + f) 0 m = (Some (- ETIME), m')) ∧
    next_event (dev m') = KTIME_MAX ∧
    min_delta_ns (dev m')
    = Nat.iter n (grow_min_delta LIMIT) (min_delta_ns (dev m)) ∧
    LIMIT ≤ min_delta_ns (dev m') ∧
    (∀ j, (j < n)%nat →
          Nat.iter j (grow_min_delta LIMIT) (min_delta_ns (dev m)) < LIMIT) ∧
    arm_count (trace m') = (arm_count (trace m) + 3 * (n + 1))%nat ∧
    mode (dev m') = mode (dev m).
Proof using HZ_pos.
  revert m. induction k as [|k IH]; intros m Hna Hk.
  all: destruct (decide (LIMIT ≤ min_delta_ns (dev m))) as [Hceil|Hbelow].
  all: try lia.
  1,2: exists 0%nat, (given_up (try_once (try_once (try_once m))));
    split_and!; try done;
    [ intros f; change (3 * (0 + 1) + f)%nat with (3 + f)%nat;
      rewrite adjust_three_failures by done; run_M;
      by rewrite increase_at_ceiling
    | intros j Hj; lia
    | unfold given_up; cbn [trace]; rewrite arm_count_app,
        !attempt_arm_count; cbn; lia ].
  set (m3 := try_once (try_once (try_once m))).
  set (x := min_delta_ns (dev m)) in *.
  pose proof (grow_min_delta_gt x ltac:(lia)) as Hgt.
  destruct (IH (raised (grow_min_delta LIMIT x) m3)) as
    (n & m' & Hrun & Hnext & Hmin & Hlim & Hpath & Harm & Hmode).
  { done. }
  { cbn [raised dev min_delta_ns with_min_delta_ns]. lia. }
  exists (S n), m'. split_and!.
  - intros f.
    replace (3 * (S n + 1) + f)%nat with (3 + (3 * (n + 1) + f))%nat by lia.
    rewrite adjust_three_failures by done. run_M. fold m3.
    rewrite increase_below_ceiling by (cbn; fold x; lia).
    cbn [min_delta_ns dev]. fold x.
    destruct (decide (0 ≠ 0)); [done|]. apply Hrun.
  - done.
  - rewrite Hmin. cbn [raised dev min_delta_ns with_min_delta_ns].
    by rewrite Nat.iter_succ_r.
  - done.
  - intros [|j] Hj; [cbn; lia|].
    rewrite Nat.iter_succ_r. apply Hpath. lia.
  - rewrite Harm. unfold raised. cbn [trace]. subst m3.
    rewrite arm_count_app, !attempt_arm_count. cbn. lia.
  - by rewrite Hmode.
Qed.

(** C1.  Under the adaptive policy, on a device that is not shut down
    and whose [set_next_event] fails at every invocation,
    [clockevents_program_min_delta] returns: there is a number [n] of
    growth steps such that the loop, given fuel for [3 * (n + 1)]
    passes or more, returns [-ETIME] with [next_event = KTIME_MAX].
    Every group of three failed attempts but the last applies one growth
    step to [min_delta_ns] (to 5000 if below, else times 1.5, capped at
    [NSEC_PER_SEC / HZ]); [min_delta_ns] is below the ceiling before each
    step and has reached it when the function gives up, after exactly
    [3 * (n + 1)] invocations of [set_next_event]. *)
Theorem program_min_delta_gives_up m :
  never_arms (dev m) →
  ∃ (n : nat) (m' : machine),
    (∀ fuel, (3 * (n + 1) ≤ fuel)%nat →
       clockevents_program_min_delta HZ BITS_PER_LONG true ktime_get fuel m
       = (Some (- ETIME), m')) ∧
    next_event (dev m') = KTIME_MAX ∧
    min_delta_ns (dev m')
    = Nat.iter n (grow_min_delta LIMIT) (min_delta_ns (dev m)) ∧
    LIMIT ≤ min_delta_ns (dev m') ∧
    (∀ j, (j < n)%nat →
          Nat.iter j (grow_min_delta LIMIT) (min_delta_ns (dev m)) < LIMIT) ∧
    arm_count (trace m') = (arm_count (trace m) + 3 * (n + 1))%nat ∧
    mode (dev m') = mode (dev m).
Proof using HZ_pos.
  intros Hna.
  destruct (adjust_gives_up (Z.to_nat (LIMIT - min_delta_ns (dev m))) m
              Hna ltac:(lia))
    as (n & m' & Hrun & Hrest).
  exists n, m'. split; [|done].
  intros fuel Hfuel. unfold clockevents_program_min_delta.
  replace fuel with (3 * (n + 1) + (fuel - 3 * (n + 1)))%nat by lia.
  apply Hrun.
Qed.

End Programmer.

(** ** Device registry *)

(** The drain loop moves the whole backlog, first released first, to the
    head of the active list and notifies each device in that order. *)
Lemma notify_released_loop_spec released r :
  clockevents_released r = released →
  notify_released_loop released r
  = {| devs := devs r;
       clockevent_devices := reverse released ++ clockevent_devices r;
       clockevents_released := [];
       chain_log := chain_log r ++ added released |}.
Proof.
  revert r. induction released as [|d rest IH]; intros r Hrel.
  - destruct r; cbn in *. subst. by rewrite app_nil_r.
  - cbn [notify_released_loop]. rewrite IH by done.
    rewrite reverse_cons. unfold added. rewrite fmap_cons.
    unfold clockevents_do_notify, with_chain_log, with_devices, with_released.
    cbn [devs clockevent_devices clockevents_released chain_log].
    by rewrite <- !app_assoc.
Qed.

(** Two facts about [filter] on the members of a list. *)
Lemma filter_iff_members {A} (P Q : A → Prop)
    `{!∀ x, Decision (P x), !∀ x, Decision (Q x)} (l : list A) :
  (∀ x, x ∈ l → (P x ↔ Q x)) → filter P l = filter Q l.
Proof.
  induction l as [|a l IH]; intros Hiff; [done|].
  rewrite !filter_cons, IH.
  - apply decide_ext, Hiff. by apply elem_of_cons; left.
  - intros x Hx. apply Hiff. by apply elem_of_cons; right.
Qed.

Lemma filter_all_members {A} (P : A → Prop) `{!∀ x, Decision (P x)}
    (l : list A) :
  (∀ x, x ∈ l → P x) → filter P l = l.
Proof.
  induction l as [|a l IH]; intros Hall; [done|].
  rewrite filter_cons_True by (apply Hall; by apply elem_of_cons; left).
  rewrite IH; [done|]. intros x Hx. apply Hall. by apply elem_of_cons; right.
Qed.

Section Registry.

Context (tick_is_broadcast_device : nat → bool)
        (smp_processor_id : nat) (num_possible_cpus : Z).

Local Abbreviation register_device :=
  (clockevents_register_device smp_processor_id num_possible_cpus).
Local Abbreviation notify := (clockevents_notify tick_is_broadcast_device).
Local Abbreviation is_doomed := (doomed tick_is_broadcast_device).
Local Abbreviation dead_test := (cpu_dead_test tick_is_broadcast_device).

(** C8.  Registering a device in mode UNUSED that neither list links
    yet links it into the active list ([list_add] links at the head),
    notifies the subscribers of it with reason ADD, and then drains the
    backlog: the released list is empty afterwards, each of its devices is
    in the active list, and one ADD notification per device follows the
    one for the new device, in the order of the backlog. *)
Theorem register_flushes_backlog d dv r :
  devs r !! d = Some dv →
  mode dv = CLOCK_EVT_MODE_UNUSED →
  d ∉ clockevent_devices r →
  d ∉ clockevents_released r →
  ∃ r',
    register_device d r = Done r' ∧
    clockevents_released r' = [] ∧
    clockevent_devices r'
    = reverse (clockevents_released r) ++ d :: clockevent_devices r ∧
    d ∈ clockevent_devices r' ∧
    (∀ b, b ∈ clockevents_released r →
          b ∈ clockevent_devices r' ∧
          RegNotify CLOCK_EVT_NOTIFY_ADD (arg_dev b) ∈ chain_log r') ∧
    (∀ x, x ∈ clockevent_devices r → x ∈ clockevent_devices r') ∧
    ∃ warned,
      chain_log r'
      = chain_log r ++ warned
        ++ RegNotify CLOCK_EVT_NOTIFY_ADD (arg_dev d)
           :: added (clockevents_released r) ∧
      (warned = [] ∨ warned = [RegWarn]).
Proof.
  intros Hdev Hmode Hactive Hreleased. unfold clockevents_register_device.
  rewrite Hdev. destruct (decide (mode dv ≠ CLOCK_EVT_MODE_UNUSED)); [done|].
  destruct (cpumask dv) as [mask|];
    [|destruct (decide (num_possible_cpus > 1))].
  all: unfold with_chain_log, with_devs;
       cbn [clockevent_devices clockevents_released].
  all: rewrite decide_False by (by intros [?|?]).
  all: eexists; (split; [done|]).
  all: unfold clockevents_notify_released.
  all: rewrite notify_released_loop_spec by done.
  all: unfold clockevents_do_notify, with_chain_log, with_devices,
         with_released, with_devs;
       cbn [devs clockevent_devices clockevents_released chain_log].
  all: split_and!; try done.
  all: try (apply elem_of_app; right; by apply elem_of_cons; left).
  all: try (intros b Hb; split;
            [apply elem_of_app; left; by apply elem_of_reverse
            |apply elem_of_app; right; apply list_elem_of_fmap;
             by exists b]).
  all: try (intros x Hx; apply elem_of_app; right;
            by apply elem_of_cons; right).
  - exists []. split; [by rewrite <- app_assoc|by left].
  - exists [RegWarn]. split; [by rewrite <- !app_assoc|by right].
  - exists []. split; [by rewrite <- app_assoc|by left].
Qed.

(** The pruning loop removes from the active list the devices of
    [todo] that the processor-dead test selects, and nothing else. *)
Lemma cpu_dead_prune_spec cpu todo r :
  prunable tick_is_broadcast_device r cpu todo →
  cpu_dead_prune tick_is_broadcast_device cpu todo r
  = Done (with_devices
            (filter (λ x, ¬ (x ∈ todo ∧ is_doomed r cpu x))
               (clockevent_devices r)) r).
Proof.
  revert r. induction todo as [|d rest IH]; intros r Hok.
  - cbn [cpu_dead_prune]. f_equal.
    rewrite filter_all_members; [by destruct r|].
    intros x _ [Hin _]. by apply elem_of_nil in Hin.
  - destruct (Hok d) as (dv & mask & Hdev & Hmask & Hmode);
      [by apply elem_of_cons; left|].
    assert (is_doomed r cpu d = dead_test cpu d mask) as Hd
      by (unfold doomed; by rewrite Hdev, Hmask).
    cbn [cpu_dead_prune]. rewrite Hdev, Hmask.
    destruct (dead_test cpu d mask) eqn:Htest.
    + destruct (decide (mode dv ≠ CLOCK_EVT_MODE_UNUSED)) as [Hne|_];
        [by destruct Hne; apply Hmode|].
      rewrite IH.
      2:{ intros x Hx. apply Hok. by apply elem_of_cons; right. }
      unfold with_devices, list_del.
      cbn [devs clockevent_devices clockevents_released chain_log].
      f_equal. f_equal. rewrite list_filter_filter.
      apply list_filter_iff. intros x. unfold doomed. cbn [devs].
      fold (is_doomed r cpu x). split.
      * intros [Hrest Hne] [Hin Hdoom].
        apply elem_of_cons in Hin as [->|Hin]; [done|]. by apply Hrest.
      * intros Hnot. split.
        -- intros [Hin Hdoom]. apply Hnot. split; [|done].
           by apply elem_of_cons; right.
        -- intros ->. apply Hnot. split; [by apply elem_of_cons; left|].
           rewrite Hd. done.
    + rewrite IH.
      2:{ intros x Hx. apply Hok. by apply elem_of_cons; right. }
      f_equal. f_equal. apply list_filter_iff. intros x. split.
      * intros Hnot [Hin Hdoom]. apply Hnot. split; [|done].
        apply elem_of_cons in Hin as [->|Hin]; [|done].
        rewrite Hd in Hdoom. done.
      * intros Hnot [Hin Hdoom]. apply Hnot. split; [|done].
        by apply elem_of_cons; right.
Qed.

(** C9.  When a processor dies, [clockevents_notify] tells the
    subscribers, empties the released list, and removes from the active
    list exactly the devices whose affinity mask contains the processor,
    has one member, and which are not the broadcast device (all of them
    being in mode UNUSED, as the code asserts); the other devices stay in
    the active list, in their order, and no device is modified. *)
Theorem cpu_dead_prunes cpu r :
  prunable tick_is_broadcast_device r cpu (clockevent_devices r) →
  ∃ r',
    notify CLOCK_EVT_NOTIFY_CPU_DEAD (arg_cpu cpu) r = Done r' ∧
    clockevents_released r' = [] ∧
    clockevent_devices r'
    = filter (λ d, ¬ is_doomed r cpu d) (clockevent_devices r) ∧
    devs r' = devs r ∧
    chain_log r'
    = chain_log r ++ [RegNotify CLOCK_EVT_NOTIFY_CPU_DEAD (arg_cpu cpu)] ∧
    ∀ d dv mask,
      devs r !! d = Some dv → cpumask dv = Some mask →
      (d ∈ clockevent_devices r' ↔
       d ∈ clockevent_devices r ∧
       ¬ (cpu ∈ mask ∧ size mask = 1%nat ∧
          tick_is_broadcast_device d = false)).
Proof.
  intros Hok. unfold clockevents_notify.
  rewrite cpu_dead_prune_spec by done.
  unfold clockevents_do_notify, with_chain_log, with_devices, with_released.
  cbn [devs clockevent_devices clockevents_released chain_log].
  eexists. split; [done|].
  cbn [devs clockevent_devices clockevents_released chain_log].
  rewrite (filter_iff_members _ (λ d, ¬ is_doomed r cpu d)).
  2:{ intros x Hx. unfold doomed. cbn [devs]. tauto. }
  split_and!; try done.
  intros d dv mask Hdev Hmask. rewrite list_elem_of_filter.
  unfold doomed. rewrite Hdev, Hmask. unfold cpu_dead_test.
  rewrite !andb_True, !bool_decide_spec, negb_True.
  destruct (tick_is_broadcast_device d); cbn; intuition congruence.
Qed.

End Registry.

(** * The model on concrete devices *)

(** ** Scaled math on concrete devices *)

Example slow_timer_min_delta :
  fst (cev_delta2ns 4 false (on slow_timer)) = 122071.
Proof. vm_compute. reflexivity. Qed.

Example slow_timer_roundtrip :
  delta2clc 122071 slow_timer = 4.
Proof. vm_compute. reflexivity. Qed.

Example zero_mult_repaired :
  cev_delta2ns 5000 false (on (with_mult 0 seven_timer))
  = (5000, {| dev := with_mult 1 seven_timer; trace := [EvWarn] |}).
Proof. vm_compute. reflexivity. Qed.



(** C3 as stated fails when the shift overflows 64 bits: [0xffffffff]
    ticks scaled by [2^33] are clamped to [~0ULL] nanoseconds, which
    convert back to [0x7fffffff] ticks. *)
Lemma min_delta_roundtrip_saturates :
  0 < mult wide_shift_timer ∧
  fst (cev_delta2ns (min_delta_ticks wide_shift_timer) false
         (on wide_shift_timer)) = U64_MAX ∧
  delta2clc U64_MAX wide_shift_timer = 2147483647 ∧
  ¬ (min_delta_ticks wide_shift_timer
     ≤ delta2clc
         (fst (cev_delta2ns (min_delta_ticks wide_shift_timer) false
                 (on wide_shift_timer)))
         wide_shift_timer).
Proof. vm_compute. split_and!; first [done | intros H; by apply H]. Qed.

Lemma min_delta_roundtrip_witness :
  (0 < mult slow_timer < 2 ^ 32 ∧ 0 ≤ shift slow_timer ∧
   0 ≤ min_delta_ticks slow_timer ∧
   min_delta_ticks slow_timer < 2 ^ 32 ∧ shift slow_timer ≤ 32) ∧
  min_delta_ticks slow_timer
  ≤ delta2clc
      (fst (cev_delta2ns (min_delta_ticks slow_timer) false (on slow_timer)))
      slow_timer.
Proof.
  split; [vm_compute; split_and!; done|].
  apply (min_delta_roundtrip (on slow_timer)); [| | |left]; vm_compute; done.
Defined.

(** C4 as stated fails on the boundary: for the latch [2^64 - 7] with
    [mult = 7] and [shift = 0] (a latch of a 64-bit [unsigned long]) the
    sum [clc + rnd] is exactly [~0ULL], so the addition would not
    overflow, and [ismax] is false; the code does not add, and returns one
    less than the rounded quotient. *)
Lemma rounding_skipped_at_boundary :
  let clc := scaled_latch (2 ^ 64 - 7) (shift seven_timer) in
  let rnd := mult seven_timer - 1 in
  clc = 2 ^ 64 - 7 ∧ rnd = 6 ∧
  clc + rnd ≤ U64_MAX ∧
  ¬ (rounding_guard clc rnd seven_timer false = true ↔
     clc + rnd ≤ U64_MAX ∧
     ¬ (false = true ∧ mult seven_timer > 2 ^ shift seven_timer)) ∧
  fst (cev_delta2ns (2 ^ 64 - 7) false (on seven_timer))
  = 2635249153387078801 ∧
  Z.max 1000 ((clc + rnd) `div` mult seven_timer) = 2635249153387078802.
Proof.
  vm_compute. split_and!; try done.
  intros [_ H]. discriminate H. split; [done|]. by intros [? _].
Qed.

(** The same boundary on a latch of 32 bits: after the clamp to [~0ULL]
    with [mult = 1] the rounding term is 0, its addition would not
    overflow, and the guard still refuses it. *)
Example rounding_skipped_after_clamp :
  scaled_latch 4294967295 (shift wide_shift_timer) = U64_MAX ∧
  U64_MAX + (mult wide_shift_timer - 1) ≤ U64_MAX ∧
  rounding_guard U64_MAX (mult wide_shift_timer - 1) wide_shift_timer false
  = false.
Proof. vm_compute. split_and!; done. Qed.

(** With [shift = 32] the constant [1U << evt->shift] of line 69 is not
    [2^32]: its shift count is the width of the type, and its 32-bit value
    is 0.  The guard then refuses the rounding term for a maximum also
    where [mult <= 2^shift], the case for which lines 52-54 call the
    addition safe. *)
Example rounding_skipped_at_shift_32 :
  shift slow_timer = 32 ∧
  mult slow_timer ≤ 2 ^ shift slow_timer ∧
  scaled_latch 1000 (shift slow_timer) + (mult slow_timer - 1) < U64_MAX ∧
  rounding_guard (scaled_latch 1000 (shift slow_timer)) (mult slow_timer - 1)
    slow_timer true = false ∧
  rounding_guard (scaled_latch 1000 (shift slow_timer)) (mult slow_timer - 1)
    slow_timer false = true.
Proof. vm_compute. split_and!; done. Qed.

Lemma rounding_rule_witness :
  (0 < mult seven_timer < 2 ^ 32 ∧ 0 ≤ shift seven_timer ∧
   (true = true → shift seven_timer < 32) ∧
   0 ≤ 1000000 < 2 ^ 64) ∧
  let m := on seven_timer in
  let clc := scaled_latch 1000000 (shift (dev m)) in
  let rnd := mult (dev m) - 1 in
  let added := rounding_guard clc rnd (dev m) true in
  (added = true ↔
     clc + rnd < U64_MAX ∧
     ¬ (true = true ∧ mult (dev m) > 2 ^ shift (dev m))) ∧
  fst (cev_delta2ns 1000000 true m)
  = Z.max 1000 ((if added then clc + rnd else clc) `div` mult (dev m)) ∧
  (true = false → clc + rnd < U64_MAX →
   fst (cev_delta2ns 1000000 true m)
   = Z.max 1000 ((clc + rnd) `div` mult (dev m))).
Proof.
  split; [vm_compute; split_and!; done|].
  apply (rounding_rule (on seven_timer) 1000000 true); vm_compute; done.
Defined.

(** The rule for a minimum at a shift of 32. *)
Example rounding_rule_at_shift_32 :
  let clc := scaled_latch 4 (shift slow_timer) in
  let rnd := mult slow_timer - 1 in
  clc + rnd < U64_MAX ∧
  rounding_guard clc rnd slow_timer false = true ∧
  fst (cev_delta2ns 4 false (on slow_timer))
  = Z.max 1000 ((clc + rnd) `div` mult slow_timer) ∧
  fst (cev_delta2ns 4 false (on slow_timer)) = 122071.
Proof. vm_compute. split_and!; done. Qed.

(** ** The mode state machine and the programmer on concrete devices *)

Example set_mode_oneshot_repairs :
  clockevents_set_mode CLOCK_EVT_MODE_ONESHOT (on (with_mult 0 seven_timer))
  = (tt, {| dev := with_mult 1 (with_mode CLOCK_EVT_MODE_ONESHOT seven_timer);
            trace := [EvSetMode CLOCK_EVT_MODE_ONESHOT; EvWarn] |}).
Proof. vm_compute. reflexivity. Qed.


(** C5 as stated fails on a device in SHUTDOWN mode: programming the
    past expiry time 5 at time 10, unforced, returns 0. *)
Lemma program_past_on_shutdown_device :
  0 ≤ 5 ∧
  ktime_sub 5 (clock_at_10 (trace (on shut_timer))) ≤ 0 ∧
  fst (clockevents_program_event 100 32 true clock_at_10 0 5 false
         (on shut_timer)) = Some 0 ∧
  fst (clockevents_program_event 100 32 true clock_at_10 0 5 false
         (on shut_timer)) ≠ Some (- ETIME).
Proof. vm_compute. split_and!; first [done | discriminate]. Qed.

(** And a device armed by absolute time returns what its
    [set_next_ktime] returns. *)
Example program_past_on_ktime_device :
  clockevents_program_event 100 32 true clock_at_10 0 5 false
    {| dev := {| set_next_event := λ _ _, 0; set_next_ktime := λ _ _, 0;
                 next_event := 0; max_delta_ns := 0; min_delta_ns := 0;
                 mult := 1; shift := 0; mode := CLOCK_EVT_MODE_ONESHOT;
                 features := CLOCK_EVT_FEAT_KTIME; retries := 0;
                 min_delta_ticks := 0; max_delta_ticks := 0;
                 cpumask := None |};
       trace := [] |}
  = (Some 0,
     {| dev := {| set_next_event := λ _ _, 0; set_next_ktime := λ _ _, 0;
                  next_event := 5; max_delta_ns := 0; min_delta_ns := 0;
                  mult := 1; shift := 0; mode := CLOCK_EVT_MODE_ONESHOT;
                  features := CLOCK_EVT_FEAT_KTIME; retries := 0;
                  min_delta_ticks := 0; max_delta_ticks := 0;
                  cpumask := None |};
        trace := [EvSetNextKtime 5 0] |}).
Proof. vm_compute. reflexivity. Qed.

Lemma program_event_past_witness :
  (mode (dev (on slow_timer)) ≠ CLOCK_EVT_MODE_SHUTDOWN ∧
   Z.land (features (dev (on slow_timer))) CLOCK_EVT_FEAT_KTIME = 0 ∧
   0 ≤ 5 ∧ ktime_sub 5 (clock_at_10 (trace (on slow_timer))) ≤ 0) ∧
  clockevents_program_event 100 32 true clock_at_10 0 5 false (on slow_timer)
  = (Some (- ETIME),
     {| dev := with_next_event 5 (dev (on slow_timer));
        trace := trace (on slow_timer)
                 ++ [EvKtimeGet (clock_at_10 (trace (on slow_timer)))] |}).
Proof.
  split; [vm_compute; split_and!; first [done | discriminate]|].
  apply (program_event_past 100 32 true clock_at_10 0 5 (on slow_timer)).
  - vm_compute. discriminate.
  - reflexivity.
  - lia.
  - vm_compute. discriminate.
Defined.

Lemma shutdown_then_program_witness :
  0 ≤ 1000000 ∧
  let m1 := snd (clockevents_shutdown (on slow_timer)) in
  let r := clockevents_program_event 100 32 true clock_at_10 0 1000000 false
             m1 in
  mode (dev m1) = CLOCK_EVT_MODE_SHUTDOWN ∧
  next_event (dev m1) = KTIME_MAX ∧
  fst r = Some 0 ∧
  trace (snd r) = trace m1 ∧
  arm_count (trace (snd r)) = arm_count (trace m1) ∧
  mode (dev (snd r)) = CLOCK_EVT_MODE_SHUTDOWN.
Proof.
  split; [lia|].
  apply (shutdown_then_program 100 32 true clock_at_10 0 1000000
           (on slow_timer)).
  lia.
Defined.

Lemma program_shutdown_overwrites_witness :
  (mode (dev (on shut_timer)) = CLOCK_EVT_MODE_SHUTDOWN ∧ 0 ≤ 1000000) ∧
  clockevents_program_event 100 32 true clock_at_10 0 1000000 true
    (on shut_timer)
  = (Some 0, {| dev := with_next_event 1000000 (dev (on shut_timer));
                trace := trace (on shut_timer) |}) ∧
  next_event
    (dev (snd (clockevents_program_event 100 32 true clock_at_10 0 1000000
                 true (snd (clockevents_shutdown (on shut_timer))))))
  = 1000000.
Proof.
  split; [split; [reflexivity|lia]|].
  apply (program_shutdown_overwrites 100 32 true clock_at_10 0 1000000 true
           (on shut_timer)).
  - reflexivity.
  - lia.
Defined.

(** The adaptive fallback on the stuck timer with [HZ = 100]: the ceiling
    is 10 ms; from 1000 ns it takes 20 growth steps, hence 63 attempts. *)
Example stuck_timer_gives_up :
  let r := clockevents_program_min_delta 100 32 true clock_at_10 63
             (on stuck_timer) in
  fst r = Some (- ETIME) ∧
  next_event (dev (snd r)) = KTIME_MAX ∧
  min_delta_ns (dev (snd r)) = 10000000 ∧
  retries (dev (snd r)) = 63 ∧
  arm_count (trace (snd r)) = 63%nat ∧
  fst (clockevents_program_min_delta 100 32 true clock_at_10 62
         (on stuck_timer)) = None.
Proof. vm_compute. split_and!; reflexivity. Qed.

Example stuck_timer_growth :
  Nat.iter 3 (grow_min_delta (MIN_DELTA_LIMIT 100)) 1000 = 11250 ∧
  Nat.iter 19 (grow_min_delta (MIN_DELTA_LIMIT 100)) 1000 = 7389285 ∧
  Nat.iter 20 (grow_min_delta (MIN_DELTA_LIMIT 100)) 1000 = 10000000.
Proof. vm_compute. split_and!; reflexivity. Qed.

Lemma program_min_delta_gives_up_witness :
  (0 < 100 ∧ never_arms (dev (on stuck_timer))) ∧
  ∃ (n : nat) (m' : machine),
    (∀ fuel, (3 * (n + 1) ≤ fuel)%nat →
       clockevents_program_min_delta 100 32 true clock_at_10 fuel
         (on stuck_timer)
       = (Some (- ETIME), m')) ∧
    next_event (dev m') = KTIME_MAX ∧
    min_delta_ns (dev m')
    = Nat.iter n (grow_min_delta (MIN_DELTA_LIMIT 100))
        (min_delta_ns (dev (on stuck_timer))) ∧
    MIN_DELTA_LIMIT 100 ≤ min_delta_ns (dev m') ∧
    (∀ j, (j < n)%nat →
          Nat.iter j (grow_min_delta (MIN_DELTA_LIMIT 100))
            (min_delta_ns (dev (on stuck_timer))) < MIN_DELTA_LIMIT 100) ∧
    arm_count (trace m')
    = (arm_count (trace (on stuck_timer)) + 3 * (n + 1))%nat ∧
    mode (dev m') = mode (dev (on stuck_timer)).
Proof.
  assert (never_arms (dev (on stuck_timer))) as Hna.
  { split; [vm_compute; discriminate|]. intros tr evt. vm_compute.
    discriminate. }
  split; [split; [lia|exact Hna]|].
  apply (program_min_delta_gives_up 100 32 clock_at_10 ltac:(lia)
           (on stuck_timer) Hna).
Defined.

(** ** The registry on concrete devices *)

Example register_6 :
  ∃ r', clockevents_register_device 0 2 6 five_devices = Done r' ∧
        clockevent_devices r' = [5; 6; 1; 2; 3; 4]%nat ∧
        clockevents_released r' = [] ∧
        chain_log r' = [RegNotify CLOCK_EVT_NOTIFY_ADD (arg_dev 6);
                        RegNotify CLOCK_EVT_NOTIFY_ADD (arg_dev 5)].
Proof. eexists. split; [reflexivity|]. vm_compute. done. Qed.

Example register_in_use_is_a_bug :
  clockevents_register_device 0 2 6
    (with_devs (<[6%nat := slow_timer]> (devs five_devices)) five_devices)
  = Bug.
Proof. vm_compute. reflexivity. Qed.

(** Device 6 of [five_devices] is in no list. *)
Lemma six_not_active : 6%nat ∉ clockevent_devices five_devices.
Proof. apply (bool_decide_unpack _). vm_compute. exact I. Defined.

Lemma six_not_released : 6%nat ∉ clockevents_released five_devices.
Proof. apply (bool_decide_unpack _). vm_compute. exact I. Defined.

(** C8 as stated fails on a device in mode UNUSED that a list already
    links: device 5 waits in the released list, and registering it breaks
    the lists instead of draining them (line 262 relinks the node while
    [clockevents_released.next] stays on it). *)
Lemma register_released_device_breaks_lists :
  devs five_devices !! 5%nat = Some (idle {[1%nat]}) ∧
  mode (idle {[1%nat]}) = CLOCK_EVT_MODE_UNUSED ∧
  5%nat ∈ clockevents_released five_devices ∧
  clockevents_register_device 0 2 5 five_devices = Corrupt ∧
  ¬ ∃ r', clockevents_register_device 0 2 5 five_devices = Done r' ∧
          clockevents_released r' = [] ∧
          5%nat ∈ clockevent_devices r'.
Proof.
  assert (Hrun : clockevents_register_device 0 2 5 five_devices = Corrupt)
    by (vm_compute; reflexivity).
  split; [reflexivity|]. split; [reflexivity|].
  split; [apply list_elem_of_singleton; reflexivity|].
  split; [exact Hrun|].
  intros (r' & Hdone & _). rewrite Hrun in Hdone. discriminate Hdone.
Qed.

Lemma register_flushes_backlog_witness :
  (devs five_devices !! 6%nat = Some (idle {[1%nat]}) ∧
   mode (idle {[1%nat]}) = CLOCK_EVT_MODE_UNUSED ∧
   (6%nat ∉ clockevent_devices five_devices) ∧
   (6%nat ∉ clockevents_released five_devices)) ∧
  ∃ r',
    clockevents_register_device 0 2 6 five_devices = Done r' ∧
    clockevents_released r' = [] ∧
    clockevent_devices r'
    = reverse (clockevents_released five_devices)
      ++ 6%nat :: clockevent_devices five_devices ∧
    6%nat ∈ clockevent_devices r' ∧
    (∀ b, b ∈ clockevents_released five_devices →
          b ∈ clockevent_devices r' ∧
          RegNotify CLOCK_EVT_NOTIFY_ADD (arg_dev b) ∈ chain_log r') ∧
    (∀ x, x ∈ clockevent_devices five_devices → x ∈ clockevent_devices r') ∧
    ∃ warned,
      chain_log r'
      = chain_log five_devices ++ warned
        ++ RegNotify CLOCK_EVT_NOTIFY_ADD (arg_dev 6)
           :: added (clockevents_released five_devices) ∧
      (warned = [] ∨ warned = [RegWarn]).
Proof.
  split.
  { split; [reflexivity|]. split; [reflexivity|].
    split; [exact six_not_active|exact six_not_released]. }
  apply (register_flushes_backlog 0 2 6%nat (idle {[1%nat]}) five_devices
           eq_refl eq_refl six_not_active six_not_released).
Defined.

Example cpu_0_dead :
  ∃ r', clockevents_notify broadcast_is_4 CLOCK_EVT_NOTIFY_CPU_DEAD (arg_cpu 0)
          five_devices = Done r' ∧
        clockevent_devices r' = [2; 3; 4]%nat ∧
        clockevents_released r' = [] ∧
        chain_log r' = [RegNotify CLOCK_EVT_NOTIFY_CPU_DEAD (arg_cpu 0)].
Proof. eexists. split; [reflexivity|]. vm_compute. done. Qed.

Example cpu_dead_in_use_is_a_bug :
  clockevents_notify broadcast_is_4 CLOCK_EVT_NOTIFY_CPU_DEAD (arg_cpu 0)
    (with_devs
       (<[1%nat := with_cpumask (Some {[0%nat]}) slow_timer]>
          (devs five_devices)) five_devices)
  = Bug.
Proof. vm_compute. reflexivity. Qed.

Lemma five_devices_prunable :
  prunable broadcast_is_4 five_devices 0 (clockevent_devices five_devices).
Proof.
  intros d Hd. cbn [five_devices clockevent_devices] in Hd.
  repeat (apply elem_of_cons in Hd as [->|Hd]); [..|by apply elem_of_nil in Hd].
  - exists (idle {[0%nat]}), {[0%nat]}.
    split; [reflexivity|]. split; reflexivity.
  - exists (idle {[0%nat; 1%nat]}), {[0%nat; 1%nat]}.
    split; [reflexivity|]. split; reflexivity.
  - exists (idle {[1%nat]}), {[1%nat]}.
    split; [reflexivity|]. split; reflexivity.
  - exists (idle {[0%nat]}), {[0%nat]}.
    split; [reflexivity|]. split; reflexivity.
Defined.

Lemma cpu_dead_prunes_witness :
  prunable broadcast_is_4 five_devices 0 (clockevent_devices five_devices) ∧
  ∃ r',
    clockevents_notify broadcast_is_4 CLOCK_EVT_NOTIFY_CPU_DEAD (arg_cpu 0)
      five_devices = Done r' ∧
    clockevents_released r' = [] ∧
    clockevent_devices r'
    = filter (λ d, ¬ doomed broadcast_is_4 five_devices 0 d)
        (clockevent_devices five_devices) ∧
    devs r' = devs five_devices ∧
    chain_log r'
    = chain_log five_devices
      ++ [RegNotify CLOCK_EVT_NOTIFY_CPU_DEAD (arg_cpu 0)] ∧
    ∀ d dv mask,
      devs five_devices !! d = Some dv → cpumask dv = Some mask →
      (d ∈ clockevent_devices r' ↔
       d ∈ clockevent_devices five_devices ∧
       ¬ (0%nat ∈ mask ∧ size mask = 1%nat ∧ broadcast_is_4 d = false)).
Proof.
  split; [exact five_devices_prunable|].
  apply (cpu_dead_prunes broadcast_is_4 0%nat five_devices
           five_devices_prunable).
Defined.

(** * Further properties of the code *)

(** ** Scaled math: what the conversion gives back *)

(** Rounding up to a multiple of [k]. *)
Lemma ceil_bounds c k :
  0 < k → c ≤ (c + (k - 1)) `div` k * k ≤ c + (k - 1).
Proof.
  intros Hk.
  pose proof (Z.mul_div_le (c + (k - 1)) k Hk).
  pose proof (Z.mul_succ_div_gt (c + (k - 1)) k Hk). lia.
Qed.

Lemma floor_bounds c k : 0 < k → c - (k - 1) ≤ c `div` k * k ≤ c.
Proof.
  intros Hk. pose proof (Z.mul_div_le c k Hk).
  pose proof (Z.mul_succ_div_gt c k Hk). lia.
Qed.

(** [delta2clc] on a product that fits 64 bits. *)
Lemma delta2clc_small ns d :
  0 ≤ ns → 0 ≤ mult d → ns * mult d < 2 ^ 64 → 0 ≤ shift d →
  delta2clc ns d = (ns * mult d) `div` 2 ^ shift d.
Proof.
  intros Hns Hm Hfit Hs. unfold delta2clc.
  rewrite Z.shiftr_div_pow2 by done.
  destruct (decide (mult d = 0)) as [Hz|Hz].
  - rewrite Hz, !Z.mul_0_r. done.
  - rewrite (u64_id ns) by nia. by rewrite u64_id by nia.
Qed.

(** The value of [cev_delta2ns] when the rounding term is added and the
    quotient is not raised to 1000. *)
Lemma delta2ns_value_rounded latch evt ismax :
  0 < mult evt →
  let c := scaled_latch latch (shift evt) in
  rounding_guard c (mult evt - 1) evt ismax = true →
  1000 * mult evt ≤ c →
  delta2ns_value latch evt ismax = (c + (mult evt - 1)) `div` mult evt.
Proof.
  intros Hm c Hg Hbig. unfold delta2ns_value. cbv zeta. fold c. rewrite Hg.
  apply Z.max_r. apply Z.div_le_lower_bound; lia.
Qed.

Lemma delta2ns_value_plain latch evt ismax :
  0 < mult evt →
  let c := scaled_latch latch (shift evt) in
  rounding_guard c (mult evt - 1) evt ismax = false →
  1000 * mult evt ≤ c →
  delta2ns_value latch evt ismax = c `div` mult evt.
Proof.
  intros Hm c Hg Hbig. unfold delta2ns_value. cbv zeta. fold c. rewrite Hg.
  apply Z.max_r. apply Z.div_le_lower_bound; lia.
Qed.

(** X1.  A device with [mult = 0] is converted as if [mult] were 1:
    [cev_delta2ns] stores 1 in [mult], warns once, and returns the scaled
    latch (clamped to [~0ULL] on overflow), raised to 1000. *)
Theorem delta2ns_zero_mult latch ismax m :
  mult (dev m) = 0 → 0 ≤ shift (dev m) → 0 ≤ latch < 2 ^ 64 →
  cev_delta2ns latch ismax m
  = (Z.max 1000 (scaled_latch latch (shift (dev m))),
     {| dev := with_mult 1 (dev m); trace := trace m ++ [EvWarn] |}).
Proof.
  intros Hz Hs HL. unfold cev_delta2ns. run_M.
  destruct (decide (mult (dev m) = 0)); [|done]. run_M.
  cbn [mult shift with_mult].
  pose proof (overflow_check latch (shift (dev m)) HL Hs) as Hov.
  cbv zeta in Hov. rewrite Hov. clear Hov.
  pose proof (scaled_latch_range latch (shift (dev m)) ltac:(lia) Hs) as Hc.
  set (c := scaled_latch latch (shift (dev m))) in *.
  change (u64 (u64 1 - 1)) with 0. rewrite Z.add_0_r, Z.div_1_r.
  rewrite (u64_id c) by (unfold U64_MAX in Hc; lia).
  f_equal.
  destruct (rounding_guard c 0 (with_mult 1 (dev m)) ismax);
    destruct (decide (c > 1000)); lia.
Qed.

(** X2.  For a device with [0 < mult <= 2^shift] (at most 1 GHz), a
    latch worth at least 1000 ns whose scaled value leaves room for the
    rounding term converts to nanoseconds and back to exactly the same
    number of ticks, with either value of [ismax]. *)
Theorem delta2ns_back_exact latch ismax m :
  0 < mult (dev m) ≤ 2 ^ shift (dev m) → 0 ≤ shift (dev m) < 32 →
  0 ≤ latch →
  latch * 2 ^ shift (dev m) + (mult (dev m) - 1) < U64_MAX →
  1000 * mult (dev m) ≤ latch * 2 ^ shift (dev m) →
  delta2clc (fst (cev_delta2ns latch ismax m)) (dev m) = latch.
Proof.
  intros Hm Hs HL Hroom Hbig.
  assert (0 < 2 ^ shift (dev m) < 2 ^ 32) as Hp.
  { split; [apply pow2_pos; lia|apply Z.pow_lt_mono_r; lia]. }
  unfold U64_MAX in Hroom. rewrite pow64, pow32 in *.
  assert (latch < 2 ^ 64) as HL64 by (rewrite pow64; nia).
  rewrite cev_delta2ns_value by (rewrite ?pow32; done || lia). cbn [fst].
  assert (scaled_latch latch (shift (dev m)) = latch * 2 ^ shift (dev m))
    as Hc.
  { unfold scaled_latch. destruct (decide _) as [|Hn]; [done|].
    rewrite pow64 in Hn. lia. }
  rewrite delta2ns_value_rounded; rewrite ?Hc; [|lia| |lia].
  2:{ rewrite rounding_guard_spec by (unfold U64_MAX; rewrite ?pow64; lia).
    apply andb_true_intro. split.
    - apply bool_decide_eq_true. unfold U64_MAX. rewrite pow64. lia.
    - destruct ismax; [|done]. cbn. apply negb_true_iff.
      apply bool_decide_eq_false. lia. }
  pose proof (ceil_bounds (latch * 2 ^ shift (dev m)) (mult (dev m))
                ltac:(lia)) as Hq.
  set (q := (latch * 2 ^ shift (dev m) + (mult (dev m) - 1))
              `div` mult (dev m)) in *.
  assert (0 ≤ q) by nia.
  rewrite delta2clc_small by (rewrite ?pow64; lia).
  symmetry. apply (Z.div_unique _ _ _ (q * mult (dev m)
                                       - latch * 2 ^ shift (dev m))); lia.
Qed.

(** X3.  For the minimum ([ismax = false]) the ticks that come back are
    never below the latch and exceed it by at most [(mult - 1) >> shift],
    for a latch worth at least 1000 ns whose scaled value leaves room for
    the rounding term. *)
Theorem delta2ns_min_back_bounds latch m :
  0 < mult (dev m) < 2 ^ 32 → 0 ≤ shift (dev m) →
  0 ≤ latch →
  latch * 2 ^ shift (dev m) + (mult (dev m) - 1) < U64_MAX →
  1000 * mult (dev m) ≤ latch * 2 ^ shift (dev m) →
  latch
  ≤ delta2clc (fst (cev_delta2ns latch false m)) (dev m)
  ≤ latch + Z.shiftr (mult (dev m) - 1) (shift (dev m)).
Proof.
  intros Hm Hs HL Hroom Hbig.
  pose proof (pow2_pos _ Hs) as Hp.
  unfold U64_MAX in Hroom. rewrite pow64, pow32 in *.
  assert (latch < 2 ^ 64) as HL64 by (rewrite pow64; nia).
  rewrite cev_delta2ns_value by (rewrite ?pow32; done || lia). cbn [fst].
  assert (scaled_latch latch (shift (dev m)) = latch * 2 ^ shift (dev m))
    as Hc.
  { unfold scaled_latch. destruct (decide _) as [|Hn]; [done|].
    rewrite pow64 in Hn. lia. }
  rewrite delta2ns_value_rounded; rewrite ?Hc; [|lia| |lia].
  2:{ unfold rounding_guard.
    rewrite guard_room by (unfold U64_MAX; rewrite ?pow64; lia).
    cbn. rewrite andb_true_r. apply bool_decide_eq_true.
    unfold U64_MAX. rewrite pow64. lia. }
  pose proof (ceil_bounds (latch * 2 ^ shift (dev m)) (mult (dev m))
                ltac:(lia)) as Hq.
  set (q := (latch * 2 ^ shift (dev m) + (mult (dev m) - 1))
              `div` mult (dev m)) in *.
  assert (0 ≤ q) by nia.
  rewrite delta2clc_small by (rewrite ?pow64; lia).
  rewrite Z.shiftr_div_pow2 by done.
  set (P := 2 ^ shift (dev m)) in *. set (k := mult (dev m)) in *. split.
  - transitivity ((latch * P) `div` P); [by rewrite Z.div_mul by lia|].
    apply Z.div_le_mono; lia.
  - transitivity ((latch * P + (k - 1)) `div` P).
    + apply Z.div_le_mono; lia.
    + by rewrite Z.div_add_l by lia.
Qed.

(** X4.  For the maximum ([ismax = true]) the ticks that come back never
    exceed the latch, whenever the scaled (or clamped) latch is worth at
    least 1000 ns. *)
Theorem delta2ns_max_back_le latch m :
  0 < mult (dev m) < 2 ^ 32 → 0 ≤ shift (dev m) < 32 →
  0 ≤ latch < 2 ^ 64 →
  1000 * mult (dev m) ≤ scaled_latch latch (shift (dev m)) →
  delta2clc (fst (cev_delta2ns latch true m)) (dev m) ≤ latch.
Proof.
  intros Hm Hs HL Hbig.
  assert (0 < 2 ^ shift (dev m)) as Hp by (apply pow2_pos; lia).
  rewrite cev_delta2ns_value by (done || lia). cbn [fst].
  pose proof (scaled_latch_range latch (shift (dev m)) ltac:(lia) ltac:(lia))
    as Hc.
  assert (scaled_latch latch (shift (dev m)) ≤ latch * 2 ^ shift (dev m))
    as Hle.
  { unfold scaled_latch, U64_MAX. destruct (decide _); lia. }
  set (c := scaled_latch latch (shift (dev m))) in *.
  set (P := 2 ^ shift (dev m)) in *. set (k := mult (dev m)) in *.
  unfold U64_MAX in Hc. rewrite pow64, pow32 in *.
  assert (∀ q, 0 ≤ q → q * k ≤ c →
               delta2clc q (dev m) ≤ latch) as Hback.
  { intros q Hq0 Hq. rewrite delta2clc_small by (rewrite ?pow64; fold k; lia).
    fold k P. transitivity ((latch * P) `div` P).
    - apply Z.div_le_mono; lia.
    - by rewrite Z.div_mul by lia. }
  destruct (rounding_guard c (k - 1) (dev m) true) eqn:Hg.
  - rewrite delta2ns_value_rounded by (done || lia). fold c k.
    rewrite rounding_guard_spec in Hg by (unfold U64_MAX; rewrite ?pow64; lia).
    apply andb_prop in Hg as [Hroom Hsmall].
    apply bool_decide_eq_true in Hroom. unfold U64_MAX in Hroom.
    rewrite pow64 in Hroom. cbn in Hsmall.
    apply negb_true_iff, bool_decide_eq_false in Hsmall. fold P k in Hsmall.
    assert (c = latch * P) as Hc'.
    { subst c. unfold scaled_latch, U64_MAX in *.
      destruct (decide _); [done|]. rewrite pow64 in Hroom. lia. }
    pose proof (ceil_bounds c k ltac:(lia)) as Hq.
    set (q := (c + (k - 1)) `div` k) in *.
    assert (0 ≤ q) by nia.
    rewrite delta2clc_small by (rewrite ?pow64; fold k; lia). fold k P.
    apply Z.eq_le_incl. symmetry.
    apply (Z.div_unique _ _ _ (q * k - latch * P)); lia.
  - rewrite delta2ns_value_plain by (done || lia). fold c k.
    pose proof (floor_bounds c k ltac:(lia)) as Hq.
    apply Hback; [apply Z.div_pos; lia|lia].
Qed.

(** ** The mode state machine: repetition and the ONESHOT invariant *)

(** X5.  Asking twice for the same mode, or shutting down twice, does
    what asking once does: the second call changes nothing and invokes no
    callback. *)
Theorem set_mode_shutdown_idempotent new_mode m :
  clockevents_set_mode new_mode (snd (clockevents_set_mode new_mode m))
  = (tt, snd (clockevents_set_mode new_mode m)) ∧
  clockevents_shutdown (snd (clockevents_shutdown m))
  = (tt, snd (clockevents_shutdown m)).
Proof.
  assert (∀ md m0, mode (dev (snd (clockevents_set_mode md m0))) = md)
    as Hmode.
  { intros md m0. rewrite set_mode_cases. cbn [snd].
    repeat destruct (decide _); done. }
  split.
  - rewrite (set_mode_cases new_mode (snd _)).
    by destruct (decide _) as [_|Hn]; [|destruct Hn].
  - unfold clockevents_shutdown. run_M.
    destruct (clockevents_set_mode CLOCK_EVT_MODE_SHUTDOWN m) as [[] m1] eqn:H1.
    cbn [snd]. specialize (Hmode CLOCK_EVT_MODE_SHUTDOWN m).
    rewrite H1 in Hmode. cbn [snd] in Hmode.
    rewrite set_mode_cases. cbn [dev mode with_next_event].
    destruct (decide _) as [_|Hn]; [|by destruct Hn]. done.
Qed.

(** X6.  "A device in ONESHOT mode has a non-zero [mult]" (which holds
    of every device in another mode) is kept by [clockevents_set_mode],
    also when it enters ONESHOT mode with [mult = 0], by
    [clockevents_shutdown] and by [cev_delta2ns]. *)
Theorem oneshot_has_mult_kept m :
  oneshot_has_mult (dev m) →
  (∀ new_mode,
     oneshot_has_mult (dev (snd (clockevents_set_mode new_mode m)))) ∧
  oneshot_has_mult (dev (snd (clockevents_shutdown m))) ∧
  (∀ latch ismax,
     oneshot_has_mult (dev (snd (cev_delta2ns latch ismax m)))).
Proof.
  unfold oneshot_has_mult. intros Hinv. split_and!.
  - intros new_mode. rewrite set_mode_cases. cbn [snd].
    destruct (decide (mode (dev m) = new_mode)) as [<-|Hne]; [done|].
    destruct (decide (_ ∧ _)) as [[-> Hz]|Hn]; cbn; [done|].
    intros ->. intros Hz. by apply Hn.
  - unfold clockevents_shutdown. run_M.
    rewrite set_mode_cases.
    destruct (decide (mode (dev m) = CLOCK_EVT_MODE_SHUTDOWN)) as [Heq|Hne];
      cbn; [by rewrite Heq|].
    destruct (decide (_ ∧ _)) as [[? _]|_]; [done|]. by cbn.
  - intros latch ismax. unfold cev_delta2ns. run_M.
    destruct (decide (mult (dev m) = 0)); run_M; cbn; [done|done].
Qed.

(** ** The minimum-delta fallback under any driver *)

Section Fallback.

Context (HZ BITS_PER_LONG : Z) (ktime_get : list event → Z).

Local Abbreviation LIMIT := (MIN_DELTA_LIMIT HZ).
Local Abbreviation adjust :=
  (program_min_delta_adjust HZ BITS_PER_LONG ktime_get).
Local Abbreviation try_once := (attempt BITS_PER_LONG ktime_get).
Local Abbreviation try_rc := (attempt_rc BITS_PER_LONG ktime_get).
Local Abbreviation evolves := (fallback_step BITS_PER_LONG LIMIT).

Hypothesis HZ_pos : 0 < HZ.

Lemma increase_cases m :
  clockevents_increase_min_delta HZ m
  = if decide (LIMIT ≤ min_delta_ns (dev m)) then (- ETIME, given_up m)
    else (0, raised (grow_min_delta LIMIT (min_delta_ns (dev m))) m).
Proof using HZ_pos.
  destruct (decide _).
  - by apply increase_at_ceiling.
  - apply increase_below_ceiling; [done|lia].
Qed.

(** One pass through the loop body, whatever the driver answers. *)
Lemma adjust_unfold f i m :
  adjust (S f) i m
  = if decide (mode (dev m) = CLOCK_EVT_MODE_SHUTDOWN)
    then (Some 0, parked ktime_get m)
    else if decide (try_rc m = 0) then (Some 0, try_once m)
    else if decide (i + 1 > 2) then
      if decide (LIMIT ≤ min_delta_ns (dev m))
      then (Some (- ETIME), given_up (try_once m))
      else adjust f 0
             (raised (grow_min_delta LIMIT (min_delta_ns (dev m)))
                (try_once m))
    else adjust f (i + 1) (try_once m).
Proof using HZ_pos.
  cbn [program_min_delta_adjust].
  unfold call_ktime_get, call_set_next_event. run_M.
  cbn [mode with_next_event].
  destruct (decide (mode (dev m) = CLOCK_EVT_MODE_SHUTDOWN)); [done|].
  run_M. cbn [set_next_event with_retries with_next_event retries].
  unfold attempt_rc. cbv zeta.
  cbn [set_next_event with_retries with_next_event retries].
  match goal with |- context [decide (?rc = 0)] =>
    destruct (decide (rc = 0)); [done|] end.
  destruct (decide (i + 1 > 2)); [|done].
  run_M.
  match goal with |- context [clockevents_increase_min_delta HZ ?m1] =>
    change m1 with (try_once m) end.
  rewrite increase_cases. cbn [min_delta_ns dev attempt with_retries
                                 with_next_event].
  destruct (decide (LIMIT ≤ min_delta_ns (dev m))).
  - destruct (decide (- ETIME ≠ 0)) as [|Hn]; [done|].
    exfalso. apply Hn. by vm_compute.
  - by destruct (decide (0 ≠ 0)).
Qed.

Lemma evolves_refl m : evolves m m.
Proof.
  unfold fallback_step. split_and!; try done; [lia|].
  by rewrite Nat.sub_diag, Z.add_0_r.
Qed.

Lemma evolves_trans m1 m2 m3 : evolves m1 m2 → evolves m2 m3 → evolves m1 m3.
Proof.
  unfold fallback_step.
  intros (Hf1 & Hm1 & Ha1 & Hr1) (Hf2 & Hm2 & Ha2 & Hr2).
  split_and!; [congruence|lia|lia|lia|].
  rewrite Hr2. unfold ulong in *.
  rewrite <- Zplus_mod_idemp_l, Hr1, Zplus_mod_idemp_l. f_equal. lia.
Qed.

Lemma evolves_parked m : evolves m (parked ktime_get m).
Proof.
  unfold fallback_step, parked. cbn [dev trace]. rewrite arm_count_app.
  cbn. split_and!; try done; try lia.
  by rewrite Nat.add_0_r, Nat.sub_diag, Z.add_0_r.
Qed.

Lemma evolves_attempt m : evolves m (try_once m).
Proof.
  unfold fallback_step. rewrite attempt_arm_count.
  split_and!; try done; try (cbn; lia).
  replace (S (arm_count (trace m)) - arm_count (trace m))%nat with 1%nat
    by lia.
  cbn [attempt dev retries with_retries]. unfold ulong.
  by rewrite Zmod_mod.
Qed.

Lemma evolves_given_up m : evolves m (given_up m).
Proof.
  unfold fallback_step, given_up. cbn [dev trace]. rewrite arm_count_app.
  cbn. split_and!; try done; try lia.
  by rewrite Nat.add_0_r, Nat.sub_diag, Z.add_0_r.
Qed.

Lemma evolves_raised m :
  min_delta_ns (dev m) < LIMIT →
  evolves m (raised (grow_min_delta LIMIT (min_delta_ns (dev m))) m).
Proof using HZ_pos.
  intros Hlt. pose proof (grow_min_delta_gt HZ HZ_pos _ Hlt).
  pose proof (grow_min_delta_le HZ (min_delta_ns (dev m))).
  unfold fallback_step, raised. cbn [dev trace]. rewrite arm_count_app.
  cbn. split_and!; try done; try lia.
  by rewrite Nat.add_0_r, Nat.sub_diag, Z.add_0_r.
Qed.

(** Whatever the fuel and the driver, the loop only does what
    [fallback_step] allows. *)
Lemma adjust_evolves fuel i m : evolves m (snd (adjust fuel i m)).
Proof using HZ_pos.
  revert i m. induction fuel as [|f IH]; intros i m; [apply evolves_refl|].
  rewrite adjust_unfold.
  repeat destruct (decide _); cbn [snd].
  - apply evolves_parked.
  - apply evolves_attempt.
  - eapply evolves_trans; [apply evolves_attempt|apply evolves_given_up].
  - eapply evolves_trans; [apply evolves_attempt|].
    eapply evolves_trans; [|apply IH].
    apply (evolves_raised (try_once m)). cbn. lia.
  - eapply evolves_trans; [apply evolves_attempt|apply IH].
Qed.

(** The loop returns once the fuel covers three passes per nanosecond
    that [min_delta_ns] is below the ceiling, and three more. *)
Lemma adjust_returns (n : nat) i m :
  0 ≤ i ≤ 2 →
  3 * Z.max 0 (LIMIT - min_delta_ns (dev m)) + (3 - i) ≤ Z.of_nat n →
  ∃ r m', (r = 0 ∨ r = - ETIME) ∧
          ∀ f, adjust (n + f) i m = (Some r, m').
Proof using HZ_pos.
  revert i m. induction n as [|n IH]; intros i m Hi Hn; [lia|].
  destruct (decide (mode (dev m) = CLOCK_EVT_MODE_SHUTDOWN)) as [Hs|Hs].
  { exists 0, (parked ktime_get m). split; [by left|]. intros f.
    change (S n + f)%nat with (S (n + f)). rewrite adjust_unfold.
    by rewrite decide_True by done. }
  destruct (decide (try_rc m = 0)) as [Hrc|Hrc].
  { exists 0, (try_once m). split; [by left|]. intros f.
    change (S n + f)%nat with (S (n + f)). rewrite adjust_unfold.
    rewrite decide_False by done. by rewrite decide_True by done. }
  destruct (decide (i + 1 > 2)) as [Hthird|Hthird].
  - destruct (decide (LIMIT ≤ min_delta_ns (dev m))) as [Hceil|Hceil].
    + exists (- ETIME), (given_up (try_once m)). split; [by right|].
      intros f. change (S n + f)%nat with (S (n + f)). rewrite adjust_unfold.
      rewrite decide_False by done. rewrite decide_False by done.
      rewrite decide_True by done. by rewrite decide_True by done.
    + pose proof (grow_min_delta_gt HZ HZ_pos (min_delta_ns (dev m))
                    ltac:(lia)) as Hgt.
      destruct (IH 0 (raised (grow_min_delta LIMIT (min_delta_ns (dev m)))
                        (try_once m))) as (r & m' & Hr & Hrun); [lia| |].
      { cbn [raised dev min_delta_ns with_min_delta_ns attempt
               with_retries with_next_event]. lia. }
      exists r, m'. split; [done|]. intros f.
      change (S n + f)%nat with (S (n + f)). rewrite adjust_unfold.
      rewrite decide_False by done. rewrite decide_False by done.
      rewrite decide_True by done. rewrite decide_False by done. apply Hrun.
  - destruct (IH (i + 1) (try_once m)) as (r & m' & Hr & Hrun); [lia| |].
    { cbn [attempt dev min_delta_ns with_retries with_next_event]. lia. }
    exists r, m'. split; [done|]. intros f.
    change (S n + f)%nat with (S (n + f)). rewrite adjust_unfold.
    rewrite decide_False by done. rewrite decide_False by done.
    rewrite decide_False by done. apply Hrun.
Qed.

Lemma single_cases m :
  program_min_delta_single BITS_PER_LONG ktime_get m
  = if decide (mode (dev m) = CLOCK_EVT_MODE_SHUTDOWN)
    then (0, parked ktime_get m) else (try_rc m, try_once m).
Proof.
  unfold program_min_delta_single, call_ktime_get, call_set_next_event.
  run_M. cbn [mode with_next_event].
  by destruct (decide (mode (dev m) = CLOCK_EVT_MODE_SHUTDOWN)).
Qed.

Lemma min_delta_evolves cfg fuel m :
  evolves m
    (snd (clockevents_program_min_delta HZ BITS_PER_LONG cfg ktime_get
            fuel m)).
Proof using HZ_pos.
  unfold clockevents_program_min_delta. destruct cfg.
  - apply adjust_evolves.
  - run_M. rewrite single_cases.
    destruct (decide _); cbn [snd];
      [apply evolves_parked|apply evolves_attempt].
Qed.

Lemma min_delta_returns cfg m :
  ∃ r m', ∀ fuel, (enough_fuel HZ (dev m) ≤ fuel)%nat →
    clockevents_program_min_delta HZ BITS_PER_LONG cfg ktime_get fuel m
    = (Some r, m').
Proof using HZ_pos.
  unfold clockevents_program_min_delta. destruct cfg.
  - destruct (adjust_returns (enough_fuel HZ (dev m)) 0 m)
      as (r & m' & _ & Hrun); [lia|unfold enough_fuel; lia|].
    exists r, m'. intros fuel Hfuel.
    replace fuel with (enough_fuel HZ (dev m)
                       + (fuel - enough_fuel HZ (dev m)))%nat by lia.
    apply Hrun.
  - run_M. destruct (program_min_delta_single _ _ m) as [rc m'].
    by exists rc, m'.
Qed.

(** X7.  Under the adaptive policy [clockevents_program_min_delta]
    returns on every device and with every driver: fuel for three passes
    per nanosecond between [min_delta_ns] and the ceiling, and three more,
    is enough, and the result is 0 or [-ETIME]. *)
Theorem program_min_delta_returns m :
  ∃ r m',
    (r = 0 ∨ r = - ETIME) ∧
    ∀ fuel, (enough_fuel HZ (dev m) ≤ fuel)%nat →
      clockevents_program_min_delta HZ BITS_PER_LONG true ktime_get fuel m
      = (Some r, m').
Proof using HZ_pos.
  destruct (adjust_returns (enough_fuel HZ (dev m)) 0 m)
    as (r & m' & Hr & Hrun); [lia|unfold enough_fuel; lia|].
  exists r, m'. split; [done|]. intros fuel Hfuel.
  unfold clockevents_program_min_delta.
  replace fuel with (enough_fuel HZ (dev m)
                     + (fuel - enough_fuel HZ (dev m)))%nat by lia.
  apply Hrun.
Qed.

(** X8.  Under either policy, whatever the driver answers and however
    long the loop runs, [clockevents_program_min_delta] never lowers
    [min_delta_ns] and never raises it beyond the larger of its old value
    and [NSEC_PER_SEC / HZ]; the callbacks, the scale factor, the mode,
    the features, the other bounds and the affinity are left alone. *)
Theorem program_min_delta_only_raises cfg fuel m :
  let m' := snd (clockevents_program_min_delta HZ BITS_PER_LONG cfg
                   ktime_get fuel m) in
  min_delta_ns (dev m) ≤ min_delta_ns (dev m')
    ≤ Z.max (min_delta_ns (dev m)) LIMIT ∧
  frame (dev m') = frame (dev m).
Proof using HZ_pos.
  intros m'. destruct (min_delta_evolves cfg fuel m) as (Hf & Hmin & _).
  done.
Qed.

(** X9.  No retry is silent: under either policy [retries] advances by
    the number of [set_next_event] invocations that
    [clockevents_program_min_delta] makes, modulo the width of
    [unsigned long]. *)
Theorem program_min_delta_counts_retries cfg fuel m :
  let m' := snd (clockevents_program_min_delta HZ BITS_PER_LONG cfg
                   ktime_get fuel m) in
  (arm_count (trace m) ≤ arm_count (trace m'))%nat ∧
  ulong BITS_PER_LONG (retries (dev m'))
  = ulong BITS_PER_LONG
      (retries (dev m)
       + Z.of_nat (arm_count (trace m') - arm_count (trace m))).
Proof using HZ_pos.
  intros m'. destruct (min_delta_evolves cfg fuel m) as (_ & _ & Ha & Hr).
  done.
Qed.

(** [clockevents_program_event] by cases. *)
Lemma program_event_unfold cfg fuel expires force m :
  clockevents_program_event HZ BITS_PER_LONG cfg ktime_get fuel expires
    force m
  = if decide (expires < 0)
    then (Some (- ETIME), {| dev := dev m; trace := trace m ++ [EvWarn] |})
    else if decide (mode (dev m) = CLOCK_EVT_MODE_SHUTDOWN)
    then (Some 0, stamped expires m)
    else if decide (Z.land (features (dev m)) CLOCK_EVT_FEAT_KTIME ≠ 0)
    then (Some (set_next_ktime (dev m) (trace m) expires),
          {| dev := with_next_event expires (dev m);
             trace := trace m
                      ++ [EvSetNextKtime expires
                            (set_next_ktime (dev m) (trace m) expires)] |})
    else
      let m1 := after_clock ktime_get (stamped expires m) in
      let now := ktime_get (trace m) in
      if decide (ktime_sub expires now ≤ 0) then
        if force
        then clockevents_program_min_delta HZ BITS_PER_LONG cfg ktime_get
               fuel m1
        else (Some (- ETIME), m1)
      else
        let evt := ulong BITS_PER_LONG (armed_clc (dev m) expires now) in
        let rc := set_next_event (dev m) (trace m1) evt in
        if bool_decide (rc ≠ 0) && force
        then clockevents_program_min_delta HZ BITS_PER_LONG cfg ktime_get
               fuel (after_arm evt m1)
        else (Some rc, after_arm evt m1).
Proof.
  unfold clockevents_program_event.
  destruct (decide (expires < 0)); [done|]. run_M.
  cbn [mode features with_next_event].
  destruct (decide (mode (dev m) = CLOCK_EVT_MODE_SHUTDOWN)); [done|].
  destruct (decide (Z.land (features (dev m)) CLOCK_EVT_FEAT_KTIME ≠ 0));
    [done|].
  unfold call_ktime_get, call_set_next_event. run_M. cbv zeta.
  destruct (decide (ktime_sub expires (ktime_get (trace m)) ≤ 0));
    [by destruct force|].
  unfold armed_clc, clamped_delta, delta2clc, after_arm, after_clock, stamped.
  cbn [dev trace set_next_event max_delta_ns min_delta_ns mult shift
         with_next_event].
  by destruct (bool_decide _ && force).
Qed.

(** X10.  [clockevents_program_event] returns on every device, for every
    expiry time, forced or not, under either policy and with every
    driver, as soon as the fuel covers the fallback loop. *)
Theorem program_event_returns cfg expires force m :
  ∃ r m', ∀ fuel, (enough_fuel HZ (dev m) ≤ fuel)%nat →
    clockevents_program_event HZ BITS_PER_LONG cfg ktime_get fuel expires
      force m
    = (Some r, m').
Proof using HZ_pos.
  pose proof (λ m1 (H : min_delta_ns (dev m1) = min_delta_ns (dev m)),
              min_delta_returns cfg m1) as Hfall.
  assert (∀ m1, min_delta_ns (dev m1) = min_delta_ns (dev m) →
                ∃ r m', ∀ fuel, (enough_fuel HZ (dev m) ≤ fuel)%nat →
                  clockevents_program_min_delta HZ BITS_PER_LONG cfg
                    ktime_get fuel m1 = (Some r, m')) as Hfb.
  { intros m1 Hmin. destruct (Hfall m1 Hmin) as (r & m' & Hrun).
    exists r, m'. intros fuel Hfuel. apply Hrun.
    unfold enough_fuel in *. rewrite Hmin. done. }
  clear Hfall.
  destruct (decide (expires < 0)) as [Hneg|Hneg].
  { eexists _, _. intros fuel _. rewrite program_event_unfold.
    by rewrite decide_True by done. }
  destruct (decide (mode (dev m) = CLOCK_EVT_MODE_SHUTDOWN)) as [Hs|Hs].
  { eexists _, _. intros fuel _. rewrite program_event_unfold.
    rewrite decide_False by done. by rewrite decide_True by done. }
  destruct (decide (Z.land (features (dev m)) CLOCK_EVT_FEAT_KTIME ≠ 0))
    as [Hk|Hk].
  { eexists _, _. intros fuel _. rewrite program_event_unfold.
    rewrite decide_False by done. rewrite decide_False by done.
    by rewrite decide_True by done. }
  destruct (decide (ktime_sub expires (ktime_get (trace m)) ≤ 0))
    as [Hpast|Hpast].
  - destruct force.
    + destruct (Hfb (after_clock ktime_get (stamped expires m)) eq_refl)
        as (r & m' & Hrun).
      exists r, m'. intros fuel Hfuel. rewrite program_event_unfold.
      rewrite decide_False by done. rewrite decide_False by done.
      rewrite decide_False by done. cbv zeta.
      rewrite decide_True by done. by apply Hrun.
    + eexists _, _. intros fuel _. rewrite program_event_unfold.
      rewrite decide_False by done. rewrite decide_False by done.
      rewrite decide_False by done. cbv zeta.
      by rewrite decide_True by done.
  - set (evt := ulong BITS_PER_LONG
                  (armed_clc (dev m) expires (ktime_get (trace m)))).
    set (m1 := after_clock ktime_get (stamped expires m)).
    destruct (bool_decide (set_next_event (dev m) (trace m1) evt ≠ 0)
              && force) eqn:Hfallback.
    + destruct (Hfb (after_arm evt m1) eq_refl) as (r & m' & Hrun).
      exists r, m'. intros fuel Hfuel. rewrite program_event_unfold.
      rewrite decide_False by done. rewrite decide_False by done.
      rewrite decide_False by done. cbv zeta.
      rewrite decide_False by done. fold m1 evt. rewrite Hfallback.
      by apply Hrun.
    + eexists _, _. intros fuel _. rewrite program_event_unfold.
      rewrite decide_False by done. rewrite decide_False by done.
      rewrite decide_False by done. cbv zeta.
      rewrite decide_False by done. fold m1 evt. by rewrite Hfallback.
Qed.

(** X11.  A forced request for an expiry time that is not in the future
    is armed [min_delta_ns] from the next reading of the clock: when that
    arming succeeds, [clockevents_program_event] returns 0 after exactly
    one [set_next_event], under either policy. *)
Theorem program_event_forced_past cfg fuel expires m :
  mode (dev m) ≠ CLOCK_EVT_MODE_SHUTDOWN →
  Z.land (features (dev m)) CLOCK_EVT_FEAT_KTIME = 0 →
  0 ≤ expires →
  ktime_sub expires (ktime_get (trace m)) ≤ 0 →
  let m1 := after_clock ktime_get (stamped expires m) in
  try_rc m1 = 0 →
  clockevents_program_event HZ BITS_PER_LONG cfg ktime_get (S fuel) expires
    true m
  = (Some 0, try_once m1) ∧
  next_event (dev (try_once m1))
  = ktime_add_ns (ktime_get (trace m1)) (s64 (min_delta_ns (dev m))) ∧
  arm_count (trace (try_once m1)) = S (arm_count (trace m)).
Proof using HZ_pos.
  intros Hmode Hfeat Hexp Hpast m1 Hrc. split_and!.
  - rewrite program_event_unfold.
    rewrite decide_False by lia. rewrite decide_False by done.
    rewrite decide_False by (intros H; by apply H). cbv zeta.
    rewrite decide_True by done. fold m1.
    unfold clockevents_program_min_delta. destruct cfg.
    + rewrite adjust_unfold. rewrite decide_False by done.
      by rewrite decide_True by done.
    + run_M. rewrite single_cases. rewrite decide_False by done.
      by rewrite Hrc.
  - done.
  - rewrite attempt_arm_count. subst m1. unfold after_clock, stamped.
    cbn [trace]. rewrite arm_count_app. cbn. lia.
Qed.

End Fallback.

(** ** Frequency configuration *)

(** What [cev_delta2ns] does to the machine. *)
Lemma cev_delta2ns_state latch ismax m :
  snd (cev_delta2ns latch ismax m)
  = if decide (mult (dev m) = 0)
    then {| dev := with_mult 1 (dev m); trace := trace m ++ [EvWarn] |}
    else m.
Proof.
  unfold cev_delta2ns. run_M.
  destruct (decide (mult (dev m) = 0)); run_M; by destruct m.
Qed.

(** For [mult <= 2^shift] the guard does not depend on [ismax]. *)
Lemma guard_any_ismax clc rnd evt ismax :
  0 ≤ shift evt < 32 → mult evt ≤ 2 ^ shift evt →
  rounding_guard clc rnd evt ismax = rounding_guard clc rnd evt false.
Proof.
  intros Hs Hm. unfold rounding_guard. rewrite !guard_ismax by done.
  destruct ismax; [|done]. cbn [negb andb].
  rewrite (bool_decide_eq_false_2 (2 ^ shift evt < mult evt));
    [done|by apply Z.le_ngt].
Qed.

Lemma delta2ns_value_any_ismax latch evt ismax :
  0 ≤ shift evt < 32 → mult evt ≤ 2 ^ shift evt →
  delta2ns_value latch evt ismax = delta2ns_value latch evt false.
Proof.
  intros Hs Hm. unfold delta2ns_value. cbv zeta.
  by rewrite guard_any_ismax.
Qed.

(** X12.  The range in seconds that [clockevents_config] hands to the
    scale computation is at least 1, fits 32 bits, never exceeds the
    larger of 1 and [max_delta_ticks / freq], and is at most 600 when
    [max_delta_ticks] does not fit 32 bits. *)
Theorem config_sec_range d freq :
  0 < freq → 0 ≤ max_delta_ticks d < 2 ^ 64 →
  1 ≤ config_sec d freq ≤ UINT_MAX ∧
  config_sec d freq ≤ Z.max 1 (max_delta_ticks d `div` freq) ∧
  (max_delta_ticks d > UINT_MAX → config_sec d freq ≤ 600).
Proof.
  intros Hf Ht. unfold config_sec, UINT_MAX. cbv zeta.
  rewrite u64_id by done. rewrite pow32.
  assert (0 ≤ max_delta_ticks d `div` freq ≤ max_delta_ticks d) as Hq.
  { split; [apply Z.div_pos; lia|]. apply Z.div_le_upper_bound; nia. }
  generalize dependent (max_delta_ticks d `div` freq). intros q Hq.
  rewrite pow64 in Ht.
  destruct (decide (q = 0)); [lia|].
  destruct (decide (_ ∧ _)) as [[? ?]|Hn]; [lia|].
  split_and!; [lia|lia|lia|]. intros Hbig.
  destruct (decide (q > 600)); [|lia]. by destruct Hn.
Qed.

Section ConfigProps.

Context (calc : Z → Z → Z * Z).

Local Abbreviation config := (clockevents_config calc).

(** The device after [clockevents_config] when it supports oneshot and
    the computed [mult] is not zero. *)
Lemma config_result freq m :
  Z.land (features (dev m)) CLOCK_EVT_FEAT_ONESHOT ≠ 0 →
  let k := fst (calc freq (config_sec (dev m) freq)) in
  let s := snd (calc freq (config_sec (dev m) freq)) in
  0 < k < 2 ^ 32 → 0 ≤ s →
  0 ≤ min_delta_ticks (dev m) < 2 ^ 64 →
  0 ≤ max_delta_ticks (dev m) < 2 ^ 64 →
  let d1 := with_shift s (with_mult k (dev m)) in
  config freq m
  = (tt,
     {| dev := with_max_delta_ns (delta2ns_value (max_delta_ticks d1) d1 true)
                 (with_min_delta_ns
                    (delta2ns_value (min_delta_ticks d1) d1 false) d1);
        trace := trace m |}).
Proof.
  intros Hf k s Hk Hs Hmin Hmax d1. unfold clockevents_config. run_M.
  destruct (decide _) as [|_]; [done|]. run_M.
  fold k s. cbn [min_delta_ticks max_delta_ticks with_shift with_mult].
  rewrite cev_delta2ns_value by done. cbn [dev trace].
  rewrite cev_delta2ns_value by done. done.
Qed.

(** X13.  After [clockevents_config] on a device that supports oneshot,
    with a computed scale factor [0 < mult <= 2^shift], [shift < 32], and
    tick bounds [min_delta_ticks <= max_delta_ticks] of which the larger
    is below 2^32 or leaves room for the rounding term, the nanosecond
    bounds are the conversions of the tick bounds and satisfy
    [1000 <= min_delta_ns <= max_delta_ns]; nothing is traced. *)
Theorem config_bounds_ordered freq m :
  Z.land (features (dev m)) CLOCK_EVT_FEAT_ONESHOT ≠ 0 →
  let k := fst (calc freq (config_sec (dev m) freq)) in
  let s := snd (calc freq (config_sec (dev m) freq)) in
  0 < k ≤ 2 ^ s → 0 ≤ s < 32 →
  0 ≤ min_delta_ticks (dev m) ≤ max_delta_ticks (dev m) →
  max_delta_ticks (dev m) < 2 ^ 32 ∨
  max_delta_ticks (dev m) * 2 ^ s + (k - 1) < U64_MAX →
  let m' := snd (config freq m) in
  configured (dev m') ∧
  1000 ≤ min_delta_ns (dev m') ≤ max_delta_ns (dev m') ∧
  mult (dev m') = k ∧ shift (dev m') = s ∧
  trace m' = trace m.
Proof.
  intros Hf k s Hk Hs Hticks Hroom m'.
  assert (0 < 2 ^ s < 2 ^ 32) as Hp.
  { split; [apply pow2_pos; lia|apply Z.pow_lt_mono_r; lia]. }
  assert (max_delta_ticks (dev m) < 2 ^ 64) as Hmax64.
  { destruct Hroom as [H32|Hfit]; [rewrite pow32 in H32; rewrite pow64; lia|].
    unfold U64_MAX in Hfit. rewrite pow64 in *. nia. }
  subst m'. rewrite config_result by (done || fold k s; lia).
  fold k s. cbn [snd dev trace].
  set (d1 := with_shift s (with_mult k (dev m))).
  split; [by split|]. split; [split|done].
  - cbn [min_delta_ns with_max_delta_ns with_min_delta_ns].
    unfold delta2ns_value. cbv zeta. apply Z.le_max_l.
  - cbn [min_delta_ns max_delta_ns with_max_delta_ns with_min_delta_ns].
    rewrite (delta2ns_value_any_ismax _ d1 true)
      by (cbn [d1 mult shift with_shift with_mult]; lia).
    unfold delta2ns_value. cbv zeta.
    apply Z.max_le_compat_l, Z.div_le_mono;
      [cbn [d1 mult with_shift with_mult]; lia|].
    apply (rounding_mono (min_delta_ticks d1) (max_delta_ticks d1) d1 false);
      cbn [mult shift d1 with_shift with_mult min_delta_ticks
             max_delta_ticks]; lia || done.
Qed.

End ConfigProps.

(** The tick count of line 214 lies within the tick bounds of a
    configured device at most 1 GHz fast, and the cast to [unsigned long]
    keeps it when [max_delta_ticks] fits. *)
Lemma armed_ticks_within_bounds bits d expires now :
  configured d →
  0 < mult d ≤ 2 ^ shift d → 0 ≤ shift d < 32 →
  0 ≤ min_delta_ticks d ≤ max_delta_ticks d →
  1000 * mult d ≤ min_delta_ticks d * 2 ^ shift d →
  max_delta_ticks d * 2 ^ shift d + (mult d - 1) < U64_MAX →
  max_delta_ns d < 2 ^ 63 →
  min_delta_ticks d ≤ armed_clc d expires now ≤ max_delta_ticks d ∧
  (max_delta_ticks d < 2 ^ bits →
   ulong bits (armed_clc d expires now) = armed_clc d expires now).
Proof.
  intros [Hmin Hmax] Hm Hs Hticks Hbig Hroom H63.
  assert (0 < 2 ^ shift d < 2 ^ 32) as Hp.
  { split; [apply pow2_pos; lia|apply Z.pow_lt_mono_r; lia]. }
  set (P := 2 ^ shift d) in *. set (k := mult d) in *.
  set (lo := min_delta_ticks d) in *. set (hi := max_delta_ticks d) in *.
  unfold U64_MAX in Hroom. rewrite pow64, pow32 in *.
  change (2 ^ 63) with 9223372036854775808 in H63.
  assert (∀ l, 0 ≤ l ≤ hi → 1000 * k ≤ l * P →
               ∀ ismax, delta2ns_value l d ismax = (l * P + (k - 1)) `div` k)
    as Hval.
  { intros l Hl Hlbig ismax.
    rewrite delta2ns_value_any_ismax by (fold k P; lia).
    assert (scaled_latch l (shift d) = l * P) as Hc.
    { unfold scaled_latch. fold P. destruct (decide _) as [|Hn]; [done|].
      rewrite pow64 in Hn. nia. }
    rewrite delta2ns_value_rounded; rewrite ?Hc; fold k; [done|lia| |lia].
    unfold rounding_guard.
    rewrite guard_room by (unfold U64_MAX; rewrite ?pow64; nia).
    cbn. rewrite andb_true_r. apply bool_decide_eq_true.
    unfold U64_MAX. rewrite pow64. nia. }
  rewrite (Hval lo) in Hmin by lia. rewrite (Hval hi) in Hmax by nia.
  pose proof (ceil_bounds (lo * P) k ltac:(lia)) as Hqlo.
  pose proof (ceil_bounds (hi * P) k ltac:(lia)) as Hqhi.
  rewrite <- Hmin in Hqlo. rewrite <- Hmax in Hqhi.
  assert (min_delta_ns d ≤ max_delta_ns d) as Hord.
  { rewrite Hmin, Hmax. apply Z.div_le_mono; nia. }
  assert (0 ≤ min_delta_ns d) as Hlo0 by nia.
  assert (s64 (min_delta_ns d) = min_delta_ns d) as Hs1.
  { unfold s64. change (2 ^ 63) with 9223372036854775808.
    rewrite pow64, Z.mod_small; lia. }
  assert (s64 (max_delta_ns d) = max_delta_ns d) as Hs2.
  { unfold s64. change (2 ^ 63) with 9223372036854775808.
    rewrite pow64, Z.mod_small; lia. }
  assert (min_delta_ns d ≤ clamped_delta d expires now ≤ max_delta_ns d)
    as Hclamp by (unfold clamped_delta; rewrite Hs1, Hs2; lia).
  set (dl := clamped_delta d expires now) in *.
  assert (lo ≤ armed_clc d expires now ≤ hi) as Hrange.
  { unfold armed_clc. fold dl.
    rewrite delta2clc_small by (rewrite ?pow64; fold k; nia). fold k P.
    split.
    - transitivity ((lo * P) `div` P); [by rewrite Z.div_mul by lia|].
      apply Z.div_le_mono; nia.
    - transitivity ((hi * P + (k - 1)) `div` P).
      + apply Z.div_le_mono; nia.
      + rewrite Z.div_add_l by lia. rewrite Z.div_small by lia. lia. }
  split; [done|]. intros Hfit. unfold ulong. apply Z.mod_small. lia.
Qed.

(** X14.  Take a device that is not in SHUTDOWN mode and does not
    declare [CLOCK_EVT_FEAT_KTIME], whose nanosecond bounds are the
    conversions of its tick bounds (as [clockevents_config] leaves them),
    with [0 < mult <= 2^shift], [shift < 32],
    [0 <= min_delta_ticks <= max_delta_ticks], a minimum worth at least
    1000 ns, and a maximum that leaves room for the rounding term,
    converts to less than 2^63 ns and fits [unsigned long].  It is never
    armed outside [min_delta_ticks, max_delta_ticks]: an unforced request
    for an expiry time that is not negative and lies in the future invokes
    [set_next_event] once, with a tick count between the two, and returns
    what the driver returns. *)
Theorem program_event_arms_within_bounds
    HZ BITS_PER_LONG cfg ktime_get fuel expires m :
  configured (dev m) →
  0 < mult (dev m) ≤ 2 ^ shift (dev m) → 0 ≤ shift (dev m) < 32 →
  0 ≤ min_delta_ticks (dev m) ≤ max_delta_ticks (dev m) →
  1000 * mult (dev m) ≤ min_delta_ticks (dev m) * 2 ^ shift (dev m) →
  max_delta_ticks (dev m) * 2 ^ shift (dev m) + (mult (dev m) - 1)
    < U64_MAX →
  max_delta_ns (dev m) < 2 ^ 63 →
  max_delta_ticks (dev m) < 2 ^ BITS_PER_LONG →
  mode (dev m) ≠ CLOCK_EVT_MODE_SHUTDOWN →
  Z.land (features (dev m)) CLOCK_EVT_FEAT_KTIME = 0 →
  0 ≤ expires →
  0 < ktime_sub expires (ktime_get (trace m)) →
  let evt := armed_clc (dev m) expires (ktime_get (trace m)) in
  let m1 := after_clock ktime_get (stamped expires m) in
  clockevents_program_event HZ BITS_PER_LONG cfg ktime_get fuel expires
    false m
  = (Some (set_next_event (dev m) (trace m1) evt), after_arm evt m1) ∧
  min_delta_ticks (dev m) ≤ evt ≤ max_delta_ticks (dev m).
Proof.
  intros Hc Hm Hs Hticks Hbig Hroom H63 Hfit Hmode Hfeat Hexp Hfut evt m1.
  destruct (armed_ticks_within_bounds BITS_PER_LONG (dev m) expires
              (ktime_get (trace m)) Hc Hm Hs Hticks Hbig Hroom H63)
    as [Hrange Hcast].
  split; [|done]. rewrite program_event_unfold.
  rewrite decide_False by lia. rewrite decide_False by done.
  rewrite decide_False by (intros H; by apply H). cbv zeta.
  rewrite decide_False by lia. rewrite Hcast by done.
  by rewrite andb_false_r.
Qed.

(** ** The registry: lists, exchange, and their composition *)

(** What the pruning loop can do to a registry. *)
Lemma cpu_dead_prune_done tick cpu todo r r' :
  cpu_dead_prune tick cpu todo r = Done r' →
  devs r' = devs r ∧ clockevents_released r' = clockevents_released r ∧
  chain_log r' = chain_log r ∧
  (∀ x, x ∈ clockevent_devices r' → x ∈ clockevent_devices r) ∧
  (NoDup (clockevent_devices r) → NoDup (clockevent_devices r')).
Proof.
  revert r. induction todo as [|d rest IH]; intros r Hrun;
    cbn [cpu_dead_prune] in Hrun.
  - by injection Hrun as <-.
  - destruct (devs r !! d) as [dv|]; [|done].
    destruct (cpumask dv) as [mask|]; [|done].
    destruct (cpu_dead_test tick cpu d mask).
    + destruct (decide _); [done|].
      apply IH in Hrun as (Hd & Hr & Hl & Hin & Hnd).
      cbn [with_devices devs clockevent_devices clockevents_released
             chain_log] in *.
      split_and!; try done.
      * intros x Hx. apply Hin in Hx. unfold list_del in Hx.
        by apply list_elem_of_filter in Hx as [_ ?].
      * intros Hno. apply Hnd. by apply NoDup_filter.
    + by apply IH.
Qed.

Section RegistryProps.

Context (tick : nat → bool) (smp_processor_id : nat) (num_possible_cpus : Z).

Local Abbreviation register :=
  (clockevents_register_device smp_processor_id num_possible_cpus).

(** Registration returns for a device in mode UNUSED that no list
    links. *)
Lemma register_runs d dv r :
  devs r !! d = Some dv →
  mode dv = CLOCK_EVT_MODE_UNUSED →
  d ∉ clockevent_devices r →
  d ∉ clockevents_released r →
  ∃ r', register d r = Done r'.
Proof.
  intros Hd Hmode Hactive Hreleased. unfold clockevents_register_device.
  rewrite Hd. rewrite decide_False by (intros H; by apply H).
  destruct (cpumask dv); [|destruct (decide (num_possible_cpus > 1))].
  all: unfold with_chain_log, with_devs;
       cbn [clockevent_devices clockevents_released].
  all: rewrite decide_False by (by intros [?|?]).
  all: by eexists.
Qed.

(** The registry after a successful registration. *)
Lemma register_done d r r' :
  register d r = Done r' →
  ∃ dv,
    devs r !! d = Some dv ∧ mode dv = CLOCK_EVT_MODE_UNUSED ∧
    clockevent_devices r'
    = reverse (clockevents_released r) ++ d :: clockevent_devices r ∧
    clockevents_released r' = [] ∧
    devs r'
    = match cpumask dv with
      | None => <[d := with_cpumask (Some {[smp_processor_id]}) dv]> (devs r)
      | Some _ => devs r
      end.
Proof.
  unfold clockevents_register_device. intros Hrun.
  destruct (devs r !! d) as [dv|]; [|done].
  destruct (decide (mode dv ≠ CLOCK_EVT_MODE_UNUSED)) as [|Hm]; [done|].
  apply dec_stable in Hm. exists dv.
  destruct (cpumask dv); [|destruct (decide (num_possible_cpus > 1))].
  all: unfold with_chain_log, with_devs in Hrun;
       cbn [clockevent_devices clockevents_released] in Hrun.
  all: destruct (decide (d ∈ clockevent_devices r
                         ∨ d ∈ clockevents_released r)); [done|].
  all: injection Hrun as <-.
  all: unfold clockevents_notify_released.
  all: rewrite notify_released_loop_spec by done.
  all: unfold clockevents_do_notify, with_chain_log, with_devices,
         with_released, with_devs;
       by cbn [devs clockevent_devices clockevents_released chain_log].
Qed.

(** X15.  The registry keeps its lists in order: when every device is
    linked at most once and in at most one of the two lists, the same
    holds after registering a device that is not linked yet, after any
    notification, and after any exchange, whenever these return. *)
Theorem lists_stay_ok r :
  lists_ok r →
  (∀ d r', d ∉ clockevent_devices r → d ∉ clockevents_released r →
           register d r = Done r' → lists_ok r') ∧
  (∀ reason arg r', clockevents_notify tick reason arg r = Done r' →
                    lists_ok r') ∧
  (∀ old new tr s',
     clockevents_exchange_device old new {| reg := r; hw := tr |} = Done s' →
     lists_ok (reg s')).
Proof.
  unfold lists_ok. intros Hok. apply NoDup_app in Hok as (Ha & Hdis & Hr).
  split_and!.
  - intros d r' Hda Hdr Hrun.
    apply register_done in Hrun as (dv & _ & _ & -> & -> & _).
    rewrite app_nil_r. apply NoDup_app. split_and!.
    + by rewrite reverse_Permutation.
    + intros x Hx Hx'. rewrite elem_of_reverse in Hx.
      apply elem_of_cons in Hx' as [->|Hx']; [contradiction|].
      by apply (Hdis x).
    + by apply NoDup_cons.
  - intros reason arg r' Hrun. unfold clockevents_notify in Hrun.
    destruct reason.
    + injection Hrun as <-. cbn. by apply NoDup_app.
    + destruct arg as [|cpu|]; try done.
      apply cpu_dead_prune_done in Hrun as (_ & -> & _ & _ & Hnd).
      cbn in *. rewrite app_nil_r. by apply Hnd.
    + injection Hrun as <-. cbn. by apply NoDup_app.
  - intros old new tr s' Hrun. unfold clockevents_exchange_device in Hrun.
    assert (∀ s1 : system,
              NoDup (clockevent_devices (reg s1)
                     ++ clockevents_released (reg s1)) →
              match new with
              | Some n =>
                  match devs (reg s1) !! n with
                  | Some dv =>
                      if decide (mode dv ≠ CLOCK_EVT_MODE_UNUSED) then Bug
                      else on_device n clockevents_shutdown s1
                           ≫= λ '(_, s), Done s
                  | None => Fault
                  end
              | None => Done s1
              end = Done s' →
              NoDup (clockevent_devices (reg s')
                     ++ clockevents_released (reg s'))) as Hnew.
    { intros s1 Hs1 Hrun1. destruct new as [n|]; [|by injection Hrun1 as <-].
      destruct (devs (reg s1) !! n) as [dv|] eqn:Hn; [|done].
      destruct (decide _); [done|].
      unfold on_device in Hrun1. rewrite Hn in Hrun1.
      destruct (clockevents_shutdown _) as [[] m1]. cbn in Hrun1.
      by injection Hrun1 as <-. }
    destruct old as [o|]; cbn [mbind outcome_bind] in Hrun.
    + unfold on_device in Hrun. cbn [reg hw devs] in Hrun.
      destruct (devs r !! o) as [dv|]; [|done].
      destruct (clockevents_set_mode _ _) as [[] m1].
      cbn [mbind outcome_bind reg hw with_devs clockevent_devices
             clockevents_released] in Hrun.
      destruct (decide _) as [Hlinked|]; [|done].
      cbn [mbind outcome_bind] in Hrun.
      apply Hnew in Hrun; [done|].
      cbn [reg with_devs with_devices with_released clockevent_devices
             clockevents_released]. unfold list_del.
      apply NoDup_app. split_and!.
      * by apply NoDup_filter.
      * intros x Hx Hx'. apply list_elem_of_filter in Hx as [Hne Hx].
        apply elem_of_cons in Hx' as [->|Hx']; [done|].
        apply list_elem_of_filter in Hx' as [_ Hx']. by apply (Hdis x).
      * apply NoDup_cons. split; [|by apply NoDup_filter].
        intros Hin. by apply list_elem_of_filter in Hin as [? _].
    + apply Hnew in Hrun; [done|]. cbn. by apply NoDup_app.
Qed.

End RegistryProps.

Section SystemProps.

Context (tick : nat → bool) (smp_processor_id : nat) (num_possible_cpus : Z).

Local Abbreviation register :=
  (clockevents_register_device smp_processor_id num_possible_cpus).
Local Abbreviation notify := (clockevents_notify tick).

Lemma on_device_run {A} d dv (c : M A) s :
  devs (reg s) !! d = Some dv →
  on_device d c s
  = Done (fst (c {| dev := dv; trace := hw s |}),
          {| reg := with_devs
                      (<[d := dev (snd (c {| dev := dv; trace := hw s |}))]>
                         (devs (reg s))) (reg s);
             hw := trace (snd (c {| dev := dv; trace := hw s |})) |}).
Proof.
  intros Hd. unfold on_device. rewrite Hd. by destruct (c _).
Qed.

Lemma shutdown_cases m :
  clockevents_shutdown m
  = (tt, {| dev := with_next_event KTIME_MAX
                     (dev (snd (clockevents_set_mode
                                  CLOCK_EVT_MODE_SHUTDOWN m)));
            trace := trace (snd (clockevents_set_mode
                                   CLOCK_EVT_MODE_SHUTDOWN m)) |}).
Proof.
  unfold clockevents_shutdown. run_M.
  by destruct (clockevents_set_mode _ m) as [[] m1].
Qed.

(** The log after a successful registration. *)
Lemma register_log d r r' :
  register d r = Done r' →
  ∃ warned,
    chain_log r'
    = chain_log r ++ warned
      ++ RegNotify CLOCK_EVT_NOTIFY_ADD (arg_dev d)
         :: added (clockevents_released r).
Proof.
  unfold clockevents_register_device. intros Hrun.
  destruct (devs r !! d) as [dv|]; [|done].
  destruct (decide (mode dv ≠ CLOCK_EVT_MODE_UNUSED)) as [|Hm]; [done|].
  destruct (cpumask dv); [|destruct (decide (num_possible_cpus > 1))].
  all: unfold with_chain_log, with_devs in Hrun;
       cbn [clockevent_devices clockevents_released] in Hrun.
  all: destruct (decide (d ∈ clockevent_devices r
                         ∨ d ∈ clockevents_released r)); [done|].
  all: injection Hrun as <-.
  all: unfold clockevents_notify_released.
  all: rewrite notify_released_loop_spec by done.
  all: unfold clockevents_do_notify, with_chain_log, with_devices,
         with_released, with_devs;
       cbn [devs clockevent_devices clockevents_released chain_log].
  - exists []. by rewrite <- app_assoc.
  - exists [RegWarn]. by rewrite <- !app_assoc.
  - exists []. by rewrite <- app_assoc.
Qed.

(** The registry after a processor died, when the code's assertion
    holds. *)
Lemma notify_cpu_dead_result cpu r :
  prunable tick r cpu (clockevent_devices r) →
  notify CLOCK_EVT_NOTIFY_CPU_DEAD (arg_cpu cpu) r
  = Done {| devs := devs r;
            clockevent_devices :=
              filter (λ d, ¬ doomed tick r cpu d) (clockevent_devices r);
            clockevents_released := [];
            chain_log :=
              chain_log r
              ++ [RegNotify CLOCK_EVT_NOTIFY_CPU_DEAD (arg_cpu cpu)] |}.
Proof.
  intros Hok. unfold clockevents_notify.
  rewrite cpu_dead_prune_spec by done.
  unfold clockevents_do_notify, with_chain_log, with_devices, with_released.
  cbn [devs clockevent_devices clockevents_released chain_log].
  rewrite (filter_iff_members _ (λ d, ¬ doomed tick r cpu d)); [done|].
  intros x Hx. unfold doomed. cbn [devs]. tauto.
Qed.

(** X16.  Exchanging [old] for a different [new] that is in mode UNUSED:
    [old] ends in mode UNUSED at the head of the released list and in
    no other place, [new] ends in mode SHUTDOWN with
    [next_event = KTIME_MAX], no other device changes, and the subscribers
    are not notified. *)
Theorem exchange_moves_old_shuts_new x y dx dy r tr :
  x ≠ y →
  devs r !! x = Some dx → devs r !! y = Some dy →
  mode dy = CLOCK_EVT_MODE_UNUSED →
  x ∈ clockevent_devices r ∨ x ∈ clockevents_released r →
  ∃ s',
    clockevents_exchange_device (Some x) (Some y) {| reg := r; hw := tr |}
    = Done s' ∧
    (∃ dx', devs (reg s') !! x = Some dx' ∧
            mode dx' = CLOCK_EVT_MODE_UNUSED) ∧
    clockevents_released (reg s')
    = x :: list_del x (clockevents_released r) ∧
    clockevent_devices (reg s') = list_del x (clockevent_devices r) ∧
    (x ∉ clockevent_devices (reg s')) ∧
    (∃ dy', devs (reg s') !! y = Some dy' ∧
            mode dy' = CLOCK_EVT_MODE_SHUTDOWN ∧
            next_event dy' = KTIME_MAX) ∧
    (∀ z, z ≠ x → z ≠ y → devs (reg s') !! z = devs r !! z) ∧
    chain_log (reg s') = chain_log r ∧
    hw s'
    = tr ++ ((if decide (mode dx = CLOCK_EVT_MODE_UNUSED) then []
              else [EvSetMode CLOCK_EVT_MODE_UNUSED])
             ++ [EvSetMode CLOCK_EVT_MODE_SHUTDOWN]).
Proof.
  intros Hxy Hx Hy Hmode Hlinked. unfold clockevents_exchange_device.
  rewrite (on_device_run x dx) by done.
  cbn [mbind outcome_bind reg hw with_devs devs clockevent_devices
         clockevents_released].
  rewrite decide_True by done.
  cbn [mbind outcome_bind reg hw with_devs with_devices with_released devs
         clockevent_devices clockevents_released].
  eexists. split.
  { rewrite lookup_insert_ne by done. rewrite Hy.
    rewrite decide_False by (intros H; by apply H).
    erewrite on_device_run
      by (cbn [reg devs with_devs with_devices with_released];
          rewrite lookup_insert_ne by done; exact Hy).
    cbn [mbind outcome_bind]. reflexivity. }
  cbn [reg hw with_devs with_devices with_released devs
         clockevent_devices clockevents_released chain_log].
  rewrite shutdown_cases. cbn [snd dev trace].
  rewrite !set_mode_cases. cbn [snd dev trace].
  split_and!.
  - rewrite lookup_insert_ne by done. rewrite lookup_insert_eq.
    eexists. split; [done|].
    repeat destruct (decide _); cbn; congruence.
  - done.
  - done.
  - unfold list_del. intros Hin.
    by apply list_elem_of_filter in Hin as [? _].
  - rewrite lookup_insert_eq. eexists. split; [done|].
    rewrite Hmode. by repeat destruct (decide _).
  - intros z Hzx Hzy. by rewrite !lookup_insert_ne by done.
  - done.
  - rewrite Hmode.
    repeat case_decide; destruct_and?; try congruence;
      cbn [trace]; by rewrite <- ?app_assoc, ?app_nil_l.
Qed.

(** X17.  A device that was exchanged out comes back with the next
    registration: for a linked device [x] and another device [z] that is
    in mode UNUSED and that no list links, after
    [exchange(old = x, new = NULL)] and the registration of [z], [x] is in
    the active list again, in mode UNUSED, the released list is empty, and
    the subscribers were told of [x] directly after [z]. *)
Theorem exchange_then_register x z dx dz r tr :
  x ≠ z →
  devs r !! x = Some dx → devs r !! z = Some dz →
  mode dz = CLOCK_EVT_MODE_UNUSED →
  x ∈ clockevent_devices r ∨ x ∈ clockevents_released r →
  z ∉ clockevent_devices r →
  z ∉ clockevents_released r →
  ∃ s1 r2,
    clockevents_exchange_device (Some x) None {| reg := r; hw := tr |}
    = Done s1 ∧
    register z (reg s1) = Done r2 ∧
    x ∈ clockevent_devices r2 ∧
    clockevents_released r2 = [] ∧
    (∃ dx', devs r2 !! x = Some dx' ∧ mode dx' = CLOCK_EVT_MODE_UNUSED) ∧
    ∃ warned rest,
      chain_log r2
      = chain_log r ++ warned
        ++ RegNotify CLOCK_EVT_NOTIFY_ADD (arg_dev z)
           :: RegNotify CLOCK_EVT_NOTIFY_ADD (arg_dev x) :: rest.
Proof.
  intros Hxz Hx Hz Hmode Hlinked Hzactive Hzreleased.
  unfold clockevents_exchange_device.
  rewrite (on_device_run x dx) by done.
  cbn [mbind outcome_bind reg hw with_devs devs clockevent_devices
         clockevents_released].
  rewrite decide_True by done. cbn [mbind outcome_bind].
  eexists _.
  destruct (register_runs smp_processor_id num_possible_cpus z dz
              (with_released (x :: list_del x (clockevents_released r))
                 (with_devices (list_del x (clockevent_devices r))
                    (with_devs
                       (<[x := dev (snd (clockevents_set_mode
                                           CLOCK_EVT_MODE_UNUSED
                                           {| dev := dx; trace := tr |}))]>
                          (devs r)) r)))) as [r2 Hreg].
  { cbn [devs with_released with_devices with_devs].
    by rewrite lookup_insert_ne by done. }
  { done. }
  { cbn [clockevent_devices with_released with_devices with_devs].
    unfold list_del. intros Hin.
    by apply list_elem_of_filter in Hin as [_ ?]. }
  { cbn [clockevents_released with_released with_devices with_devs].
    unfold list_del. intros Hin.
    apply elem_of_cons in Hin as [->|Hin]; [done|].
    by apply list_elem_of_filter in Hin as [_ ?]. }
  exists r2. split; [done|]. cbn [reg]. split; [done|].
  pose proof (register_log _ _ _ Hreg) as (warned & Hlog).
  apply register_done in Hreg as (dz' & Hz' & _ & Hact & Hrel & Hdevs).
  cbn [devs clockevent_devices clockevents_released chain_log with_released
         with_devices with_devs] in *.
  rewrite lookup_insert_ne, Hz in Hz' by done. injection Hz' as <-.
  split_and!.
  - rewrite Hact. apply elem_of_app. left. apply elem_of_reverse.
    by apply elem_of_cons; left.
  - done.
  - assert (mode (dev (snd (clockevents_set_mode CLOCK_EVT_MODE_UNUSED
                              {| dev := dx; trace := tr |})))
            = CLOCK_EVT_MODE_UNUSED) as Hmx.
    { rewrite set_mode_cases. cbn [snd].
      repeat case_decide; destruct_and?; by cbn. }
    rewrite Hdevs. destruct (cpumask dz).
    + rewrite lookup_insert_eq. by eexists.
    + rewrite lookup_insert_ne by done. rewrite lookup_insert_eq.
      by eexists.
  - exists warned. eexists. rewrite Hlog. unfold added.
    by rewrite fmap_cons.
Qed.

(** X18.  Pruning for the same dead processor a second time finds
    nothing left to remove: the active list of the first run is kept,
    the released list stays empty and no device is touched. *)
Theorem cpu_dead_twice cpu r :
  prunable tick r cpu (clockevent_devices r) →
  ∃ r1 r2,
    notify CLOCK_EVT_NOTIFY_CPU_DEAD (arg_cpu cpu) r = Done r1 ∧
    notify CLOCK_EVT_NOTIFY_CPU_DEAD (arg_cpu cpu) r1 = Done r2 ∧
    clockevent_devices r2 = clockevent_devices r1 ∧
    clockevents_released r2 = [] ∧
    devs r2 = devs r.
Proof.
  intros Hok. eexists _, _. split; [by apply notify_cpu_dead_result|].
  rewrite notify_cpu_dead_result.
  2:{ intros d Hd. cbn [clockevent_devices] in Hd.
      apply list_elem_of_filter in Hd as [_ Hd]. by apply Hok. }
  split; [done|]. cbn [devs clockevent_devices clockevents_released].
  split_and!; try done.
  apply filter_all_members. intros d Hd.
  apply list_elem_of_filter in Hd as [Hd _]. done.
Qed.

(** X19.  Registration and processor death compose.  Take a device in
    mode UNUSED that no list links, owned by one processor alone and not
    the broadcast device, and a registry in which every linked device, of
    either list, is in memory with a cpumask and is in mode UNUSED if the
    processor-dead test selects it.  When the device is registered and
    its processor then dies, it is not in the active list afterwards; the
    active list then holds exactly the devices that were linked before,
    in either list, and that the test does not select, and the released
    list is empty. *)
Theorem register_then_cpu_dead cpu d dv r :
  devs r !! d = Some dv →
  mode dv = CLOCK_EVT_MODE_UNUSED →
  cpumask dv = Some {[cpu]} →
  tick d = false →
  d ∉ clockevent_devices r →
  d ∉ clockevents_released r →
  prunable tick r cpu (clockevent_devices r ++ clockevents_released r) →
  ∃ r1 r2,
    register d r = Done r1 ∧
    notify CLOCK_EVT_NOTIFY_CPU_DEAD (arg_cpu cpu) r1 = Done r2 ∧
    (d ∉ clockevent_devices r2) ∧
    clockevents_released r2 = [] ∧
    ∀ x, x ∈ clockevent_devices r2 ↔
         (x ∈ clockevent_devices r ∨ x ∈ clockevents_released r) ∧
         ¬ doomed tick r cpu x.
Proof.
  intros Hd Hmode Hmask Htick Hactive Hreleased Hok.
  destruct (register_runs smp_processor_id num_possible_cpus d dv r)
    as [r1 Hreg]; [done..|].
  exists r1. pose proof Hreg as Hrun.
  apply register_done in Hrun as (dv' & Hd' & _ & Hact & Hrel & Hdevs).
  rewrite Hd in Hd'. injection Hd' as <-. rewrite Hmask in Hdevs.
  assert (doomed tick r cpu d = true) as Hdoomed.
  { unfold doomed, cpu_dead_test. rewrite Hd, Hmask, Htick.
    rewrite bool_decide_eq_true_2 by set_solver.
    by rewrite bool_decide_eq_true_2 by (by rewrite size_singleton). }
  assert (∀ x, doomed tick r1 cpu x = doomed tick r cpu x) as Hsame
    by (intros x; unfold doomed; by rewrite Hdevs).
  assert (prunable tick r1 cpu (clockevent_devices r1)) as Hok1.
  { intros x Hx. rewrite Hact in Hx. rewrite Hdevs.
    apply elem_of_app in Hx as [Hx|Hx].
    - rewrite elem_of_reverse in Hx. apply Hok, elem_of_app. by right.
    - apply elem_of_cons in Hx as [->|Hx].
      + exists dv, {[cpu]}. by split_and!.
      + apply Hok, elem_of_app. by left. }
  eexists. split; [done|]. split; [by apply notify_cpu_dead_result|].
  cbn [clockevent_devices clockevents_released]. split_and!.
  - intros Hin. apply list_elem_of_filter in Hin as [Hnot _].
    apply Hnot. rewrite Hsame, Hdoomed. done.
  - done.
  - intros x. rewrite list_elem_of_filter, Hsame, Hact, elem_of_app,
      elem_of_reverse, elem_of_cons.
    split.
    + intros (Hnot & [Hx|[->|Hx]]); [by auto| |by auto].
      exfalso. apply Hnot. by rewrite Hdoomed.
    + intros ([Hx|Hx] & Hnot); by auto.
Qed.

End SystemProps.

(** ** Configuration composed with registration and reprogramming *)

Section ConfigSystem.

Context (calc : Z → Z → Z * Z).

(** What [clockevents_config] changes and what it leaves alone, whatever
    the scale computation returns. *)
Lemma config_effect freq m :
  let m' := snd (clockevents_config calc freq m) in
  (mode (dev m') = mode (dev m) ∧ cpumask (dev m') = cpumask (dev m) ∧
   min_delta_ticks (dev m') = min_delta_ticks (dev m) ∧
   max_delta_ticks (dev m') = max_delta_ticks (dev m) ∧
   next_event (dev m') = next_event (dev m) ∧
   arm_count (trace m') = arm_count (trace m)) ∧
  (Z.land (features (dev m)) CLOCK_EVT_FEAT_ONESHOT ≠ 0 →
   1000 ≤ min_delta_ns (dev m') ∧ 1000 ≤ max_delta_ns (dev m') ∧
   mult (dev m') ≠ 0) ∧
  (Z.land (features (dev m)) CLOCK_EVT_FEAT_ONESHOT = 0 → m' = m).
Proof.
  intros m'. subst m'. unfold clockevents_config. run_M.
  destruct (decide (Z.land (features (dev m)) CLOCK_EVT_FEAT_ONESHOT = 0))
    as [Hno|Hyes]; [by destruct m|].
  run_M. cbn [min_delta_ticks max_delta_ticks with_shift with_mult].
  set (k := fst (calc freq (config_sec (dev m) freq))).
  set (s := snd (calc freq (config_sec (dev m) freq))).
  set (m0 := {| dev := with_shift s (with_mult k (dev m));
                trace := trace m |}).
  pose proof (cev_delta2ns_at_least_1000 (min_delta_ticks (dev m)) false m0)
    as Hns1.
  pose proof (cev_delta2ns_state (min_delta_ticks (dev m)) false m0) as Hst1.
  destruct (cev_delta2ns (min_delta_ticks (dev m)) false m0) as [ns1 m1].
  cbn [fst snd] in Hns1, Hst1. cbn [dev trace].
  set (m2 := {| dev := with_min_delta_ns ns1 (dev m1); trace := trace m1 |}).
  pose proof (cev_delta2ns_at_least_1000
                (max_delta_ticks (with_min_delta_ns ns1 (dev m1))) true m2)
    as Hns2.
  pose proof (cev_delta2ns_state
                (max_delta_ticks (with_min_delta_ns ns1 (dev m1))) true m2)
    as Hst2.
  destruct (cev_delta2ns _ true m2) as [ns2 m3].
  cbn [fst snd] in Hns2, Hst2. cbn [snd dev trace]. subst m3 m2 m1 m0.
  cbn [dev trace mult with_min_delta_ns with_shift with_mult] in *.
  destruct (decide (k = 0)) as [Hk|Hk];
    cbn [dev trace mult with_min_delta_ns with_mult with_shift];
    rewrite ?decide_False by done;
    cbn [dev trace mode cpumask min_delta_ticks max_delta_ticks next_event
           min_delta_ns max_delta_ns mult with_max_delta_ns
           with_min_delta_ns with_mult with_shift];
    rewrite ?arm_count_app; split_and!; try done; cbn; lia.
Qed.

(** An unforced request invokes [set_next_event] at most once and
    never enters the fallback. *)
Lemma program_event_unforced HZ BITS_PER_LONG cfg ktime_get fuel expires m :
  ∃ r,
    fst (clockevents_program_event HZ BITS_PER_LONG cfg ktime_get fuel
           expires false m) = Some r ∧
    (arm_count
       (trace (snd (clockevents_program_event HZ BITS_PER_LONG cfg
                      ktime_get fuel expires false m)))
     ≤ arm_count (trace m) + 1)%nat.
Proof.
  rewrite program_event_unfold. cbv zeta. rewrite !andb_false_r.
  repeat case_decide; eexists; (split; [done|]);
    unfold after_arm, after_clock, stamped; cbn [snd dev trace];
    rewrite ?arm_count_app; cbn; lia.
Qed.

(** The division of line 279 is defined for a frequency that is not
    zero, and faults at zero on a device that supports oneshot. *)
Lemma config_or_trap_runs freq m :
  freq ≠ 0 →
  config_or_trap calc freq m = Done (clockevents_config calc freq m).
Proof.
  intros Hfreq. unfold config_or_trap.
  by rewrite decide_False by (by intros [_ ?]).
Qed.

Lemma config_or_trap_faults m :
  Z.land (features (dev m)) CLOCK_EVT_FEAT_ONESHOT ≠ 0 →
  config_or_trap calc 0 m = Fault.
Proof. intros Hone. unfold config_or_trap. by rewrite decide_True. Qed.

(** X20.  [clockevents_config_and_register], for a frequency above zero,
    on a device in memory in mode UNUSED that no list links: it returns
    with the device in the active list, the released list empty, the tick
    bounds as given, the mode still UNUSED and an affinity mask; if the
    device supports oneshot its nanosecond bounds are at least 1000 and
    its [mult] is not zero, whatever the scale computation returned. *)
Theorem config_and_register_result smp_processor_id num_possible_cpus
    d dv freq lo hi s :
  devs (reg s) !! d = Some dv →
  mode dv = CLOCK_EVT_MODE_UNUSED →
  d ∉ clockevent_devices (reg s) →
  d ∉ clockevents_released (reg s) →
  0 < freq →
  ∃ s' dv',
    clockevents_config_and_register calc smp_processor_id num_possible_cpus
      d freq lo hi s = Done s' ∧
    d ∈ clockevent_devices (reg s') ∧
    clockevents_released (reg s') = [] ∧
    devs (reg s') !! d = Some dv' ∧
    mode dv' = CLOCK_EVT_MODE_UNUSED ∧
    min_delta_ticks dv' = lo ∧ max_delta_ticks dv' = hi ∧
    cpumask dv' ≠ None ∧
    (Z.land (features dv) CLOCK_EVT_FEAT_ONESHOT ≠ 0 →
     1000 ≤ min_delta_ns dv' ∧ 1000 ≤ max_delta_ns dv' ∧ mult dv' ≠ 0).
Proof.
  intros Hd Hmode Hactive Hreleased Hfreq.
  unfold clockevents_config_and_register.
  rewrite (on_device_run d dv) by done.
  set (m0 := {| dev := with_max_delta_ticks hi (with_min_delta_ticks lo dv);
                trace := hw s |}).
  assert ((modify_dev (with_min_delta_ticks lo);;
           modify_dev (with_max_delta_ticks hi))
            {| dev := dv; trace := hw s |} = (tt, m0)) as ->
    by (by run_M).
  cbn [mbind outcome_bind fst snd]. unfold on_device_try.
  cbn [reg hw devs with_devs]. rewrite lookup_insert_eq.
  rewrite config_or_trap_runs by lia.
  replace {| dev := dev m0; trace := trace m0 |} with m0 by done.
  destruct (config_effect freq m0)
    as ((Hm & Hmask & Hlo & Hhi & _ & _) & Hone & _).
  destruct (clockevents_config calc freq m0) as [[] mc].
  cbn [snd] in Hm, Hmask, Hlo, Hhi, Hone.
  cbn [mbind outcome_bind]. unfold register_in_system. cbn [reg hw].
  set (dc := dev mc) in *.
  cbn [m0 dev mode cpumask min_delta_ticks max_delta_ticks features
         with_max_delta_ticks with_min_delta_ticks] in Hm, Hmask, Hlo, Hhi,
    Hone.
  match goal with
  | |- context [clockevents_register_device _ _ d ?r] =>
      destruct (register_runs smp_processor_id num_possible_cpus d dc r)
        as [r' Hreg]
  end.
  { cbn [devs with_devs]. by rewrite lookup_insert_eq. }
  { congruence. }
  { done. }
  { done. }
  rewrite Hreg. cbn [mbind outcome_bind].
  apply register_done in Hreg as (dv1 & Hdv1 & _ & Hact & Hrel & Hdevs).
  cbn [devs with_devs clockevent_devices clockevents_released] in *.
  rewrite lookup_insert_eq in Hdv1. injection Hdv1 as <-.
  destruct (cpumask dc) as [mask|] eqn:Hcm.
  - eexists _, dc. split; [done|]. cbn [reg]. rewrite Hdevs.
    rewrite lookup_insert_eq. split_and!; try done; try congruence.
    rewrite Hact. apply elem_of_app. right. by apply elem_of_cons; left.
  - eexists _, (with_cpumask (Some {[smp_processor_id]}) dc).
    split; [done|]. cbn [reg]. rewrite Hdevs, lookup_insert_eq.
    split_and!; try done; try (cbn; congruence).
    rewrite Hact. apply elem_of_app. right. by apply elem_of_cons; left.
Qed.

(** X21.  [clockevents_update_freq] with a frequency above zero never
    retries: it returns after at most one [set_next_event], whatever the
    fuel; on a device that is not in ONESHOT mode it returns 0 without
    arming and leaves [next_event] as it was. *)
Theorem update_freq_never_retries HZ BITS_PER_LONG cfg ktime_get fuel freq m :
  0 < freq →
  ∃ rc m',
    clockevents_update_freq calc HZ BITS_PER_LONG cfg ktime_get fuel freq m
    = Done (Some rc, m') ∧
    (arm_count (trace m') ≤ arm_count (trace m) + 1)%nat ∧
    (mode (dev m) ≠ CLOCK_EVT_MODE_ONESHOT →
     rc = 0 ∧
     arm_count (trace m') = arm_count (trace m) ∧
     next_event (dev m') = next_event (dev m)).
Proof.
  intros Hfreq. unfold clockevents_update_freq.
  rewrite config_or_trap_runs by lia.
  destruct (config_effect freq m) as ((Hm & _ & _ & _ & Hnext & Harm) & _).
  destruct (clockevents_config calc freq m) as [[] mc]. cbn [snd] in *.
  cbn [mbind outcome_bind]. rewrite Hm.
  destruct (decide (mode (dev m) ≠ CLOCK_EVT_MODE_ONESHOT)) as [Hne|Heq].
  - exists 0, mc. split_and!; [done|lia|done].
  - destruct (program_event_unforced HZ BITS_PER_LONG cfg ktime_get fuel
                (next_event (dev mc)) mc) as (rc & Hrc & Hcount).
    destruct (clockevents_program_event _ _ _ _ _ _ _ mc) as [o m'].
    cbn [fst snd] in Hrc, Hcount. subst o.
    exists rc, m'. split_and!; [done|lia|done].
Qed.

(** With the frequency zero, both callers of [clockevents_config] fault
    on a device that supports oneshot. *)
Lemma update_freq_zero_faults HZ BITS_PER_LONG cfg ktime_get fuel m :
  Z.land (features (dev m)) CLOCK_EVT_FEAT_ONESHOT ≠ 0 →
  clockevents_update_freq calc HZ BITS_PER_LONG cfg ktime_get fuel 0 m
  = Fault.
Proof.
  intros Hone. unfold clockevents_update_freq.
  by rewrite config_or_trap_faults.
Qed.

End ConfigSystem.

(** * The further properties on concrete devices *)

Example mhz_timer_configured : configured mhz_timer.
Proof. split; vm_compute; reflexivity. Qed.

(** Without [mult <= 2^shift] the bounds can cross: with [mult = 7],
    [shift = 0] and both tick bounds at 10000, the minimum is rounded up
    and the maximum is not. *)
Example bounds_cross_above_1ghz :
  delta2ns_value 10000 seven_timer false = 1429 ∧
  delta2ns_value 10000 seven_timer true = 1428.
Proof. vm_compute. split; reflexivity. Qed.

Lemma delta2ns_zero_mult_witness :
  (mult (dev (on (with_mult 0 seven_timer))) = 0 ∧
   0 ≤ shift (dev (on (with_mult 0 seven_timer))) ∧ 0 ≤ 5000 < 2 ^ 64) ∧
  cev_delta2ns 5000 true (on (with_mult 0 seven_timer))
  = (Z.max 1000
       (scaled_latch 5000 (shift (dev (on (with_mult 0 seven_timer))))),
     {| dev := with_mult 1 (dev (on (with_mult 0 seven_timer)));
        trace := trace (on (with_mult 0 seven_timer)) ++ [EvWarn] |}).
Proof.
  split; [vm_compute; split_and!; done|].
  apply (delta2ns_zero_mult 5000 true (on (with_mult 0 seven_timer)));
    vm_compute; done.
Defined.

Lemma delta2ns_back_exact_witness :
  (0 < mult mhz_timer ≤ 2 ^ shift mhz_timer ∧ 0 ≤ shift mhz_timer < 32 ∧
   1000 * mult mhz_timer ≤ 4000000 * 2 ^ shift mhz_timer) ∧
  delta2clc (fst (cev_delta2ns 4000000 true (on mhz_timer)))
    (dev (on mhz_timer)) = 4000000.
Proof.
  split; [vm_compute; split_and!; done|].
  apply (delta2ns_back_exact 4000000 true (on mhz_timer));
    vm_compute; done.
Defined.

Lemma delta2ns_min_back_bounds_witness :
  (0 < mult seven_timer < 2 ^ 32 ∧
   1000 * mult seven_timer ≤ 10000 * 2 ^ shift seven_timer) ∧
  10000
  ≤ delta2clc (fst (cev_delta2ns 10000 false (on seven_timer)))
      (dev (on seven_timer))
  ≤ 10000 + Z.shiftr (mult (dev (on seven_timer)) - 1)
              (shift (dev (on seven_timer))).
Proof.
  split; [vm_compute; split_and!; done|].
  apply (delta2ns_min_back_bounds 10000 (on seven_timer));
    vm_compute; done.
Defined.

Lemma delta2ns_max_back_le_witness :
  (0 < mult seven_timer < 2 ^ 32 ∧ 0 ≤ shift seven_timer < 32 ∧
   1000 * mult seven_timer ≤ scaled_latch 10000 (shift seven_timer)) ∧
  delta2clc (fst (cev_delta2ns 10000 true (on seven_timer)))
    (dev (on seven_timer)) ≤ 10000.
Proof.
  split; [vm_compute; split_and!; done|].
  apply (delta2ns_max_back_le 10000 (on seven_timer)); vm_compute; done.
Defined.

Lemma oneshot_has_mult_kept_witness :
  oneshot_has_mult (dev (on (with_mult 0 seven_timer))) ∧
  oneshot_has_mult
    (dev (snd (clockevents_set_mode CLOCK_EVT_MODE_ONESHOT
                 (on (with_mult 0 seven_timer))))).
Proof.
  assert (oneshot_has_mult (dev (on (with_mult 0 seven_timer)))) as H
    by (intros Hm; vm_compute in Hm; discriminate Hm).
  split; [exact H|].
  apply (proj1 (oneshot_has_mult_kept (on (with_mult 0 seven_timer)) H)).
Defined.

Lemma program_min_delta_returns_witness :
  0 < 100 ∧
  ∃ r m',
    (r = 0 ∨ r = - ETIME) ∧
    ∀ fuel, (enough_fuel 100 (dev (on stuck_timer)) ≤ fuel)%nat →
      clockevents_program_min_delta 100 32 true clock_at_10 fuel
        (on stuck_timer)
      = (Some r, m').
Proof.
  split; [lia|].
  apply (program_min_delta_returns 100 32 clock_at_10 ltac:(lia)
           (on stuck_timer)).
Defined.

Lemma program_min_delta_only_raises_witness :
  0 < 100 ∧
  min_delta_ns (dev (on stuck_timer))
  ≤ min_delta_ns
      (dev (snd (clockevents_program_min_delta 100 32 true clock_at_10 7
                   (on stuck_timer))))
  ≤ Z.max (min_delta_ns (dev (on stuck_timer))) (MIN_DELTA_LIMIT 100).
Proof.
  split; [lia|].
  apply (program_min_delta_only_raises 100 32 clock_at_10 ltac:(lia)
           true 7%nat (on stuck_timer)).
Defined.

Lemma program_min_delta_counts_retries_witness :
  0 < 100 ∧
  ulong 32
    (retries
       (dev (snd (clockevents_program_min_delta 100 32 true clock_at_10 7
                    (on stuck_timer)))))
  = ulong 32
      (retries (dev (on stuck_timer))
       + Z.of_nat
           (arm_count
              (trace (snd (clockevents_program_min_delta 100 32 true
                             clock_at_10 7 (on stuck_timer))))
            - arm_count (trace (on stuck_timer)))).
Proof.
  split; [lia|].
  apply (program_min_delta_counts_retries 100 32 clock_at_10 ltac:(lia)
           true 7%nat (on stuck_timer)).
Defined.

Lemma program_event_returns_witness :
  0 < 100 ∧
  ∃ r m', ∀ fuel, (enough_fuel 100 (dev (on stuck_timer)) ≤ fuel)%nat →
    clockevents_program_event 100 32 true clock_at_10 fuel 5 true
      (on stuck_timer)
    = (Some r, m').
Proof.
  split; [lia|].
  apply (program_event_returns 100 32 clock_at_10 ltac:(lia) true 5 true
           (on stuck_timer)).
Defined.

Lemma program_event_forced_past_witness :
  (0 < 100 ∧ mode (dev (on mhz_timer)) ≠ CLOCK_EVT_MODE_SHUTDOWN ∧
   ktime_sub 5 (clock_at_10 (trace (on mhz_timer))) ≤ 0 ∧
   attempt_rc 32 clock_at_10 (after_clock clock_at_10 (stamped 5 (on mhz_timer)))
   = 0) ∧
  clockevents_program_event 100 32 true clock_at_10 1 5 true (on mhz_timer)
  = (Some 0,
     attempt 32 clock_at_10
       (after_clock clock_at_10 (stamped 5 (on mhz_timer)))).
Proof.
  split; [vm_compute; split_and!; done || discriminate|].
  apply (program_event_forced_past 100 32 clock_at_10 ltac:(lia) true 0%nat 5
           (on mhz_timer)); vm_compute; done || discriminate.
Defined.

Lemma config_sec_range_witness :
  (0 < 1000000 ∧ 0 ≤ max_delta_ticks mhz_timer < 2 ^ 64) ∧
  1 ≤ config_sec mhz_timer 1000000 ≤ UINT_MAX.
Proof.
  split; [vm_compute; split_and!; done|].
  apply (config_sec_range mhz_timer 1000000); vm_compute; done.
Defined.

Lemma config_bounds_ordered_witness :
  Z.land (features (dev (on slow_timer))) CLOCK_EVT_FEAT_ONESHOT ≠ 0 ∧
  1000
  ≤ min_delta_ns (dev (snd (clockevents_config calc_mhz 1000000
                              (on slow_timer))))
  ≤ max_delta_ns (dev (snd (clockevents_config calc_mhz 1000000
                              (on slow_timer)))).
Proof.
  split; [vm_compute; discriminate|].
  apply (config_bounds_ordered calc_mhz 1000000 (on slow_timer)).
  - vm_compute. discriminate.
  - vm_compute. split; [done|discriminate].
  - vm_compute. split; [discriminate|done].
  - vm_compute. split; discriminate.
  - left. vm_compute. done.
Defined.

Lemma program_event_arms_within_bounds_witness :
  (configured (dev (on mhz_timer)) ∧
   mode (dev (on mhz_timer)) ≠ CLOCK_EVT_MODE_SHUTDOWN ∧
   Z.land (features (dev (on mhz_timer))) CLOCK_EVT_FEAT_KTIME = 0 ∧
   0 ≤ 50000 ∧
   0 < ktime_sub 50000 (clock_at_10 (trace (on mhz_timer)))) ∧
  min_delta_ticks (dev (on mhz_timer))
  ≤ armed_clc (dev (on mhz_timer)) 50000
      (clock_at_10 (trace (on mhz_timer)))
  ≤ max_delta_ticks (dev (on mhz_timer)).
Proof.
  split.
  { split; [split; vm_compute; reflexivity|].
    split; [vm_compute; discriminate|].
    split; [vm_compute; reflexivity|].
    split; [lia|vm_compute; reflexivity]. }
  apply (program_event_arms_within_bounds 100 32 true clock_at_10 0%nat 50000
           (on mhz_timer)).
  - split; vm_compute; reflexivity.
  - vm_compute. split; [done|discriminate].
  - vm_compute. split; [discriminate|done].
  - vm_compute. split; discriminate.
  - vm_compute. discriminate.
  - vm_compute. done.
  - vm_compute. done.
  - vm_compute. done.
  - vm_compute. discriminate.
  - vm_compute. done.
  - lia.
  - vm_compute. done.
Defined.

Lemma five_devices_lists_ok : lists_ok five_devices.
Proof. apply (bool_decide_unpack _). vm_compute. exact I. Defined.

Lemma five_devices_prunable_1 :
  prunable broadcast_is_4 five_devices 1
    (clockevent_devices five_devices ++ clockevents_released five_devices).
Proof.
  intros d Hd. cbn [five_devices clockevent_devices clockevents_released app]
    in Hd.
  repeat (apply elem_of_cons in Hd as [->|Hd]); [..|by apply elem_of_nil in Hd].
  - exists (idle {[0%nat]}), {[0%nat]}.
    split; [reflexivity|]. split; reflexivity.
  - exists (idle {[0%nat; 1%nat]}), {[0%nat; 1%nat]}.
    split; [reflexivity|]. split; reflexivity.
  - exists (idle {[1%nat]}), {[1%nat]}.
    split; [reflexivity|]. split; reflexivity.
  - exists (idle {[0%nat]}), {[0%nat]}.
    split; [reflexivity|]. split; reflexivity.
  - exists (idle {[1%nat]}), {[1%nat]}.
    split; [reflexivity|]. split; reflexivity.
Defined.

Lemma lists_stay_ok_witness :
  lists_ok five_devices ∧
  ∀ r', 6%nat ∉ clockevent_devices five_devices →
        6%nat ∉ clockevents_released five_devices →
        clockevents_register_device 0 2 6 five_devices = Done r' →
        lists_ok r'.
Proof.
  split; [exact five_devices_lists_ok|].
  apply (proj1 (lists_stay_ok broadcast_is_4 0%nat 2 five_devices
                  five_devices_lists_ok) 6%nat).
Defined.

Lemma exchange_moves_old_shuts_new_witness :
  (1%nat ≠ 6%nat ∧ devs five_devices !! 1%nat = Some (idle {[0%nat]}) ∧
   devs five_devices !! 6%nat = Some (idle {[1%nat]}) ∧
   1%nat ∈ clockevent_devices five_devices) ∧
  ∃ s',
    clockevents_exchange_device (Some 1%nat) (Some 6%nat) five_system
    = Done s' ∧
    clockevents_released (reg s') = [1; 5]%nat ∧
    clockevent_devices (reg s') = [2; 3; 4]%nat ∧
    hw s' = [EvSetMode CLOCK_EVT_MODE_SHUTDOWN].
Proof.
  assert (1%nat ∈ clockevent_devices five_devices) as Hin
    by (apply elem_of_cons; by left).
  split; [split_and!; done|].
  destruct (exchange_moves_old_shuts_new 1%nat 6%nat (idle {[0%nat]})
              (idle {[1%nat]}) five_devices [] ltac:(done) eq_refl eq_refl
              eq_refl (or_introl Hin))
    as (s' & Hrun & _ & Hrel & Hact & _ & _ & _ & _ & Hhw).
  exists s'. split; [exact Hrun|]. split; [exact Hrel|].
  split; [exact Hact|exact Hhw].
Defined.

Lemma exchange_then_register_witness :
  (1%nat ≠ 6%nat ∧ 1%nat ∈ clockevent_devices five_devices ∧
   (6%nat ∉ clockevent_devices five_devices) ∧
   (6%nat ∉ clockevents_released five_devices)) ∧
  ∃ s1 r2,
    clockevents_exchange_device (Some 1%nat) None five_system = Done s1 ∧
    clockevents_register_device 0 2 6 (reg s1) = Done r2 ∧
    1%nat ∈ clockevent_devices r2 ∧
    clockevents_released r2 = [].
Proof.
  assert (1%nat ∈ clockevent_devices five_devices) as Hin
    by (apply elem_of_cons; by left).
  split.
  { split; [done|]. split; [exact Hin|].
    split; [exact six_not_active|exact six_not_released]. }
  destruct (exchange_then_register 0%nat 2 1%nat 6%nat (idle {[0%nat]})
              (idle {[1%nat]}) five_devices [] ltac:(done) eq_refl eq_refl
              eq_refl (or_introl Hin) six_not_active six_not_released)
    as (s1 & r2 & Hx & Hr & Hmem & Hrel & _).
  exists s1, r2. split; [exact Hx|]. split; [exact Hr|].
  split; [exact Hmem|exact Hrel].
Defined.

Lemma cpu_dead_twice_witness :
  prunable broadcast_is_4 five_devices 0 (clockevent_devices five_devices) ∧
  ∃ r1 r2,
    clockevents_notify broadcast_is_4 CLOCK_EVT_NOTIFY_CPU_DEAD (arg_cpu 0)
      five_devices = Done r1 ∧
    clockevents_notify broadcast_is_4 CLOCK_EVT_NOTIFY_CPU_DEAD (arg_cpu 0)
      r1 = Done r2 ∧
    clockevent_devices r2 = clockevent_devices r1 ∧
    clockevents_released r2 = [] ∧
    devs r2 = devs five_devices.
Proof.
  split; [exact five_devices_prunable|].
  apply (cpu_dead_twice broadcast_is_4 0%nat five_devices
           five_devices_prunable).
Defined.

Lemma register_then_cpu_dead_witness :
  (devs five_devices !! 6%nat = Some (idle {[1%nat]}) ∧
   broadcast_is_4 6 = false ∧
   (6%nat ∉ clockevent_devices five_devices) ∧
   (6%nat ∉ clockevents_released five_devices) ∧
   prunable broadcast_is_4 five_devices 1
     (clockevent_devices five_devices ++ clockevents_released five_devices)) ∧
  ∃ r1 r2,
    clockevents_register_device 0 2 6 five_devices = Done r1 ∧
    clockevents_notify broadcast_is_4 CLOCK_EVT_NOTIFY_CPU_DEAD (arg_cpu 1)
      r1 = Done r2 ∧
    (6%nat ∉ clockevent_devices r2) ∧
    clockevents_released r2 = [] ∧
    ∀ x, x ∈ clockevent_devices r2 ↔
         (x ∈ clockevent_devices five_devices
          ∨ x ∈ clockevents_released five_devices) ∧
         ¬ doomed broadcast_is_4 five_devices 1 x.
Proof.
  split.
  { split; [reflexivity|]. split; [reflexivity|].
    split; [exact six_not_active|].
    split; [exact six_not_released|exact five_devices_prunable_1]. }
  apply (register_then_cpu_dead broadcast_is_4 0%nat 2 1%nat 6%nat
           (idle {[1%nat]}) five_devices eq_refl eq_refl eq_refl eq_refl
           six_not_active six_not_released five_devices_prunable_1).
Defined.

Lemma config_and_register_result_witness :
  (devs (reg five_system) !! 6%nat = Some (idle {[1%nat]}) ∧
   mode (idle {[1%nat]}) = CLOCK_EVT_MODE_UNUSED ∧
   (6%nat ∉ clockevent_devices (reg five_system)) ∧
   (6%nat ∉ clockevents_released (reg five_system)) ∧
   0 < 1000000) ∧
  ∃ s' dv',
    clockevents_config_and_register calc_mhz 0 2 6 1000000 2 4294967295
      five_system = Done s' ∧
    6%nat ∈ clockevent_devices (reg s') ∧
    clockevents_released (reg s') = [] ∧
    devs (reg s') !! 6%nat = Some dv' ∧
    mode dv' = CLOCK_EVT_MODE_UNUSED ∧
    min_delta_ticks dv' = 2 ∧ max_delta_ticks dv' = 4294967295 ∧
    cpumask dv' ≠ None ∧
    (Z.land (features (idle {[1%nat]})) CLOCK_EVT_FEAT_ONESHOT ≠ 0 →
     1000 ≤ min_delta_ns dv' ∧ 1000 ≤ max_delta_ns dv' ∧ mult dv' ≠ 0).
Proof.
  split.
  { split; [reflexivity|]. split; [reflexivity|].
    split; [exact six_not_active|].
    split; [exact six_not_released|reflexivity]. }
  apply (config_and_register_result calc_mhz 0%nat 2 6%nat (idle {[1%nat]})
           1000000 2 4294967295 five_system eq_refl eq_refl six_not_active
           six_not_released eq_refl).
Defined.

Lemma update_freq_never_retries_witness :
  0 < 1000000 ∧
  ∃ rc m',
    clockevents_update_freq calc_mhz 100 32 true clock_at_10 0 1000000
      (on mhz_timer) = Done (Some rc, m') ∧
    (arm_count (trace m') ≤ arm_count (trace (on mhz_timer)) + 1)%nat ∧
    (mode (dev (on mhz_timer)) ≠ CLOCK_EVT_MODE_ONESHOT →
     rc = 0 ∧
     arm_count (trace m') = arm_count (trace (on mhz_timer)) ∧
     next_event (dev m') = next_event (dev (on mhz_timer))).
Proof.
  split; [reflexivity|].
  apply (update_freq_never_retries calc_mhz 100 32 true clock_at_10 0%nat
           1000000 (on mhz_timer) eq_refl).
Defined.

Example update_freq_unused_device :
  ∃ m', clockevents_update_freq calc_mhz 100 32 true clock_at_10 0 1000000
          (on (idle {[1%nat]}))
        = Done (Some 0, m') ∧ trace m' = [].
Proof. eexists. split; vm_compute; reflexivity. Qed.

Example update_freq_zero :
  clockevents_update_freq calc_mhz 100 32 true clock_at_10 0 0 (on mhz_timer)
  = Fault.
Proof. vm_compute. reflexivity. Qed.

Example config_and_register_zero :
  clockevents_config_and_register calc_mhz 0 2 6 0 2 4294967295 five_system
  = Fault.
Proof. vm_compute. reflexivity. Qed.

Example config_and_register_mhz :
  ∃ s' dv',
    clockevents_config_and_register calc_mhz 0 2 6 1000000 2 4294967295
      five_system = Done s' ∧
    devs (reg s') !! 6%nat = Some dv' ∧
    (mult dv', shift dv', min_delta_ns dv', max_delta_ns dv')
    = (2147484, 31, 2000, 4294966591001) ∧
    clockevent_devices (reg s') = [5; 6; 1; 2; 3; 4]%nat.
Proof. eexists _, _. split_and!; vm_compute; reflexivity. Qed.
